(** * IHCBridge: the state-synchronisation and escalation engine

    A shallow embedding of [IHCBridge.py]: the bridge object is a record, its
    methods are computations in a small state/exception/trace monad, and the
    external collaborators (clock, HTTP session, subprocess, broker, thread
    liveness) are answers read from an environment record.  The event-stream
    worker and its rebuild are modelled a second time as an interleaved
    step machine in [Module Supervisor].

    The file has two parts: the definitions (the embedding, then the
    vocabulary the statements use), and the lemmas and theorems. *)

From Stdlib Require Import String Ascii List ZArith Lia Bool.
From Stdlib Require Import DecimalString.
From Stdlib Require DecimalPos DecimalZ.
Import ListNotations.
Open Scope string_scope.
Open Scope Z_scope.

(* ================================================================= *)
(** ** Python values and string primitives *)

(** The scalar values a decoded JSON field can hold.  Floats, arrays and
    objects are outside this fragment. *)
Inductive pyval : Type :=
| PNone
| PBool (b : bool)
| PInt (z : Z)
| PStr (s : string).

(** [str(z)] for an integer. *)
Definition str_int (z : Z) : string := NilZero.string_of_int (Z.to_int z).

(** What an f-string interpolation [{v}] produces. *)
Definition py_str (v : pyval) : string :=
  match v with
  | PNone => "None"
  | PBool true => "True"
  | PBool false => "False"
  | PInt z => str_int z
  | PStr s => s
  end.

(** Truth value, as tested by [if v] and [x if v else y]. *)
Definition truthy (v : pyval) : bool :=
  match v with
  | PNone => false
  | PBool b => b
  | PInt z => negb (z =? 0)
  | PStr s => negb (s =? "")%string
  end.

(** [a == b]; a [bool] is an [int] in Python, so [True == 1]. *)
Definition py_eq (a b : pyval) : bool :=
  match a, b with
  | PNone, PNone => true
  | PBool x, PBool y => Bool.eqb x y
  | PBool x, PInt z | PInt z, PBool x => z =? (if x then 1 else 0)
  | PInt x, PInt y => x =? y
  | PStr x, PStr y => (x =? y)%string
  | _, _ => false
  end.

Definition is_none (v : pyval) : bool :=
  match v with PNone => true | _ => false end.

(** [d.get(k)] on a decoded JSON object: [None] when the key is missing. *)
Fixpoint get (d : list (string * pyval)) (k : string) : pyval :=
  match d with
  | [] => PNone
  | (k', v) :: d' => if (k' =? k)%string then v else get d' k
  end.

Definition upper_ascii (c : ascii) : ascii :=
  let n := nat_of_ascii c in
  if (97 <=? n)%nat && (n <=? 122)%nat then ascii_of_nat (n - 32) else c.

(** A [str] is held as its UTF-8 bytes; it is ASCII text when every byte
    is below 128. *)
Fixpoint is_ascii (s : string) : bool :=
  match s with
  | EmptyString => true
  | String c r => (nat_of_ascii c <? 128)%nat && is_ascii r
  end.

(** [s.upper()] for ASCII text [s]: the letters [a] to [z] are mapped,
    every other character is kept.  Outside ASCII [str.upper] maps further
    characters, some of them to ASCII letters, so a statement that depends
    on [upper s] being different from a word assumes [is_ascii s]. *)
Fixpoint upper (s : string) : string :=
  match s with
  | EmptyString => EmptyString
  | String c r => String (upper_ascii c) (upper r)
  end.

(** [s.split(sep)] for a one-character separator. *)
Fixpoint split (sep : ascii) (s : string) : list string :=
  match s with
  | EmptyString => [EmptyString]
  | String c r =>
      if Ascii.eqb c sep then EmptyString :: split sep r
      else match split sep r with
           | h :: t => String c h :: t
           | [] => [String c EmptyString]
           end
  end.

(** The blanks [int] skips around an ASCII literal: tab, line feed,
    vertical tab, form feed, carriage return and space. *)
Definition is_space (c : ascii) : bool :=
  let n := nat_of_ascii c in
  ((9 <=? n)%nat && (n <=? 13)%nat) || (n =? 32)%nat.

Fixpoint lstrip (s : string) : string :=
  match s with
  | String c r => if is_space c then lstrip r else s
  | EmptyString => EmptyString
  end.

Fixpoint rev_onto (s acc : string) : string :=
  match s with
  | EmptyString => acc
  | String c r => rev_onto r (String c acc)
  end.

Definition strip (s : string) : string :=
  rev_onto (lstrip (rev_onto (lstrip s) EmptyString)) EmptyString.

Definition digit_val (c : ascii) : option Z :=
  let n := nat_of_ascii c in
  if (48 <=? n)%nat && (n <=? 57)%nat then Some (Z.of_nat (n - 48)) else None.

(** Digits of an integer literal; a single underscore may separate two
    digits.  [after_digit] tells whether the previous character was one. *)
Fixpoint int_digits (s : string) (acc : Z) (after_digit : bool) : option Z :=
  match s with
  | EmptyString => if after_digit then Some acc else None
  | String c r =>
      if Ascii.eqb c "_" then
        if after_digit then int_digits r acc false else None
      else match digit_val c with
           | Some d => int_digits r (10 * acc + d) true
           | None => None
           end
  end.

(** [sys.int_info.default_max_str_digits]: [int] refuses a literal of
    more digits. *)
Definition int_max_str_digits : nat := 4300.

Fixpoint count_digits (s : string) : nat :=
  match s with
  | EmptyString => 0
  | String c r =>
      match digit_val c with
      | Some _ => S (count_digits r)
      | None => count_digits r
      end
  end.

(** [int(s)] for ASCII text [s]; [None] stands for the [ValueError].
    Every text it accepts is ASCII.  Outside ASCII [int] accepts further
    digits and blanks, so a statement that depends on [py_int s = None]
    assumes [is_ascii s]. *)
Definition py_int (s : string) : option Z :=
  if (int_max_str_digits <? count_digits s)%nat then None
  else
    match strip s with
    | String "-" r => option_map Z.opp (int_digits r 0 false)
    | String "+" r => int_digits r 0 false
    | t => int_digits t 0 false
    end.

(* ================================================================= *)
(** ** Insertion-ordered dictionaries *)

(** A Python [dict] keeps its keys in insertion order and iterates in that
    order; assigning to a present key keeps its position. *)

Section Dict.
Context {V : Type}.

Fixpoint dict_get (d : list (string * V)) (k : string) : option V :=
  match d with
  | [] => None
  | (k', v) :: d' => if (k' =? k)%string then Some v else dict_get d' k
  end.

(** [d[k] = v] *)
Fixpoint dict_set (d : list (string * V)) (k : string) (v : V)
  : list (string * V) :=
  match d with
  | [] => [(k, v)]
  | (k', v') :: d' =>
      if (k' =? k)%string then (k, v) :: d' else (k', v') :: dict_set d' k v
  end.

(** [del d[k]], for a key that is present. *)
Fixpoint dict_del (d : list (string * V)) (k : string) : list (string * V) :=
  match d with
  | [] => []
  | (k', v') :: d' =>
      if (k' =? k)%string then d' else (k', v') :: dict_del d' k
  end.

Definition dict_mem (d : list (string * V)) (k : string) : bool :=
  match dict_get d k with Some _ => true | None => false end.

Definition keys (d : list (string * V)) : list string := map fst d.

(** The shape every [dict] has: no key twice. *)
Definition dict_ok (d : list (string * V)) : Prop := NoDup (keys d).
End Dict.

(* ================================================================= *)
(** ** Effects, exceptions and the bridge object *)

Inductive level : Type := DEBUG | INFO | WARNING | ERROR.

(** The JSON bodies posted to [/ihcrequest]. *)
Inductive request : Type :=
| SetOutput (moduleNumber ioNumber : Z) (state : bool)
| GetAll.

(** Calls on the collaborators, in the order the bridge makes them. *)
Inductive effect : Type :=
| Log (lvl : level) (msg : string)
| Publish (topic payload : string) (retain : bool)
| Post (json : request) (auth : bool)
| Sleep (seconds : Z)
| SubprocessRun (args : list string) (check : bool)
| WsClose
| EventSet
| EventClear
| ThreadJoin (timeout : Z)
| ThreadStart
| MqttConnect
| MqttLoopStart
| MqttLoopStop
| MqttDisconnect.

Definition trace : Type := list effect.

(** The exception classes the source raises or names in an [except]
    clause; each is a subclass of [Exception]. *)
Inductive exn_class : Type :=
| CalledProcessError
| RequestException
| ValueError
| UnicodeDecodeError
| KeyError
| OSError.

Record exn : Type := mk_exn { exn_cls : exn_class; exn_text : string }.

Definition is_class (c : exn_class) (e : exn) : bool :=
  match c, exn_cls e with
  | CalledProcessError, CalledProcessError
  | RequestException, RequestException
  | ValueError, ValueError
  | UnicodeDecodeError, UnicodeDecodeError
  | KeyError, KeyError
  | OSError, OSError => true
  | _, _ => false
  end.

Arguments is_class : simpl never.

(** [except Exception] and a bare [except]. *)
Definition any_exception (_ : exn) : bool := true.

Inductive result (A : Type) : Type :=
| Ok (a : A)
| Raised (e : exn).

Arguments Ok {A} a.

Arguments Raised {A} e.

(** One entry of [pending_confirmations]. *)
Record info : Type := mk_info {
  i_state : bool;
  i_timestamp : Z;
  i_module : Z;
  i_output : Z
}.

(** The attributes of [IHCBridge] that change after [__init__]. [ws] and
    [ws_thread] record whether the attribute is not [None]. *)
Record bridge : Type := mk_bridge {
  running : bool;
  ws : bool;
  ws_thread : bool;
  ws_stop_event : bool;
  pending_confirmations : list (string * info);
  confirmation_failures : list Z;
  last_check_time : Z
}.

(** The object [__init__] builds. *)
Definition init : bridge :=
  mk_bridge false false false false [] [] 0.

Definition ihc_host : string := "IP OF IHC SERVER".

Definition ihc_port : string := "8081".

Definition ihc_username : string := "admin".

Definition ihc_password : string := "12345678".

Definition mqtt_host : string := "IP OF MQTT BROKER".

Definition mqtt_port : Z := 1883.

Definition confirmation_timeout : Z := 10.

Definition failure_threshold : nat := 3.

Definition failure_window : Z := 300.

Definition set_running (b : bool) (s : bridge) : bridge :=
  mk_bridge b (ws s) (ws_thread s) (ws_stop_event s)
    (pending_confirmations s) (confirmation_failures s) (last_check_time s).

Definition set_ws (b : bool) (s : bridge) : bridge :=
  mk_bridge (running s) b (ws_thread s) (ws_stop_event s)
    (pending_confirmations s) (confirmation_failures s) (last_check_time s).

Definition set_ws_thread (b : bool) (s : bridge) : bridge :=
  mk_bridge (running s) (ws s) b (ws_stop_event s)
    (pending_confirmations s) (confirmation_failures s) (last_check_time s).

Definition set_ws_stop_event (b : bool) (s : bridge) : bridge :=
  mk_bridge (running s) (ws s) (ws_thread s) b
    (pending_confirmations s) (confirmation_failures s) (last_check_time s).

Definition set_pending (d : list (string * info)) (s : bridge) : bridge :=
  mk_bridge (running s) (ws s) (ws_thread s) (ws_stop_event s)
    d (confirmation_failures s) (last_check_time s).

Definition set_failures (l : list Z) (s : bridge) : bridge :=
  mk_bridge (running s) (ws s) (ws_thread s) (ws_stop_event s)
    (pending_confirmations s) l (last_check_time s).

(** *** The monad: state, exceptions, and the trace of calls made *)

Definition M (A : Type) : Type := bridge -> result A * bridge * trace.

Definition ret {A} (a : A) : M A := fun s => (Ok a, s, []).

Definition bind {A B} (c : M A) (k : A -> M B) : M B :=
  fun s =>
    match c s with
    | (Ok a, s1, t1) =>
        match k a s1 with (r, s2, t2) => (r, s2, (t1 ++ t2)%list) end
    | (Raised e, s1, t1) => (Raised e, s1, t1)
    end.

Definition raise {A} (e : exn) : M A := fun s => (Raised e, s, []).

(** [try: c  except <classes matched by catches> as e: h e] *)
Definition try_except {A} (c : M A) (catches : exn -> bool) (h : exn -> M A)
  : M A :=
  fun s =>
    match c s with
    | (Raised e, s1, t1) =>
        if catches e
        then match h e s1 with (r, s2, t2) => (r, s2, (t1 ++ t2)%list) end
        else (Raised e, s1, t1)
    | ok => ok
    end.

Definition emit (x : effect) : M unit := fun s => (Ok tt, s, [x]).

Definition gets {A} (f : bridge -> A) : M A := fun s => (Ok (f s), s, []).

Definition modify (f : bridge -> bridge) : M unit := fun s => (Ok tt, f s, []).

Notation "x <- c1 ;; c2" := (bind c1 (fun x => c2))
  (at level 61, c1 at next level, right associativity).

Notation "c1 ;; c2" := (bind c1 (fun _ => c2))
  (at level 61, right associativity).

Definition log (l : level) (m : string) : M unit := emit (Log l m).

Definition publish (topic payload : string) (retain : bool) : M unit :=
  emit (Publish topic payload retain).

Definition sleep (seconds : Z) : M unit := emit (Sleep seconds).

(** *** Answers of the collaborators *)

(** One entry of [outputStates] or [inputStates]: its number and its
    state. *)
Record io_state : Type := mk_io { io_number : pyval; io_value : pyval }.

(** One module of a [getAll] reply: [state], [moduleNumber] and its
    entries. *)
Record ihc_module : Type := mk_module {
  module_state : pyval;
  module_number : pyval;
  module_ios : list io_state
}.

(** The decoded body of a [getAll] reply: [modules.outputModules] and
    [modules.inputModules]. *)
Record ihc_data : Type := mk_data {
  outputModules : list ihc_module;
  inputModules : list ihc_module
}.

(** The body of a response as [response.json()] finds it: JSON that
    decodes to a reply, or text on which [json()] raises ([requests] 2.27
    and later raise a [RequestException] there, earlier versions a
    [ValueError]). *)
Inductive json_body : Type :=
| Decoded (data : ihc_data)
| Undecodable (e : exn).

(** What [session.post] does: a response, or an exception. *)
Inductive http_outcome : Type :=
| Response (status_code : Z) (text : string) (json : json_body)
| HttpRaises (e : exn).

(** What [subprocess.run] meets: the command ran and exited with a status,
    or it could not be launched. *)
Inductive proc_outcome : Type :=
| Exited (returncode : Z)
| NotLaunched (e : exn).

(** What the outside world answers during one call of a method:
    - [time_time]: the reading of [time.time()], in seconds (the clock is
      read once per method; its float arithmetic is taken as exact);
    - [post_setOutput]: what the [setOutput] post meets;
    - [post_getAll k]: what the [k]-th [getAll] probe meets;
    - [run_systemctl], [run_reboot]: what the two commands do;
    - [ws_close_raises]: whether [self.ws.close()] raises;
    - [mqtt_connect_raises k]: whether the [k]-th [connect] raises;
    - [thread_is_alive]: [self.ws_thread.is_alive()]. *)
Record env : Type := mk_env {
  time_time : Z;
  post_setOutput : http_outcome;
  post_getAll : nat -> http_outcome;
  run_systemctl : proc_outcome;
  run_reboot : proc_outcome;
  ws_close_raises : option exn;
  mqtt_connect_raises : nat -> option exn;
  thread_is_alive : bool
}.

(* ================================================================= *)
(** ** The methods of [IHCBridge] *)

Definition on_off (b : bool) : string := if b then "ON" else "OFF".

Definition py_bool_str (b : bool) : string := if b then "True" else "False".

Definition str_nat (n : nat) : string := str_int (Z.of_nat n).

Definition ihc_url : string :=
  "http://" ++ ihc_host ++ ":" ++ ihc_port ++ "/ihcrequest".

(** [if self.ihc_username and self.ihc_password] *)
Definition have_credentials : bool :=
  negb (ihc_username =? "")%string && negb (ihc_password =? "")%string.

(** [self.session.post(ihc_url, json=..., timeout=5)], with or without
    [auth]; yields the response: its status code, its text and its body. *)
Definition session_post (json : request) (auth : bool) (o : http_outcome)
  : M (Z * string * json_body) :=
  emit (Post json auth) ;;
  match o with
  | Response c t j => ret (c, t, j)
  | HttpRaises e => raise e
  end.

Definition systemctl_args : list string :=
  ["sudo"; "systemctl"; "restart"; "ihcserver"].

Definition reboot_args : list string := ["sudo"; "reboot"].

(** [subprocess.run(args, check=check)]: with [check] a non-zero exit
    status raises [CalledProcessError]; without it the status is ignored. *)
Definition subprocess_run (args : list string) (check : bool)
  (o : proc_outcome) : M unit :=
  emit (SubprocessRun args check) ;;
  match o with
  | Exited c =>
      if check && negb (c =? 0)
      then raise (mk_exn CalledProcessError
                    ("non-zero exit status " ++ str_int c))
      else ret tt
  | NotLaunched e => raise e
  end.

Fixpoint for_each {A} (l : list A) (body : A -> M unit) : M unit :=
  match l with
  | [] => ret tt
  | x :: l' => body x ;; for_each l' body
  end.

(** The key of [pending_confirmations]: [f"{module}_{output}"]. *)
Definition confirmation_key (module output : string) : string :=
  module ++ "_" ++ output.

(** The bus topic [f"ihc/{direction}/{module}/{io}/state"]. *)
Definition state_topic (direction module io : string) : string :=
  "ihc/" ++ direction ++ "/" ++ module ++ "/" ++ io ++ "/state".

Definition repr_request (r : request) : string :=
  match r with
  | SetOutput m o st =>
      "{'type': 'setOutput', 'moduleNumber': " ++ str_int m ++
      ", 'ioNumber': " ++ str_int o ++ ", 'state': " ++ py_bool_str st ++ "}"
  | GetAll => "{'type': 'getAll'}"
  end.

(** [del self.pending_confirmations[key]] *)
Definition del_pending (key : string) : M unit :=
  pend <- gets pending_confirmations ;;
  if dict_mem pend key
  then modify (set_pending (dict_del pend key))
  else raise (mk_exn KeyError key).

Definition set_ihc_output (e : env) (module output : Z) (state : bool)
  : M unit :=
  let payload := SetOutput module output state in
  try_except
    (log DEBUG ("Sending command to IHC: " ++ repr_request payload) ;;
     response <- (if have_credentials
                  then session_post payload true (post_setOutput e)
                  else session_post payload false (post_setOutput e)) ;;
     let '(status_code, text, _) := response in
     if status_code =? 200 then
       let key := confirmation_key (str_int module) (str_int output) in
       pend <- gets pending_confirmations ;;
       modify (set_pending
                 (dict_set pend key
                    (mk_info state (time_time e) module output))) ;;
       let topic := state_topic "output" (str_int module) (str_int output) in
       publish topic (on_off state) true ;;
       log INFO ("Successfully set output " ++ str_int module ++ "/" ++
                 str_int output ++ " to " ++ on_off state)
     else
       log WARNING ("IHC server returned status code " ++
                    str_int status_code ++ ": " ++ text))
    (is_class RequestException)
    (fun ex => log ERROR ("Error communicating with IHC server: " ++
                          exn_text ex)).

Definition publish_initial (direction : string) (module : ihc_module)
  : M unit :=
  if truthy (module_state module) then
    for_each (module_ios module) (fun io =>
      let state := if truthy (io_value io) then "ON" else "OFF" in
      let topic := state_topic direction (py_str (module_number module))
                     (py_str (io_number io)) in
      publish topic state true ;;
      log DEBUG ("Published initial state: " ++ topic ++ " = " ++ state))
  else ret tt.

Definition process_ihc_states (data : ihc_data) : M unit :=
  try_except
    (for_each (outputModules data) (publish_initial "output") ;;
     for_each (inputModules data) (publish_initial "input"))
    any_exception
    (fun ex => log ERROR ("Error processing IHC states: " ++ exn_text ex)).

(** [response.json()] *)
Definition response_json (b : json_body) : M ihc_data :=
  match b with
  | Decoded data => ret data
  | Undecodable ex => raise ex
  end.

(** [o] is what the [getAll] post meets. *)
Definition test_ihc_connection (o : http_outcome) : M bool :=
  try_except
    (log INFO ("Testing connection to IHC server at " ++ ihc_url) ;;
     response <- (if have_credentials
                  then session_post GetAll true o
                  else session_post GetAll false o) ;;
     let '(status_code, _, content) := response in
     if status_code =? 200 then
       data <- response_json content ;;
       process_ihc_states data ;;
       log INFO "IHC API connection successful" ;;
       ret true
     else
       log ERROR ("IHC API returned status code " ++ str_int status_code) ;;
       ret false)
    (is_class RequestException)
    (fun ex => log ERROR ("Error testing IHC connection: " ++ exn_text ex) ;;
               ret false).

Definition max_retries : nat := 5.

(** The [while retry_count < max_retries] loop of [reset_connections];
    [fuel] is [max_retries - retry_count]. *)
Fixpoint reconnect_loop (e : env) (fuel retry_count : nat) : M bool :=
  match fuel with
  | O =>
      log ERROR "Failed to reconnect to IHC server after multiple attempts" ;;
      ret false
  | S fuel' =>
      ok <- test_ihc_connection (post_getAll e retry_count) ;;
      if ok then
        log INFO "Successfully reconnected to IHC server" ;;
        ret true
      else
        log WARNING ("Reconnection attempt " ++ str_nat (retry_count + 1) ++
                     "/" ++ str_nat max_retries ++ " failed, retrying...") ;;
        sleep 5 ;;
        reconnect_loop e fuel' (S retry_count)
  end.

Definition ws_close (e : env) : M unit :=
  emit WsClose ;;
  match ws_close_raises e with
  | Some ex => raise ex
  | None => ret tt
  end.

Definition reset_connections (e : env) : M bool :=
  log INFO "Resetting connections after IHC server restart" ;;
  has_ws <- gets ws ;;
  (if has_ws then
     try_except (ws_close e) any_exception (fun _ => ret tt) ;;
     modify (set_ws false)
   else ret tt) ;;
  emit EventSet ;; modify (set_ws_stop_event true) ;;
  th <- gets ws_thread ;;
  (if th && thread_is_alive e then emit (ThreadJoin 3) else ret tt) ;;
  emit EventClear ;; modify (set_ws_stop_event false) ;;
  modify (set_ws_thread true) ;;
  emit ThreadStart ;;
  reconnect_loop e max_retries 0.

Definition restart_ihc_server (e : env) (scheduled : bool) : M unit :=
  log WARNING "Restarting IHC server due to repeated failures" ;;
  try_except
    (subprocess_run systemctl_args true (run_systemctl e) ;;
     log INFO "IHC server restarted successfully" ;;
     sleep 10 ;;
     _ <- reset_connections e ;;
     ret tt)
    (is_class CalledProcessError)
    (fun ex => log ERROR ("Error restarting IHC server: " ++ exn_text ex)).

Definition restart_raspberry_pi (e : env) : M unit :=
  log WARNING "Initiating Raspberry Pi restart" ;;
  try_except
    (publish "ihc/system/status" "Restarting Raspberry Pi in 10 seconds..."
       false ;;
     sleep 5 ;;
     modify (set_running false) ;;
     emit EventSet ;; modify (set_ws_stop_event true) ;;
     has_ws <- gets ws ;;
     (if has_ws then ws_close e else ret tt) ;;
     emit MqttLoopStop ;;
     emit MqttDisconnect ;;
     sleep 5 ;;
     subprocess_run reboot_args false (run_reboot e))
    any_exception
    (fun ex =>
       log ERROR ("Error restarting Raspberry Pi: " ++ exn_text ex) ;;
       modify (set_running true) ;;
       _ <- reset_connections e ;;
       ret tt).

(** One pass of the [for key, info in ...items()] loop of
    [check_pending_confirmations] over the remaining items, with the
    locals [restart_needed] and [keys_to_remove]. *)
Fixpoint sweep_loop (current_time : Z) (items : list (string * info))
  (restart_needed : bool) (keys_to_remove : list string)
  : M (bool * list string) :=
  match items with
  | [] => ret (restart_needed, keys_to_remove)
  | (key, inf) :: rest =>
      if current_time - i_timestamp inf >? confirmation_timeout then
        log WARNING ("No state confirmation received for " ++
                     str_int (i_module inf) ++ "/" ++ str_int (i_output inf) ++
                     " -> " ++ on_off (i_state inf)) ;;
        fs <- gets confirmation_failures ;;
        modify (set_failures (fs ++ [current_time])%list) ;;
        fs <- gets confirmation_failures ;;
        modify (set_failures
                  (filter (fun t => current_time - t <? failure_window) fs)) ;;
        fs <- gets confirmation_failures ;;
        let restart_needed :=
          if (failure_threshold <=? length fs)%nat then true
          else restart_needed in
        sweep_loop current_time rest restart_needed
          (keys_to_remove ++ [key])%list
      else
        sweep_loop current_time rest restart_needed keys_to_remove
  end.

Definition check_pending_confirmations (e : env) : M unit :=
  let current_time := time_time e in
  pend <- gets pending_confirmations ;;
  r <- sweep_loop current_time pend false [] ;;
  let '(restart_needed, keys_to_remove) := r in
  for_each keys_to_remove del_pending ;;
  if restart_needed then
    modify (set_failures []) ;;
    restart_ihc_server e false
  else ret tt.

Definition process_ihc_event (event : list (string * pyval)) : M unit :=
  try_except
    (let event_type := get event "type" in
     let module_number := get event "moduleNumber" in
     let io_number := get event "ioNumber" in
     let state := get event "state" in
     if is_none event_type || is_none module_number || is_none io_number
        || is_none state || py_eq event_type (PStr "ping")
     then ret tt
     else
       let mqtt_state := if truthy state then "ON" else "OFF" in
       let topic := state_topic (py_str event_type) (py_str module_number)
                      (py_str io_number) in
       publish topic mqtt_state true ;;
       log INFO ("Published event: " ++ topic ++ " = " ++ mqtt_state) ;;
       if py_eq event_type (PStr "outputState") then
         let key := confirmation_key (py_str module_number)
                      (py_str io_number) in
         pend <- gets pending_confirmations ;;
         match dict_get pend key with
         | Some inf =>
             if py_eq (PBool (i_state inf)) state then
               del_pending key ;;
               log DEBUG ("State change confirmed for " ++
                          py_str module_number ++ "/" ++ py_str io_number)
             else ret tt
         | None => ret tt
         end
       else ret tt)
    any_exception
    (fun ex => log ERROR ("Error processing IHC event: " ++ exn_text ex)).

(** A delivered bus message: its topic, and its payload bytes, which
    either decode as UTF-8 text or do not. *)
Inductive payload_bytes : Type :=
| Utf8 (text : string)
| NotUtf8.

Record message : Type := mk_message { topic : string; payload : payload_bytes }.

(** [msg.payload.decode()] *)
Definition decode (p : payload_bytes) : M string :=
  match p with
  | Utf8 t => ret t
  | NotUtf8 =>
      raise (mk_exn UnicodeDecodeError "'utf-8' codec can't decode bytes")
  end.

(** [int(s)] *)
Definition int_of (s : string) : M Z :=
  match py_int s with
  | Some z => ret z
  | None =>
      raise (mk_exn ValueError
               ("invalid literal for int() with base 10: '" ++ s ++ "'"))
  end.

(** The system-command prefix of [on_message]; [true] when it returned. *)
Definition system_command (e : env) (topic payload : string) : M bool :=
  if (topic =? "ihc/system/restart")%string then
    if (upper payload =? "RESTART")%string then
      log INFO "Received manual restart command via MQTT" ;;
      restart_ihc_server e true ;;
      publish "ihc/system/status" "Restarting IHC server" false ;;
      ret true
    else ret false
  else if (topic =? "ihc/system/pi_restart")%string then
    if (upper payload =? "RESTART")%string then
      log INFO "Received Raspberry Pi restart command via MQTT" ;;
      restart_raspberry_pi e ;;
      ret true
    else ret false
  else ret false.

(** The test on [topic_parts] that rejects a topic. *)
Definition invalid_topic (topic_parts : list string) : bool :=
  negb (length topic_parts =? 5)%nat
  || negb (nth 0 topic_parts "" =? "ihc")%string
  || negb (nth 1 topic_parts "" =? "output")%string
  || negb (nth 4 topic_parts "" =? "set")%string.

Definition on_message (e : env) (msg : message) : M unit :=
  try_except
    (let topic := topic msg in
     payload <- decode (payload msg) ;;
     returned <- system_command e topic payload ;;
     if returned then ret tt
     else
       let topic_parts := split "/" topic in
       if invalid_topic topic_parts then
         log WARNING ("Invalid topic format: " ++ topic)
       else
         let module := nth 2 topic_parts "" in
         let output := nth 3 topic_parts "" in
         let state := (upper payload =? "ON")%string in
         log INFO ("Received command: module=" ++ module ++ ", output=" ++
                   output ++ ", state=" ++ on_off state) ;;
         m <- int_of module ;;
         o <- int_of output ;;
         set_ihc_output e m o state)
    any_exception
    (fun ex => log ERROR ("Error handling message: " ++ exn_text ex)).

(** The [while retry_count < max_retries] loop of [connect_mqtt]; [fuel]
    is [max_retries - retry_count].  An iteration either returns a value
    or goes round again. *)
Fixpoint connect_loop (e : env) (fuel retry_count : nat) : M bool :=
  match fuel with
  | O => ret false
  | S fuel' =>
      returned <-
        try_except
          (log INFO ("Connecting to MQTT broker at " ++ mqtt_host ++ ":" ++
                     str_int mqtt_port ++ "...") ;;
           emit MqttConnect ;;
           match mqtt_connect_raises e retry_count with
           | Some ex => raise ex
           | None =>
               log INFO "MQTT connection established" ;;
               ret (Some true)
           end)
          any_exception
          (fun ex =>
             let retry_count := S retry_count in
             log ERROR ("MQTT connection failed: " ++ exn_text ex ++
                        ". Retry " ++ str_nat retry_count ++ "/" ++
                        str_nat max_retries) ;;
             if (retry_count <? max_retries)%nat then
               sleep 5 ;; ret None
             else
               log ERROR "Max MQTT connection retries reached" ;;
               ret (Some false)) ;;
      match returned with
      | Some b => ret b
      | None => connect_loop e fuel' (S retry_count)
      end
  end.

Definition connect_mqtt (e : env) : M bool := connect_loop e max_retries 0.

(** [run] up to the main loop; [true] when the loop is entered, [false]
    when [run] returned before it. *)
Definition run_startup (e : env) : M bool :=
  ok <- test_ihc_connection (post_getAll e 0) ;;
  (if negb ok then
     log ERROR "Initial connection to IHC server failed. Please check your IHC server configuration." ;;
     log INFO "The bridge will still start, but it may not work correctly until the IHC server is accessible."
   else ret tt) ;;
  connected <- connect_mqtt e ;;
  if negb connected then
    log ERROR "Failed to connect to MQTT broker. Exiting." ;;
    ret false
  else
    emit MqttLoopStart ;;
    modify (set_running true) ;;
    modify (set_ws_thread true) ;;
    emit ThreadStart ;;
    log INFO "IHC-MQTT Bridge started" ;;
    ret true.

(* ================================================================= *)
(** ** Vocabulary of the statements *)

(** *** Topics as the bus names them *)

Fixpoint no_sep (sep : ascii) (s : string) : bool :=
  match s with
  | EmptyString => true
  | String c r => negb (Ascii.eqb c sep) && no_sep sep r
  end.

(** [sep.join(l)] *)
Fixpoint join (sep : ascii) (l : list string) : string :=
  match l with
  | [] => EmptyString
  | [x] => x
  | x :: l' => x ++ String sep (join sep l')
  end.

(** A device-set topic as the bus names it:
    [ihc/output/{module}/{output}/set], five segments. *)
Definition device_set_topic (t module output : string) : Prop :=
  no_sep "/" module = true /\ no_sep "/" output = true /\
  t = "ihc/output/" ++ module ++ "/" ++ output ++ "/set".

(** *** Observing a computation *)

Definition result_of {A} (x : result A * bridge * trace) : result A :=
  fst (fst x).

Definition state_of {A} (x : result A * bridge * trace) : bridge :=
  snd (fst x).

Definition trace_of {A} (x : result A * bridge * trace) : trace := snd x.

(** [keeps R T c]: whatever [c] does and however it ends, the state it
    leaves is [R]-related to the one it found and every call it makes
    satisfies [T]. *)
Definition keeps {A} (R : bridge -> bridge -> Prop) (T : effect -> Prop)
  (c : M A) : Prop :=
  forall s, R s (state_of (c s)) /\ Forall T (trace_of (c s)).

(** The registry and the failure window are left as they were. *)
Definition same_registry (s s' : bridge) : Prop :=
  pending_confirmations s' = pending_confirmations s /\
  confirmation_failures s' = confirmation_failures s.

(** The registry, the window and the running flag are left as they were. *)
Definition same_core (s s' : bridge) : Prop :=
  same_registry s s' /\ running s' = running s.

(** A service-restart trigger: the [systemctl restart] invocation. *)
Definition is_trigger (x : effect) : bool :=
  match x with
  | SubprocessRun args _ =>
      if list_eq_dec string_dec args systemctl_args then true else false
  | _ => false
  end.

Definition triggers (t : trace) : nat := length (filter is_trigger t).

Definition is_publish (x : effect) : bool :=
  match x with Publish _ _ _ => true | _ => false end.

(** Calls other than running a command. *)
Definition plain (x : effect) : Prop :=
  match x with
  | SubprocessRun _ _ => False
  | _ => True
  end.

(** *** The sweep and the failure window, in closed form *)

Definition is_expired (now : Z) (kv : string * info) : bool :=
  now - i_timestamp (snd kv) >? confirmation_timeout.

(** The keys the sweep collects in [keys_to_remove]. *)
Definition expired (now : Z) (items : list (string * info)) : list string :=
  keys (filter (is_expired now) items).

Definition fresh (now t : Z) : bool := now - t <? failure_window.

(** One pass of the loop body over the window: append, then prune. *)
Definition note_failure (now : Z) (fs : list Z) : list Z :=
  filter (fresh now) (fs ++ [now]).

Fixpoint window_after (now : Z) (k : nat) (fs : list Z) : list Z :=
  match k with
  | O => fs
  | S k' => window_after now k' (note_failure now fs)
  end.

Fixpoint flag_after (now : Z) (k : nat) (fs : list Z) (flag : bool) : bool :=
  match k with
  | O => flag
  | S k' =>
      let fs' := note_failure now fs in
      flag_after now k' fs'
        (if (failure_threshold <=? length fs')%nat then true else flag)
  end.

Definition timeout_warning (kv : string * info) : effect :=
  Log WARNING ("No state confirmation received for " ++
               str_int (i_module (snd kv)) ++ "/" ++
               str_int (i_output (snd kv)) ++ " -> " ++
               on_off (i_state (snd kv))).

(** The state a sweep leaves, the number of service restarts it fires and
    the number of entries it finds expired. *)
Definition after (e : env) (s : bridge) : bridge :=
  state_of (check_pending_confirmations e s).

Definition fired (e : env) (s : bridge) : nat :=
  triggers (trace_of (check_pending_confirmations e s)).

Definition timeouts (e : env) (s : bridge) : nat :=
  length (expired (time_time e) (pending_confirmations s)).

(** The window a sweep at [now] builds from [fs] when [k] entries expired:
    the entries of [fs] still inside the span, then [now] once per entry. *)
Definition pruned_window (now : Z) (k : nat) (fs : list Z) : list Z :=
  (filter (fresh now) fs ++ repeat now k)%list.

(** Three successive sweeps, each finding exactly one expired entry, the
    failure window starting empty and carried from one sweep to the next
    (the registry may change in between). *)
Definition three_timeouts (e1 e2 e3 : env) (s1 s2 s3 : bridge) : Prop :=
  dict_ok (pending_confirmations s1) /\
  dict_ok (pending_confirmations s2) /\
  dict_ok (pending_confirmations s3) /\
  timeouts e1 s1 = 1%nat /\ timeouts e2 s2 = 1%nat /\ timeouts e3 s3 = 1%nat /\
  confirmation_failures s1 = [] /\
  confirmation_failures s2 = confirmation_failures (after e1 s1) /\
  confirmation_failures s3 = confirmation_failures (after e2 s2).

(** *** The calls the relay and the ingress are expected to make *)

Definition confirmed_log (m io : pyval) : effect :=
  Log DEBUG ("State change confirmed for " ++ py_str m ++ "/" ++ py_str io).

Definition relay_head (ty m io st : pyval) : trace :=
  let mqtt_state := if truthy st then "ON" else "OFF" in
  let topic := state_topic (py_str ty) (py_str m) (py_str io) in
  [Publish topic mqtt_state true;
   Log INFO ("Published event: " ++ topic ++ " = " ++ mqtt_state)].

Definition sending_log (m o : Z) (st : bool) : effect :=
  Log DEBUG ("Sending command to IHC: " ++ repr_request (SetOutput m o st)).

Definition echo (m o : Z) (st : bool) : effect :=
  Publish (state_topic "output" (str_int m) (str_int o)) (on_off st) true.

Definition received_log (module output : string) (st : bool) : effect :=
  Log INFO ("Received command: module=" ++ module ++ ", output=" ++
            output ++ ", state=" ++ on_off st).

(** The registry after a successful submission. *)
Definition registered (e : env) (m o : Z) (st : bool) (s : bridge) : bridge :=
  set_pending
    (dict_set (pending_confirmations s)
       (confirmation_key (str_int m) (str_int o))
       (mk_info st (time_time e) m o)) s.

(** *** The host restart *)

Definition pi_restart_trace (had_ws : bool) : trace :=
  ([Log WARNING "Initiating Raspberry Pi restart";
    Publish "ihc/system/status" "Restarting Raspberry Pi in 10 seconds..."
      false;
    Sleep 5; EventSet] ++
   (if had_ws then [WsClose] else []) ++
   [MqttLoopStop; MqttDisconnect; Sleep 5; SubprocessRun reboot_args false])%list.

(** *** Startup *)

(** Calls that neither touch a connection nor start anything. *)
Definition quiet (x : effect) : Prop :=
  match x with
  | Log _ _ | Publish _ _ _ | Post _ _ | Sleep _ | MqttConnect => True
  | _ => False
  end.

(** The first [getAll] probe is refused or times out: [requests] raises a
    [RequestException]. *)
Definition api_unreachable (e : env) : Prop :=
  exists ex, post_getAll e 0 = HttpRaises ex /\
             is_class RequestException ex = true.

(** A probe that ends in a way [test_ihc_connection] handles: whatever it
    raises, from the post or from [response.json()] on a status-200
    answer, is a [RequestException]. *)
Definition handled (o : http_outcome) : Prop :=
  match o with
  | Response _ _ (Decoded _) => True
  | Response c _ (Undecodable ex) =>
      c = 200 -> is_class RequestException ex = true
  | HttpRaises ex => is_class RequestException ex = true
  end.

(** The first probe gets a response of some status, or is unreachable. *)
Definition api_answers (e : env) : Prop := handled (post_getAll e 0).

Definition accepted (e : env) (k : nat) : bool :=
  match mqtt_connect_raises e k with None => true | Some _ => false end.

(** The broker refuses each of the first [n] connection attempts. *)
Definition broker_refuses (e : env) (n : nat) : Prop :=
  forall k, (k < n)%nat -> accepted e k = false.

(** The broker accepts one of the first [n] connection attempts. *)
Definition broker_accepts (e : env) (n : nat) : Prop :=
  exists k, (k < n)%nat /\ accepted e k = true.

(** [run] got as far as its main loop. *)
Definition started (r : result bool * bridge * trace) : Prop :=
  result_of r = Ok true /\ running (state_of r) = true /\
  In MqttLoopStart (trace_of r) /\ In ThreadStart (trace_of r).

Definition api_failed_log : effect :=
  Log ERROR "Initial connection to IHC server failed. Please check your IHC server configuration.".

Definition exiting_log : effect :=
  Log ERROR "Failed to connect to MQTT broker. Exiting.".

Definition no_data : ihc_data := mk_data [] [].

(** An environment in which the controller answers and the broker refuses
    every connection. *)
Definition broker_down : env :=
  mk_env 0 (Response 200 "" (Decoded no_data)) (fun _ => Response 200 "" (Decoded no_data))
    (Exited 0) (Exited 0) None
    (fun _ => Some (mk_exn OSError "[Errno 111] Connection refused")) false.

(** *** Reachable states *)

Definition anything (_ : effect) : Prop := True.

(** The bridge objects the three entry points can produce from the one
    [__init__] builds: a bus message is handled, a controller event is
    relayed, or the periodic sweep runs, each in any environment. *)
Inductive reachable : bridge -> Prop :=
| reach_init : reachable init
| reach_message e msg s :
    reachable s -> reachable (state_of (on_message e msg s))
| reach_event event s :
    reachable s -> reachable (state_of (process_ihc_event event s))
| reach_sweep e s :
    reachable s -> reachable (state_of (check_pending_confirmations e s)).

(** *** Worked scenarios *)

(** An environment in which every collaborator answers, read at [now]. *)
Definition answering (now : Z) : env :=
  mk_env now (Response 200 "" (Decoded no_data)) (fun _ => Response 200 "" (Decoded no_data))
    (Exited 0) (Exited 0) None (fun _ => None) true.

(** The command [ihc/output/4/2/set] with payload [on], and the
    controller's report of it. *)
Definition example_command : message :=
  mk_message "ihc/output/4/2/set" (Utf8 "on").

Definition example_event : list (string * pyval) :=
  [("type", PStr "outputState"); ("moduleNumber", PInt 4);
   ("ioNumber", PInt 2); ("state", PBool true)].

(** A bridge with one command to output 4/2, expecting [st], submitted
    eleven seconds before [now], and the failure window [fs]. *)
Definition stale (now : Z) (st : bool) (fs : list Z) : bridge :=
  set_failures fs (set_pending [("4_2", mk_info st (now - 11) 4 2)] init).

(** A bridge with three commands, all submitted eleven seconds before
    [now], and an empty failure window. *)
Definition burst (now : Z) : bridge :=
  set_pending [("4_1", mk_info true (now - 11) 4 1);
               ("4_2", mk_info false (now - 11) 4 2);
               ("4_3", mk_info true (now - 11) 4 3)] init.

(** The controller is unreachable, the broker accepts at once. *)
Definition api_down : env :=
  mk_env 0 (Response 200 "" (Decoded no_data))
    (fun _ => HttpRaises (mk_exn RequestException "Connection refused"))
    (Exited 0) (Exited 0) None (fun _ => None) false.

(** [sudo reboot] is launched and exits with status 1. *)
Definition reboot_denied : env :=
  mk_env 0 (Response 200 "" (Decoded no_data)) (fun _ => Response 200 "" (Decoded no_data))
    (Exited 0) (Exited 1) None (fun _ => None) true.

(* ================================================================= *)
(** ** The remaining methods *)

Definition set_last_check_time (t : Z) (s : bridge) : bridge :=
  mk_bridge (running s) (ws s) (ws_thread s) (ws_stop_event s)
    (pending_confirmations s) (confirmation_failures s) t.

(** [handle_shutdown] up to its last statement, [sys.exit(0)]; the value
    is the status handed to [sys.exit]. *)
Definition handle_shutdown (e : env) : M Z :=
  log INFO "Shutdown signal received, closing connections..." ;;
  modify (set_running false) ;;
  emit EventSet ;; modify (set_ws_stop_event true) ;;
  has_ws <- gets ws ;;
  (if has_ws then ws_close e else ret tt) ;;
  emit MqttLoopStop ;;
  emit MqttDisconnect ;;
  ret 0.

Definition on_disconnect (e : env) (rc : Z) : M unit :=
  log WARNING ("Disconnected from MQTT broker with code: " ++ str_int rc) ;;
  is_running <- gets running ;;
  if negb (rc =? 0) && is_running then
    log INFO "Attempting to reconnect..." ;;
    _ <- connect_mqtt e ;;
    ret tt
  else ret tt.

(** The calls of the methods below: those of the first vocabulary, and
    three more. *)
Inductive call : Type :=
| Did (x : effect)
| Subscribe (topic : string)     (* [self.mqtt_client.subscribe(topic)] *)
| SendPong                       (* [self.ws.send(json.dumps({type: pong}))] *)
| SleepTenth.                    (* [time.sleep(0.1)] *)

Definition did (t : trace) : list call := map Did t.

Definition on_connect (rc : Z) : list call :=
  if rc =? 0 then
    [Did (Log INFO "Connected to MQTT broker");
     Subscribe "ihc/output/+/+/set";
     Subscribe "ihc/system/restart";
     Subscribe "ihc/system/pi_restart";
     Did (Log INFO "Subscribed to IHC control topics")]
  else
    [Did (Log ERROR ("Failed to connect to MQTT broker, return code: " ++
                     str_int rc))].




(** One pass of the body of [while self.running] in [run]. *)
Definition loop_iteration (e : env) (s : bridge)
  : result unit * bridge * list call :=
  let current_time := time_time e in
  if current_time - last_check_time s >=? 1 then
    match check_pending_confirmations e s with
    | (Ok _, s', t) =>
        (Ok tt, set_last_check_time current_time s', (did t ++ [SleepTenth])%list)
    | (Raised ex, s', t) => (Raised ex, s', did t)
    end
  else (Ok tt, s, [SleepTenth]).

(** What happens while [run] is in its main loop: the main thread makes
    one pass, the bus client's thread delivers a message to [on_message],
    or the worker thread hands an event to [process_ihc_event].  A step is
    one whole call.  The three threads share the bridge object without a
    lock; what one of them does in the middle of another's call (a store
    into the registry while the sweep iterates over it) is not represented
    by a script, so a statement over scripts holds of the runs in which
    the calls do not overlap. *)
Inductive step : Type :=
| Iterate (e : env)
| Deliver (e : env) (msg : message)
| Report (event : list (string * pyval)).

Inductive loop_end : Type :=
| StillLooping               (* the script ran out *)
| LoopLeft                   (* [self.running] was found false *)
| LoopRaised (ex : exn).     (* an exception left the loop *)

Fixpoint main_loop (script : list step) (s : bridge)
  : loop_end * bridge * list call :=
  match script with
  | [] => (StillLooping, s, [])
  | Iterate e :: rest =>
      if running s then
        match loop_iteration e s with
        | (Ok _, s', t) =>
            match main_loop rest s' with
            | (r, s'', t') => (r, s'', (t ++ t')%list)
            end
        | (Raised ex, s', t) => (LoopRaised ex, s', t)
        end
      else (LoopLeft, s, [])
  | Deliver e msg :: rest =>
      match on_message e msg s with
      | (_, s', t) =>
          match main_loop rest s' with
          | (r, s'', t') => (r, s'', (did t ++ t')%list)
          end
      end
  | Report event :: rest =>
      match process_ihc_event event s with
      | (_, s', t) =>
          match main_loop rest s' with
          | (r, s'', t') => (r, s'', (did t ++ t')%list)
          end
      end
  end.

(** The [finally] block of [run]. *)
Definition run_finally (e : env) : M unit :=
  log INFO "Shutting down IHC-MQTT Bridge" ;;
  emit EventSet ;; modify (set_ws_stop_event true) ;;
  (if thread_is_alive e then emit (ThreadJoin 5) else ret tt) ;;
  emit MqttLoopStop ;;
  emit MqttDisconnect.

Inductive run_end : Type :=
| ReturnedEarly              (* [return] before the loop *)
| Looping                    (* still in the loop when the script ran out *)
| ShutDown                   (* the [finally] block has run *)
| Escaped (ex : exn).        (* an exception left [run] *)

(** [run]: startup in environment [e], the main loop against [script],
    the [except] and [finally] blocks in environment [e_end]. *)
Definition run (e : env) (script : list step) (e_end : env) (s : bridge)
  : run_end * bridge * list call :=
  match run_startup e s with
  | (Ok true, s1, t1) =>
      match main_loop script s1 with
      | (StillLooping, s2, t2) => (Looping, s2, (did t1 ++ t2)%list)
      | (LoopLeft, s2, t2) =>
          match run_finally e_end s2 with
          | (_, s3, t3) => (ShutDown, s3, (did t1 ++ t2 ++ did t3)%list)
          end
      | (LoopRaised ex, s2, t2) =>
          match (log ERROR ("Unexpected error in main loop: " ++ exn_text ex) ;;
                 run_finally e_end) s2 with
          | (_, s3, t3) => (ShutDown, s3, (did t1 ++ t2 ++ did t3)%list)
          end
      end
  | (Ok false, s1, t1) => (ReturnedEarly, s1, did t1)
  | (Raised ex, s1, t1) => (Escaped ex, s1, did t1)
  end.

(* ================================================================= *)
(** ** Further vocabulary and scenarios *)

(** [systemctl] runs and exits with status 5. *)
Definition systemctl_fails : env :=
  mk_env 0 (Response 200 "" (Decoded no_data)) (fun _ => Response 200 "" (Decoded no_data))
    (Exited 5) (Exited 0) None (fun _ => None) true.

(** The number of calls in a trace that satisfy [p]. *)
Definition count (p : effect -> bool) (t : trace) : nat :=
  length (filter p t).

Definition is_connect (x : effect) : bool :=
  match x with MqttConnect => true | _ => false end.

Definition is_sleep (x : effect) : bool :=
  match x with Sleep _ => true | _ => false end.

Definition is_probe (x : effect) : bool :=
  match x with Post GetAll _ => true | _ => false end.

(** The first of the five connection attempts the broker accepts. *)
Definition first_accepted (e : env) : option nat :=
  find (accepted e) (seq 0 max_retries).

(** [self.ws.close()] raises. *)
Definition close_fails : env :=
  mk_env 0 (Response 200 "" (Decoded no_data)) (fun _ => Response 200 "" (Decoded no_data))
    (Exited 0) (Exited 0) (Some (mk_exn OSError "Broken pipe"))
    (fun _ => None) true.

(** The broker refuses twice, then accepts. *)
Definition broker_slow : env :=
  mk_env 0 (Response 200 "" (Decoded no_data)) (fun _ => Response 200 "" (Decoded no_data))
    (Exited 0) (Exited 0) None
    (fun k => if (k <? 2)%nat then Some (mk_exn OSError "Connection refused")
              else None)
    true.

(** The topic filters a list of calls subscribes to. *)
Definition subscriptions (cs : list call) : list string :=
  flat_map (fun c => match c with Subscribe f => [f] | _ => [] end) cs.

(** An MQTT topic filter with no [#] matches a topic when they have the
    same number of levels and each level of the filter is [+] or equal to
    the topic's. *)
Fixpoint levels_match (f t : list string) : bool :=
  match f, t with
  | [], [] => true
  | x :: f', y :: t' => ((x =? "+") || (x =? y))%string && levels_match f' t'
  | _, _ => false
  end.

Definition filter_matches (filter topic : string) : bool :=
  levels_match (split "/" filter) (split "/" topic).

(** The broker delivers a message on [topic] to a client that made the
    calls [cs]. *)
Definition delivered (cs : list call) (topic : string) : bool :=
  existsb (fun f => filter_matches f topic) (subscriptions cs).



(** The four fields of an event are there and it is no keepalive. *)
Definition relayable (obj : list (string * pyval)) : Prop :=
  get obj "type" <> PNone /\ get obj "moduleNumber" <> PNone /\
  get obj "ioNumber" <> PNone /\ get obj "state" <> PNone /\
  get obj "type" <> PStr "ping".

(** The outcome, the bridge object and the calls of a computation of the
    second vocabulary. *)
Definition end_of {A} (x : A * bridge * list call) : A := fst (fst x).

Definition bridge_of {A} (x : A * bridge * list call) : bridge := snd (fst x).

Definition calls_of {A} (x : A * bridge * list call) : list call := snd x.

(** Every entry sits under the key of the device it records. *)
Definition keyed (pend : list (string * info)) : Prop :=
  forall k inf, In (k, inf) pend ->
                k = confirmation_key (str_int (i_module inf))
                      (str_int (i_output inf)).

(** What holds of the registry and the failure window at all times. *)
Definition registry_inv (s : bridge) : Prop :=
  dict_ok (pending_confirmations s) /\
  keyed (pending_confirmations s) /\
  (length (confirmation_failures s) < failure_threshold)%nat.

(** *** The initial states and the reconnection probes *)

(** The two calls [process_ihc_states] makes for one entry of a module. *)
Definition initial_publish (direction : string) (m : ihc_module)
  (io : io_state) : effect :=
  Publish (state_topic direction (py_str (module_number m))
             (py_str (io_number io)))
    (if truthy (io_value io) then "ON" else "OFF") true.

Definition initial_log (direction : string) (m : ihc_module) (io : io_state)
  : effect :=
  Log DEBUG ("Published initial state: " ++
             state_topic direction (py_str (module_number m))
               (py_str (io_number io)) ++ " = " ++
             (if truthy (io_value io) then "ON" else "OFF")).

(** The modules of a reply whose [state] is truthy. *)
Definition active (mods : list ihc_module) : list ihc_module :=
  filter (fun m => truthy (module_state m)) mods.

(** One retained publication per entry of each active module, in the
    order of the reply. *)
Definition announced (direction : string) (mods : list ihc_module) : trace :=
  flat_map (fun m => map (initial_publish direction m) (module_ios m))
    (active mods).

Definition is_debug (x : effect) : bool :=
  match x with Log DEBUG _ => true | _ => false end.

Definition is_thread_start (x : effect) : bool :=
  match x with ThreadStart => true | _ => false end.

(** The answer has status 200 and a body that decodes. *)
Definition answer_ok (o : http_outcome) : bool :=
  match o with
  | Response c _ (Decoded _) => c =? 200
  | _ => false
  end.

(** The [k]-th probe is answered with status 200 and a body that
    decodes. *)
Definition probe_ok (e : env) (k : nat) : bool := answer_ok (post_getAll e k).

(** Each of the five probes ends in a way [test_ihc_connection]
    handles. *)
Definition probes_tame (e : env) : Prop :=
  forall k, (k < max_retries)%nat -> handled (post_getAll e k).

(** The first of the five probes that is answered with status 200. *)
Definition first_ok (e : env) : option nat :=
  find (probe_ok e) (seq 0 max_retries).

(** The first probe is refused, the second is answered with status 200
    and a page that is not JSON, the later ones with one active output
    module and one inactive input module. *)
Definition two_modules : ihc_data :=
  mk_data [mk_module (PBool true) (PInt 4)
             [mk_io (PInt 1) (PBool true); mk_io (PInt 2) (PBool false)]]
          [mk_module (PBool false) (PInt 7) [mk_io (PInt 1) (PBool true)]].

Definition api_slow : env :=
  mk_env 0 (Response 200 "" (Decoded no_data))
    (fun k => match k with
              | O => HttpRaises (mk_exn RequestException "Connection refused")
              | S O => Response 200 "<html>"
                         (Undecodable (mk_exn RequestException
                                         "Expecting value: line 1 column 1 (char 0)"))
              | _ => Response 200 "" (Decoded two_modules)
              end)
    (Exited 0) (Exited 0) None (fun _ => None) true.

(** *** The host restart and the end of [run] *)

Definition is_ws_close (x : effect) : bool :=
  match x with WsClose => true | _ => false end.

(** The clock reads [now] and [sudo] cannot be launched: [subprocess.run]
    raises an [OSError] for both commands. *)
Definition no_sudo (now : Z) : env :=
  mk_env now (Response 200 "" (Decoded no_data)) (fun _ => Response 200 "" (Decoded no_data))
    (NotLaunched (mk_exn OSError "[Errno 2] No such file or directory: 'sudo'"))
    (NotLaunched (mk_exn OSError "[Errno 2] No such file or directory: 'sudo'"))
    None (fun _ => None) true.

(** Three commands, to outputs 4/1, 4/2 and 4/3, delivered at clock
    reading [now] and accepted. *)
Definition three_commands (now : Z) : list step :=
  [Deliver (answering now) (mk_message "ihc/output/4/1/set" (Utf8 "on"));
   Deliver (answering now) (mk_message "ihc/output/4/2/set" (Utf8 "off"));
   Deliver (answering now) (mk_message "ihc/output/4/3/set" (Utf8 "on"))].

(** The host-restart command. *)
Definition pi_restart_command (text : string) : message :=
  mk_message "ihc/system/pi_restart" (Utf8 text).

(* ================================================================= *)
(** ** The event-stream worker and its rebuild, interleaved *)

Module Supervisor.

(** Where a thread running [websocket_worker] stands. *)
Inductive wpc : Type :=
| OuterTest              (* [while not self.ws_stop_event.is_set()], outer *)
| Connecting             (* in [websocket.create_connection] *)
| InnerTest              (* [while not self.ws_stop_event.is_set()], inner *)
| Receiving              (* in [self.ws.recv()], timeout 1 *)
| Closing                (* [self.ws.close()] after the inner loop *)
| RetryTest              (* [if not self.ws_stop_event.is_set()] *)
| Sleeping (left : nat)  (* in [time.sleep(10)], seconds left *)
| Finished.              (* the outer loop was left; the thread is dead *)

(** What the worker's current statement meets. *)
Inductive outcome : Type :=
| Go                     (* a statement that depends on nothing outside *)
| Connected
| ConnectFailed
| Frame                  (* a frame came in; ping, event or bad JSON *)
| ReadTimeout            (* [WebSocketTimeoutException] *)
| StreamError            (* [WebSocketException]: [break] *)
| OtherError.            (* any other exception: the outer [except] *)

Definition worker_step (stop : bool) (pc : wpc) (o : outcome)
  : option wpc :=
  match pc, o with
  | OuterTest, Go => Some (if stop then Finished else Connecting)
  | Connecting, Connected => Some InnerTest
  | Connecting, ConnectFailed => Some RetryTest
  | InnerTest, Go => Some (if stop then Closing else Receiving)
  | Receiving, Frame => Some InnerTest
  | Receiving, ReadTimeout => Some InnerTest
  | Receiving, StreamError => Some Closing
  | Receiving, OtherError => Some RetryTest
  | Closing, Go => Some RetryTest
  | RetryTest, Go => Some (if stop then OuterTest else Sleeping 10)
  | Sleeping O, Go => Some OuterTest
  | _, _ => None
  end.

(** Where the thread running [reset_connections] stands. *)
Inductive mpc : Type :=
| Idle                   (* no rebuild under way *)
| CloseWs                (* [if self.ws: ... self.ws = None] *)
| SetStop                (* [self.ws_stop_event.set()] *)
| Join (waited : nat)    (* [self.ws_thread.join(timeout=3)] *)
| ClearStop              (* [self.ws_stop_event.clear()] *)
| StartThread            (* [Thread(...).start()] *)
| Probing.               (* the reconnect probes *)

Definition join_timeout : nat := 3.

(** [ws_stop_event], the worker threads created so far (the last one is
    [ws_thread]) and the rebuilding thread. *)
Record sys : Type := mk_sys {
  stop : bool;
  workers : list wpc;
  main : mpc
}.

Definition is_alive (pc : wpc) : bool :=
  match pc with Finished => false | _ => true end.

Definition in_read_loop (pc : wpc) : bool :=
  match pc with InnerTest | Receiving => true | _ => false end.

Definition main_step (s : sys) : option sys :=
  match main s with
  | Idle => Some (mk_sys (stop s) (workers s) CloseWs)
  | CloseWs => Some (mk_sys (stop s) (workers s) SetStop)
  | SetStop => Some (mk_sys true (workers s) (Join 0))
  | Join waited =>
      if negb (is_alive (last (workers s) Finished))
         || (join_timeout <=? waited)%nat
      then Some (mk_sys (stop s) (workers s) ClearStop)
      else None
  | ClearStop => Some (mk_sys false (workers s) StartThread)
  | StartThread =>
      Some (mk_sys (stop s) (workers s ++ [OuterTest])%list Probing)
  | Probing => None
  end.

(** One second passes. *)
Definition tick_worker (pc : wpc) : wpc :=
  match pc with
  | Sleeping (S n) => Sleeping n
  | _ => pc
  end.

Definition tick (s : sys) : sys :=
  mk_sys (stop s) (map tick_worker (workers s))
    (match main s with Join w => Join (S w) | m => m end).

Fixpoint update {A} (l : list A) (i : nat) (x : A) : list A :=
  match l, i with
  | [], _ => []
  | _ :: l', O => x :: l'
  | y :: l', S i' => y :: update l' i' x
  end.

Inductive action : Type :=
| Work (i : nat) (o : outcome)   (* worker [i] runs one statement *)
| Main                           (* the rebuilding thread runs one *)
| Tick.                          (* one second passes *)

Definition step (a : action) (s : sys) : option sys :=
  match a with
  | Work i o =>
      match nth_error (workers s) i with
      | Some pc =>
          match worker_step (stop s) pc o with
          | Some pc' => Some (mk_sys (stop s) (update (workers s) i pc')
                                (main s))
          | None => None
          end
      | None => None
      end
  | Main => main_step s
  | Tick => Some (tick s)
  end.

Fixpoint run (schedule : list action) (s : sys) : option sys :=
  match schedule with
  | [] => Some s
  | a :: rest =>
      match step a s with
      | Some s' => run rest s'
      | None => None
      end
  end.

(** The system once [run] has started the first worker. *)
Definition initial : sys := mk_sys false [OuterTest] Idle.

(** The controller is down: the worker's connection attempt fails and it
    goes to sleep for ten seconds. *)
Definition worker_backs_off : list action :=
  [Work 0 Go; Work 0 ConnectFailed; Work 0 Go].

(** A rebuild is requested; the join gives up after three seconds. *)
Definition rebuild_times_out : list action :=
  [Main; Main; Main; Tick; Tick; Tick; Main; Main; Main].

(** The new worker connects and starts reading. *)
Definition new_worker_reads : list action :=
  [Work 1 Go; Work 1 Connected; Work 1 Go].

(** Seven seconds later the old worker wakes up, finds the stop event
    clear, connects and reads as well. *)
Definition old_worker_resumes : list action :=
  [Tick; Tick; Tick; Tick; Tick; Tick; Tick;
   Work 0 Go; Work 0 Go; Work 0 Connected; Work 0 Go].

Definition race : list action :=
  (worker_backs_off ++ rebuild_times_out ++ new_worker_reads ++
   old_worker_resumes)%list.

(** The number of its own statements a worker has left at most once the
    stop event is set and stays set. *)
Definition rank (pc : wpc) : nat :=
  match pc with
  | Finished => 0
  | OuterTest => 1
  | RetryTest => 2
  | Sleeping _ => 2
  | Closing => 3
  | InnerTest => 4
  | Receiving => 5
  | Connecting => 5
  end.

(** The worker is in [time.sleep(10)] with time left. *)
Definition asleep (pc : wpc) : Prop := exists n, pc = Sleeping (S n).

(** A worker blocked in [recv] when the stop event is set leaves both
    loops once its read times out. *)
Lemma reading_worker_stops :
  fold_left (fun pc o => match pc with
                         | Some pc => worker_step true pc o
                         | None => None
                         end)
    [ReadTimeout; Go; Go; Go; Go] (Some Receiving) = Some Finished.
Proof. reflexivity. Qed.

(** When the join ends because every earlier worker has finished, the
    rebuild leaves exactly one live worker. *)
Lemma rebuild_after_termination_is_exclusive s w :
  main s = Join w ->
  Forall (fun pc => is_alive pc = false) (workers s) ->
  exists s',
    run [Main; Main; Main] s = Some s' /\
    main s' = Probing /\ stop s' = false /\
    filter is_alive (workers s') = [OuterTest].
Proof.
  intros Hm Hdead.
  assert (Hlast : is_alive (last (workers s) Finished) = false).
  { clear -Hdead. induction Hdead as [|x l Hx Hl IH]; [reflexivity|].
    destruct l; [exact Hx | exact IH]. }
  unfold run, step, main_step. rewrite Hm, Hlast. cbn.
  eexists. split; [reflexivity|]. cbn. repeat split.
  rewrite filter_app. cbn.
  replace (filter is_alive (workers s)) with (@nil wpc); [reflexivity|].
  symmetry. clear -Hdead.
  induction Hdead as [|x l Hx _ IH]; [reflexivity|]. cbn. now rewrite Hx.
Qed.

(** C4 -- A rebuild that does not wait for the old worker.  Started while
    the old worker sleeps out its ten-second retry delay, the rebuild sets
    the stop event, gives up the join after three seconds, clears the
    event and starts a second worker: the second worker is reading while
    the first is still alive, and once the first wakes up both are in the
    read loop, the stop event clear. *)
Theorem rebuild_leaves_two_read_loops :
  run (worker_backs_off ++ rebuild_times_out ++ new_worker_reads)%list
    initial
  = Some (mk_sys false [Sleeping 7; Receiving] Probing) /\
  run race initial = Some (mk_sys false [Receiving; Receiving] Probing) /\
  match run race initial with
  | Some s => length (filter in_read_loop (workers s)) = 2%nat
  | None => False
  end.
Proof. repeat split. Qed.

(** X21 -- A worker winds down once the stop event is set: while the
    event stays set, each statement the worker runs brings it strictly
    nearer to the end of [websocket_worker] (at most five statements are
    left, from inside [recv] or [create_connection]), it never starts a
    connection attempt or a read again, and it is never stuck: unless it
    has finished or is still sleeping, some outcome lets it run.  The
    passing of time does not set it back. *)
Theorem stopped_worker_winds_down :
  (forall pc o pc',
      worker_step true pc o = Some pc' ->
      (rank pc' < rank pc)%nat /\ pc' <> Connecting /\ pc' <> Receiving) /\
  (forall pc, (rank pc <= 5)%nat /\ (rank pc = 0%nat <-> pc = Finished)) /\
  (forall pc, pc <> Finished -> ~ asleep pc ->
              exists o pc', worker_step true pc o = Some pc') /\
  (forall pc, rank (tick_worker pc) = rank pc).
Proof.
  split; [|split; [|split]].
  - intros pc o pc' H.
    destruct pc as [| | | | | |[|n]|], o; cbn in H;
      try discriminate H; injection H as <-; cbn;
      repeat split; try lia; discriminate.
  - intros pc. destruct pc; cbn; repeat split; try lia; try discriminate;
      intros H; discriminate H.
  - intros pc Hf Hs.
    destruct pc as [| | | | | |[|n]|];
      try (exists Go; eexists; reflexivity).
    + exists Connected. eexists. reflexivity.
    + exists ReadTimeout. eexists. reflexivity.
    + exfalso. apply Hs. exists n. reflexivity.
    + contradiction.
  - intros [| | | | | |[|n]|]; reflexivity.
Qed.

End Supervisor.

(* ================================================================= *)
(** ** The string primitives on examples *)

Example py_int_4 : py_int "4" = Some 4. Proof. reflexivity. Qed.

Example py_int_pad : py_int " -1_0 " = Some (-10). Proof. reflexivity. Qed.

Example py_int_bad : py_int "4x" = None. Proof. reflexivity. Qed.

Example py_int_empty : py_int "" = None. Proof. reflexivity. Qed.

(** The file separator is a blank for [str.strip] and none for [int]. *)
Example py_int_separator :
  py_int (String (ascii_of_nat 28) "4") = None /\
  py_int (String (ascii_of_nat 11) "4") = Some 4.
Proof. split; reflexivity. Qed.

Example py_int_limit :
  py_int (string_of_list_ascii (repeat "1"%char 4301)) = None /\
  py_int (string_of_list_ascii (repeat "1"%char 4300)) <> None.
Proof. split; vm_compute; [reflexivity | discriminate]. Qed.

Example split_foo : split "/" "foo/bar" = ["foo"; "bar"]. Proof. reflexivity. Qed.

Example split_gap : split "/" "a//b/" = ["a"; ""; "b"; ""]. Proof. reflexivity. Qed.

Example upper_on : upper "oN" = "ON". Proof. reflexivity. Qed.

(* ================================================================= *)
(** ** Topics: [split] against the written form of a topic *)

Lemma split_not_nil sep s : split sep s <> [].
Proof.
  destruct s as [|c r]; simpl; [discriminate|].
  destruct (Ascii.eqb c sep); [discriminate|].
  destruct (split sep r); discriminate.
Qed.

Lemma split_no_sep sep a : no_sep sep a = true -> split sep a = [a].
Proof.
  induction a as [|c r IH]; simpl; intros H; [reflexivity|].
  apply andb_true_iff in H as [Hc Hr].
  apply negb_true_iff in Hc. rewrite Hc, (IH Hr). reflexivity.
Qed.

Lemma split_app sep a r :
  no_sep sep a = true -> split sep (a ++ String sep r) = a :: split sep r.
Proof.
  induction a as [|c a IH]; simpl; intros H.
  - now rewrite Ascii.eqb_refl.
  - apply andb_true_iff in H as [Hc Ha].
    apply negb_true_iff in Hc. rewrite Hc, (IH Ha). reflexivity.
Qed.

Lemma join_split sep s : join sep (split sep s) = s.
Proof.
  induction s as [|c r IH]; [reflexivity|]. simpl.
  destruct (Ascii.eqb_spec c sep) as [->|Hne].
  - simpl. destruct (split sep r) eqn:E.
    + now apply split_not_nil in E.
    + now rewrite IH.
  - destruct (split sep r) as [|h t] eqn:E.
    + now apply split_not_nil in E.
    + destruct t; simpl in *; now rewrite IH.
Qed.

Lemma split_parts sep s : Forall (fun p => no_sep sep p = true) (split sep s).
Proof.
  induction s as [|c r IH]; simpl; [repeat constructor|].
  destruct (Ascii.eqb_spec c sep) as [->|Hne].
  - constructor; [reflexivity|exact IH].
  - destruct (split sep r) as [|h t]; [repeat constructor|].
    + simpl. apply Ascii.eqb_neq in Hne. now rewrite Hne.
    + inversion IH; subst. constructor; [|assumption].
      simpl. apply Ascii.eqb_neq in Hne. now rewrite Hne.
Qed.

Lemma split_device_set_topic t m o :
  device_set_topic t m o ->
  split "/" t = ["ihc"; "output"; m; o; "set"].
Proof.
  intros (Hm & Ho & ->).
  change ("ihc/output/" ++ m ++ "/" ++ o ++ "/set")
    with ("ihc" ++ String "/" ("output" ++ String "/"
            (m ++ String "/" (o ++ String "/" "set")))).
  rewrite !split_app by (assumption || reflexivity).
  reflexivity.
Qed.

(** The code's test accepts exactly the topics of the written form, and
    then reads the two identifiers at positions 2 and 3. *)
Lemma invalid_topic_false t :
  invalid_topic (split "/" t) = false <->
  exists m o, device_set_topic t m o.
Proof.
  split.
  - intros H. unfold invalid_topic in H.
    repeat (apply orb_false_iff in H as [H ?]).
    rewrite negb_false_iff in *.
    pose proof (join_split "/" t) as J.
    pose proof (split_parts "/" t) as P.
    destruct (split "/" t) as [|a [|b [|c [|d [|x [|y l]]]]]];
      try discriminate.
    simpl in *.
    repeat match goal with
           | E : (_ =? _)%string = true |- _ => apply String.eqb_eq in E
           end.
    subst a b x.
    exists c, d. repeat split.
    + inversion P as [|? ? _ P1]; inversion P1 as [|? ? _ P2];
        inversion P2 as [|? ? Hc _]; exact Hc.
    + inversion P as [|? ? _ P1]; inversion P1 as [|? ? _ P2];
        inversion P2 as [|? ? _ P3]; inversion P3 as [|? ? Hd _]; exact Hd.
    + symmetry. exact J.
  - intros (m & o & H). rewrite (split_device_set_topic _ _ _ H).
    reflexivity.
Qed.

(* ================================================================= *)
(** ** Device keys: distinct devices never share a key *)

Lemma digits_no_underscore d :
  no_sep "_" (NilEmpty.string_of_uint d) = true.
Proof. induction d; simpl; assumption || reflexivity. Qed.

Lemma string_of_uint_no_underscore d :
  no_sep "_" (NilZero.string_of_uint d) = true.
Proof.
  destruct d; [reflexivity | ..];
    unfold NilZero.string_of_uint; apply digits_no_underscore.
Qed.

Lemma str_int_no_underscore z : no_sep "_" (str_int z) = true.
Proof.
  unfold str_int. destruct (Z.to_int z); simpl;
    apply string_of_uint_no_underscore.
Qed.

Lemma str_int_inj z z' : str_int z = str_int z' -> z = z'.
Proof.
  unfold str_int. intros H. apply DecimalZ.to_int_inj.
  assert (N : forall n, Z.to_int n <> Decimal.Pos Decimal.Nil /\
                        Z.to_int n <> Decimal.Neg Decimal.Nil).
  { intros [|q|q]; simpl; split; try discriminate;
      intros [= E]; now apply DecimalPos.Unsigned.to_uint_nonnil in E. }
  destruct (N z) as [A B]. destruct (N z') as [A' B'].
  pose proof (NilZero.isi _ A B) as I. pose proof (NilZero.isi _ A' B') as I'.
  rewrite H in I. congruence.
Qed.

Lemma app_sep_inj c a a' b b' :
  no_sep c a = true -> no_sep c a' = true ->
  (a ++ String c b)%string = (a' ++ String c b')%string ->
  a = a' /\ b = b'.
Proof.
  revert a'. induction a as [|x a IH]; intros [|x' a'] Ha Ha' H; simpl in *.
  - now inversion H.
  - inversion H; subst. now rewrite Ascii.eqb_refl in Ha'.
  - inversion H; subst. now rewrite Ascii.eqb_refl in Ha.
  - apply andb_true_iff in Ha as [_ Ha]. apply andb_true_iff in Ha' as [_ Ha'].
    inversion H; subst. destruct (IH a' Ha Ha' H2) as [-> ->]. auto.
Qed.

(** The key [f"{module}_{output}"] determines the two integers. *)
Lemma confirmation_key_inj m o m' o' :
  confirmation_key (str_int m) (str_int o)
  = confirmation_key (str_int m') (str_int o') ->
  m = m' /\ o = o'.
Proof.
  unfold confirmation_key. intros H.
  change ("_" ++ str_int o)%string with (String "_" (str_int o)) in H.
  change ("_" ++ str_int o')%string with (String "_" (str_int o')) in H.
  apply app_sep_inj in H as [Hm Ho]; try apply str_int_no_underscore.
  split; now apply str_int_inj.
Qed.

(* ================================================================= *)
(** ** Dictionary lemmas *)

Section DictFacts.
Context {V : Type}.
Implicit Types (d : list (string * V)) (k : string).

Lemma dict_get_none d k : dict_get d k = None <-> ~ In k (keys d).
Proof.
  induction d as [|[k' v] d IH]; simpl; [tauto|].
  destruct (String.eqb_spec k' k) as [->|Hne].
  - split; [discriminate|]. intros H. exfalso. apply H. now left.
  - rewrite IH. intuition congruence.
Qed.

Lemma dict_get_some_in d k v : dict_get d k = Some v -> In k (keys d).
Proof.
  intros H. destruct (in_dec string_dec k (keys d)) as [|Hn]; [assumption|].
  apply dict_get_none in Hn. congruence.
Qed.

Lemma dict_mem_in d k : dict_mem d k = true <-> In k (keys d).
Proof.
  unfold dict_mem. destruct (dict_get d k) eqn:E.
  - split; [intros _; eapply dict_get_some_in; eauto | reflexivity].
  - apply dict_get_none in E. split; [discriminate | contradiction].
Qed.

Lemma dict_del_keys_incl d k x : In x (keys (dict_del d k)) -> In x (keys d).
Proof.
  induction d as [|[k' v] d IH]; simpl; [tauto|].
  destruct (k' =? k)%string; simpl; [now right|].
  intros [->|H]; [now left | right; auto].
Qed.

Lemma dict_ok_del d k : dict_ok d -> dict_ok (dict_del d k).
Proof.
  unfold dict_ok. induction d as [|[k' v] d IH]; simpl; intros H; [constructor|].
  inversion H as [|? ? Hn Hd]; subst.
  destruct (k' =? k)%string; simpl; [assumption|].
  constructor; [|auto]. intros Hin. apply Hn. eapply dict_del_keys_incl; eauto.
Qed.

Lemma dict_del_same d k : dict_ok d -> dict_get (dict_del d k) k = None.
Proof.
  unfold dict_ok. induction d as [|[k' v] d IH]; simpl; intros H; [reflexivity|].
  inversion H as [|? ? Hn Hd]; subst.
  destruct (String.eqb_spec k' k) as [->|Hne].
  - now apply dict_get_none.
  - simpl. apply String.eqb_neq in Hne. rewrite Hne. auto.
Qed.

Lemma dict_del_other d k k' :
  k' <> k -> dict_get (dict_del d k) k' = dict_get d k'.
Proof.
  intros Hne. induction d as [|[k0 v] d IH]; simpl; [reflexivity|].
  destruct (String.eqb_spec k0 k) as [->|Hk].
  - apply not_eq_sym in Hne. apply String.eqb_neq in Hne. now rewrite Hne.
  - simpl. now rewrite IH.
Qed.

Lemma dict_set_same d k v : dict_get (dict_set d k v) k = Some v.
Proof.
  induction d as [|[k0 v0] d IH]; simpl.
  - now rewrite String.eqb_refl.
  - destruct (String.eqb_spec k0 k) as [->|Hk]; simpl.
    + now rewrite String.eqb_refl.
    + apply String.eqb_neq in Hk. now rewrite Hk.
Qed.

Lemma dict_set_other d k v k' :
  k' <> k -> dict_get (dict_set d k v) k' = dict_get d k'.
Proof.
  intros Hne. apply not_eq_sym in Hne.
  induction d as [|[k0 v0] d IH]; simpl.
  - apply String.eqb_neq in Hne. now rewrite Hne.
  - destruct (String.eqb_spec k0 k) as [->|Hk]; simpl.
    + apply String.eqb_neq in Hne. now rewrite Hne.
    + now rewrite IH.
Qed.

Lemma dict_set_keys d k v x :
  In x (keys (dict_set d k v)) -> x = k \/ In x (keys d).
Proof.
  induction d as [|[k0 v0] d IH]; simpl.
  - intros [->|[]]; now left.
  - destruct (String.eqb_spec k0 k) as [->|Hk]; simpl.
    + intros [->|H]; auto.
    + intros [->|H]; [auto|]. destruct (IH H); auto.
Qed.

Lemma dict_ok_set d k v : dict_ok d -> dict_ok (dict_set d k v).
Proof.
  unfold dict_ok. induction d as [|[k0 v0] d IH]; simpl; intros H.
  - repeat constructor. intros [].
  - inversion H as [|? ? Hn Hd]; subst.
    destruct (String.eqb_spec k0 k) as [->|Hk]; simpl.
    + now constructor.
    + constructor; [|auto]. intros Hin.
      destruct (dict_set_keys _ _ _ _ Hin); congruence.
Qed.
End DictFacts.

(* ================================================================= *)
(** ** Reasoning about computations *)

Section Keeps.
Variable R : bridge -> bridge -> Prop.
Variable T : effect -> Prop.
Hypothesis R_refl : forall s, R s s.
Hypothesis R_trans : forall a b c, R a b -> R b c -> R a c.

Lemma keeps_ret {A} (a : A) : keeps R T (ret a).
Proof. intros s. split; [apply R_refl | constructor]. Qed.

Lemma keeps_raise {A} (e : exn) : keeps R T (@raise A e).
Proof. intros s. split; [apply R_refl | constructor]. Qed.

Lemma keeps_gets {A} (f : bridge -> A) : keeps R T (gets f).
Proof. intros s. split; [apply R_refl | constructor]. Qed.

Lemma keeps_emit x : T x -> keeps R T (emit x).
Proof. intros H s. split; [apply R_refl | repeat constructor; exact H]. Qed.

Lemma keeps_modify f : (forall s, R s (f s)) -> keeps R T (modify f).
Proof. intros H s. split; [apply H | constructor]. Qed.

Lemma keeps_bind {A B} (c : M A) (k : A -> M B) :
  keeps R T c -> (forall a, keeps R T (k a)) -> keeps R T (bind c k).
Proof.
  intros Hc Hk s. specialize (Hc s). unfold bind, state_of, trace_of in *.
  destruct (c s) as [[[a|e] s1] t1]; simpl in *; [|exact Hc].
  specialize (Hk a s1). unfold state_of, trace_of in Hk.
  destruct (k a s1) as [[r s2] t2]; simpl in *.
  destruct Hc, Hk. split; [eauto | now apply Forall_app].
Qed.

Lemma keeps_try {A} (c : M A) catches h :
  keeps R T c -> (forall e, keeps R T (h e)) ->
  keeps R T (try_except c catches h).
Proof.
  intros Hc Hh s. specialize (Hc s).
  unfold try_except, state_of, trace_of in *.
  destruct (c s) as [[[a|e] s1] t1]; simpl in *; [exact Hc|].
  destruct (catches e); [|exact Hc].
  specialize (Hh e s1). unfold state_of, trace_of in Hh.
  destruct (h e s1) as [[r s2] t2]; simpl in *.
  destruct Hc, Hh. split; [eauto | now apply Forall_app].
Qed.

Lemma keeps_for_each {A} (l : list A) body :
  (forall x, keeps R T (body x)) -> keeps R T (for_each l body).
Proof.
  intros H. induction l; simpl; [apply keeps_ret|].
  apply keeps_bind; auto.
Qed.
End Keeps.

Lemma same_core_refl s : same_core s s.
Proof. repeat split. Qed.

Lemma same_core_trans a b c : same_core a b -> same_core b c -> same_core a c.
Proof. unfold same_core, same_registry. intuition congruence. Qed.

Lemma triggers_app t1 t2 : triggers (t1 ++ t2)%list = (triggers t1 + triggers t2)%nat.
Proof. unfold triggers. now rewrite filter_app, length_app. Qed.

Lemma triggers_plain t : Forall plain t -> triggers t = 0%nat.
Proof.
  unfold triggers. induction 1 as [|x t Hx _ IH]; [reflexivity|].
  simpl. destruct x; simpl in *; try exact IH. contradiction.
Qed.

Ltac keeps_core :=
  repeat first
    [ exact same_core_refl
    | exact same_core_trans
    | apply keeps_ret | apply keeps_raise | apply keeps_gets
    | apply keeps_for_each | apply keeps_bind | apply keeps_try
    | apply keeps_emit | apply keeps_modify
    | match goal with
      | |- keeps _ _ (if ?b then _ else _) => destruct b
      | |- keeps _ _ (match ?x with _ => _ end) => destruct x
      | |- same_core _ _ => repeat split
      | |- plain _ => exact I
      end
    | intro ].

Ltac kbind := apply keeps_bind; [exact same_core_trans | | ].

Ltac ktry := apply keeps_try; [exact same_core_trans | | ].

Lemma session_post_keeps json auth o :
  keeps same_core plain (session_post json auth o).
Proof. unfold session_post. keeps_core. Qed.

Lemma process_ihc_states_keeps data :
  keeps same_core plain (process_ihc_states data).
Proof.
  unfold process_ihc_states, publish_initial, publish, log. keeps_core.
Qed.

Lemma test_ihc_connection_keeps o :
  keeps same_core plain (test_ihc_connection o).
Proof.
  unfold test_ihc_connection, log.
  ktry; [|keeps_core].
  kbind; [keeps_core|intros _].
  kbind; [destruct have_credentials; apply session_post_keeps|].
  intros [[c t] d]. destruct (c =? 200); [|keeps_core].
  kbind; [destruct d; unfold response_json; keeps_core | intros data].
  kbind; [apply process_ihc_states_keeps | keeps_core].
Qed.

Lemma reconnect_loop_keeps e fuel n :
  keeps same_core plain (reconnect_loop e fuel n).
Proof.
  revert n. induction fuel as [|fuel IH]; intros n; simpl.
  - unfold log. keeps_core.
  - kbind; [apply test_ihc_connection_keeps|].
    intros [|]; unfold log, sleep; [keeps_core|].
    kbind; [keeps_core|intros _]. kbind; [keeps_core|intros _]. apply IH.
Qed.

Lemma reset_connections_keeps e :
  keeps same_core plain (reset_connections e).
Proof.
  unfold reset_connections, ws_close, log.
  repeat first [ apply reconnect_loop_keeps
               | kbind; [keeps_core | intro] ].
Qed.

Lemma restart_ihc_server_spec e scheduled s :
  same_core s (state_of (restart_ihc_server e scheduled s)) /\
  triggers (trace_of (restart_ihc_server e scheduled s)) = 1%nat.
Proof.
  pose proof (reset_connections_keeps e s) as [HR HT].
  apply triggers_plain in HT.
  unfold restart_ihc_server, subprocess_run, log, sleep, bind, try_except,
    emit, ret, raise, state_of, trace_of in *.
  simpl.
  destruct (run_systemctl e) as [c|ex]; simpl.
  - destruct (c =? 0); simpl.
    + destruct (reset_connections e s) as [[[b|ex] s1] t1]; simpl in *.
      * split; [exact HR|]. unfold triggers in *. simpl.
        rewrite ?filter_app, ?length_app, ?HT. reflexivity.
      * destruct (is_class CalledProcessError ex); simpl;
          (split; [exact HR|]); unfold triggers in *; simpl;
          rewrite ?filter_app, ?length_app, ?HT; reflexivity.
    + split; [apply same_core_refl | reflexivity].
  - destruct (is_class CalledProcessError ex); simpl;
      (split; [apply same_core_refl | reflexivity]).
Qed.

(* ================================================================= *)
(** ** The sweep and the failure window *)

Lemma set_failures_same s : set_failures (confirmation_failures s) s = s.
Proof. now destruct s. Qed.

Lemma set_pending_same s : set_pending (pending_confirmations s) s = s.
Proof. now destruct s. Qed.

Lemma sweep_loop_spec now items flag ks s :
  sweep_loop now items flag ks s =
  (Ok (flag_after now (length (expired now items))
         (confirmation_failures s) flag,
       (ks ++ expired now items)%list),
   set_failures (window_after now (length (expired now items))
                   (confirmation_failures s)) s,
   map timeout_warning (filter (is_expired now) items)).
Proof.
  revert flag ks s. induction items as [|[key inf] items IH]; intros.
  - simpl. unfold ret. now rewrite app_nil_r, set_failures_same.
  - cbn [sweep_loop].
    change (now - i_timestamp inf >? confirmation_timeout)
      with (is_expired now (key, inf)).
    unfold expired. cbn [filter].
    destruct (is_expired now (key, inf)) eqn:E.
    + unfold log, bind, emit, gets, modify. rewrite IH.
      cbn [keys map length fst window_after flag_after app].
      rewrite <- app_assoc. destruct s. reflexivity.
    + rewrite IH. reflexivity.
Qed.

Lemma fresh_now now : fresh now now = true.
Proof. unfold fresh. now rewrite Z.sub_diag. Qed.

Lemma filter_idem {A} (f : A -> bool) l : filter f (filter f l) = filter f l.
Proof.
  induction l as [|x l IH]; simpl; [reflexivity|].
  destruct (f x) eqn:E; simpl; rewrite ?E, IH; reflexivity.
Qed.

Lemma note_failure_eq now fs :
  note_failure now fs = (filter (fresh now) fs ++ [now])%list.
Proof.
  unfold note_failure. rewrite filter_app. simpl. now rewrite fresh_now.
Qed.

Lemma window_after_S now k fs :
  window_after now (S k) fs = (filter (fresh now) fs ++ repeat now (S k))%list.
Proof.
  revert fs. induction k as [|k IH]; intros fs.
  - simpl. apply note_failure_eq.
  - change (window_after now (S (S k)) fs)
      with (window_after now (S k) (note_failure now fs)).
    rewrite IH, note_failure_eq, filter_app, filter_idem. simpl.
    rewrite fresh_now, <- app_assoc. reflexivity.
Qed.

Lemma window_after_length now k fs :
  length (window_after now (S k) fs) =
  (length (filter (fresh now) fs) + S k)%nat.
Proof. now rewrite window_after_S, length_app, repeat_length. Qed.

Lemma flag_after_S now k fs flag :
  flag_after now (S k) fs flag =
  flag || (failure_threshold <=? length (window_after now (S k) fs))%nat.
Proof.
  revert fs flag. induction k as [|k IH]; intros fs flag.
  - cbn [flag_after window_after].
    destruct (failure_threshold <=? length (note_failure now fs))%nat, flag;
      reflexivity.
  - change (flag_after now (S (S k)) fs flag)
      with (flag_after now (S k) (note_failure now fs)
              (if (failure_threshold <=? length (note_failure now fs))%nat
               then true else flag)).
    change (window_after now (S (S k)) fs)
      with (window_after now (S k) (note_failure now fs)).
    rewrite IH.
    destruct (failure_threshold <=? length (note_failure now fs))%nat eqn:E;
      [|reflexivity].
    rewrite orb_true_l. symmetry. apply orb_true_iff. right.
    apply Nat.leb_le. apply Nat.leb_le in E.
    rewrite window_after_length. unfold note_failure at 1.
    rewrite filter_idem. fold (note_failure now fs). lia.
Qed.

Lemma dict_get_pair {V} (d : list (string * V)) k v :
  dict_get d k = Some v -> In (k, v) d.
Proof.
  induction d as [|[k' v'] d IH]; simpl; [discriminate|].
  destruct (String.eqb_spec k' k) as [->|Hne].
  - intros [= ->]. now left.
  - intros H. right. auto.
Qed.

Lemma dict_ok_get {V} (d : list (string * V)) k v :
  dict_ok d -> In (k, v) d -> dict_get d k = Some v.
Proof.
  unfold dict_ok. induction d as [|[k' v'] d IH]; simpl; intros Hok Hin;
    [contradiction|].
  inversion Hok as [|? ? Hn Hd]; subst.
  destruct Hin as [[= -> ->]|Hin].
  - now rewrite String.eqb_refl.
  - destruct (String.eqb_spec k' k) as [->|Hne]; [|auto].
    exfalso. apply Hn. change k with (fst (k, v)). now apply in_map.
Qed.

Lemma keys_filter_nodup {V} (f : string * V -> bool) d :
  dict_ok d -> dict_ok (filter f d).
Proof.
  unfold dict_ok. induction d as [|[k v] d IH]; simpl; intros H; [constructor|].
  inversion H as [|? ? Hn Hd]; subst.
  destruct (f (k, v)); simpl; [|auto].
  constructor; [|auto]. intros Hin. apply Hn.
  unfold keys in *. apply in_map_iff in Hin as ([k' v'] & <- & Hin).
  apply filter_In in Hin as [Hin _]. simpl.
  change k' with (fst (k', v')). now apply in_map.
Qed.

Lemma expired_nodup now d : dict_ok d -> NoDup (expired now d).
Proof. intros H. apply keys_filter_nodup, H. Qed.

Lemma expired_in now d k :
  dict_ok d ->
  In k (expired now d) <->
  exists inf, dict_get d k = Some inf /\
              now - i_timestamp inf > confirmation_timeout.
Proof.
  intros Hok. unfold expired, keys. rewrite in_map_iff. split.
  - intros ([k' inf] & <- & Hin). apply filter_In in Hin as [Hin He].
    exists inf. split; [now apply dict_ok_get|].
    unfold is_expired in He. simpl in *. lia.
  - intros (inf & Hg & Hage). exists (k, inf). split; [reflexivity|].
    apply filter_In. split; [now apply dict_get_pair|].
    unfold is_expired. simpl. lia.
Qed.

Lemma expired_present now d k : In k (expired now d) -> In k (keys d).
Proof.
  unfold expired, keys. rewrite !in_map_iff.
  intros (kv & <- & Hin). apply filter_In in Hin as [Hin _]. eauto.
Qed.

Lemma dict_del_keeps_key {V} (d : list (string * V)) k k' :
  k' <> k -> In k' (keys d) -> In k' (keys (dict_del d k)).
Proof.
  intros Hne Hin. apply dict_mem_in. apply dict_mem_in in Hin.
  unfold dict_mem in *. now rewrite dict_del_other.
Qed.

Lemma dict_ok_fold_del {V} ks (d : list (string * V)) :
  dict_ok d -> dict_ok (fold_left dict_del ks d).
Proof.
  revert d. induction ks as [|k ks IH]; intros d H; simpl; [exact H|].
  apply IH, dict_ok_del, H.
Qed.

Lemma fold_del_other {V} ks (d : list (string * V)) k :
  ~ In k ks -> dict_get (fold_left dict_del ks d) k = dict_get d k.
Proof.
  revert d. induction ks as [|a ks IH]; intros d Hn; simpl; [reflexivity|].
  rewrite IH by (intros H; apply Hn; now right).
  apply dict_del_other. intros ->. apply Hn. now left.
Qed.

Lemma fold_del_gone {V} ks (d : list (string * V)) k :
  dict_ok d -> In k ks -> dict_get (fold_left dict_del ks d) k = None.
Proof.
  revert d. induction ks as [|a ks IH]; intros d Hok Hin; simpl;
    [contradiction|].
  destruct (in_dec string_dec k ks) as [Hk|Hk].
  - apply IH; [now apply dict_ok_del | exact Hk].
  - destruct Hin as [->|Hin]; [|contradiction].
    rewrite fold_del_other by exact Hk. now apply dict_del_same.
Qed.

(** Deleting keys that are all present and pairwise distinct never raises. *)
Lemma del_all_spec ks s :
  NoDup ks ->
  (forall k, In k ks -> In k (keys (pending_confirmations s))) ->
  for_each ks del_pending s =
  (Ok tt, set_pending (fold_left dict_del ks (pending_confirmations s)) s, []).
Proof.
  revert s. induction ks as [|k ks IH]; intros s Hnd Hin.
  - simpl. unfold ret. now rewrite set_pending_same.
  - inversion Hnd as [|? ? Hk Hnd']; subst.
    cbn [for_each fold_left]. unfold bind at 1, del_pending at 1.
    unfold bind, gets. simpl.
    assert (Hmem : dict_mem (pending_confirmations s) k = true)
      by (apply dict_mem_in, Hin; now left).
    rewrite Hmem. unfold modify. simpl.
    rewrite IH; [now destruct s | exact Hnd' |].
    intros k' Hk'. destruct s; simpl in *.
    apply dict_del_keeps_key; [congruence | apply Hin; now right].
Qed.

(** [check_pending_confirmations] in closed form: the expired keys are
    deleted, the window has absorbed one timestamp per expired key, and the
    service restart runs when the flag was raised. *)
Lemma check_pending_spec e s :
  dict_ok (pending_confirmations s) ->
  let now := time_time e in
  let pend := pending_confirmations s in
  let k := length (expired now pend) in
  let warnings := map timeout_warning (filter (is_expired now) pend) in
  let s1 := set_pending (fold_left dict_del (expired now pend) pend)
              (set_failures (window_after now k (confirmation_failures s)) s) in
  check_pending_confirmations e s =
  if flag_after now k (confirmation_failures s) false
  then match restart_ihc_server e false (set_failures [] s1) with
       | (r, s2, t2) => (r, s2, (warnings ++ t2)%list)
       end
  else (Ok tt, s1, warnings).
Proof.
  intros Hok now pend k warnings s1.
  unfold check_pending_confirmations. fold now.
  unfold bind at 1, gets. cbn [app]. unfold bind at 1.
  rewrite sweep_loop_spec. fold pend k warnings. cbn [app].
  unfold bind at 1.
  rewrite del_all_spec.
  - cbn [pending_confirmations set_failures]. fold pend. fold s1.
    destruct (flag_after now k (confirmation_failures s) false).
    + unfold bind, modify.
      destruct (restart_ihc_server e false (set_failures [] s1))
        as [[r s2] t2].
      reflexivity.
    + unfold ret. cbn [app]. now rewrite ?app_nil_r.
  - now apply expired_nodup.
  - intros k0 Hk0. destruct s; simpl in *. eapply expired_present; eauto.
Qed.

Lemma triggers_warnings l : triggers (map timeout_warning l) = 0%nat.
Proof. unfold triggers. induction l; simpl; auto. Qed.

Lemma sweep_idle e s :
  timeouts e s = 0%nat ->
  dict_ok (pending_confirmations s) ->
  check_pending_confirmations e s = (Ok tt, s, []).
Proof.
  intros Hk Hok. rewrite check_pending_spec by exact Hok.
  unfold timeouts in Hk. rewrite Hk.
  apply length_zero_iff_nil in Hk. rewrite Hk.
  unfold expired, keys in Hk. apply map_eq_nil in Hk. rewrite Hk.
  simpl. now destruct s.
Qed.

Lemma sweep_outcome e s :
  dict_ok (pending_confirmations s) ->
  (0 < timeouts e s)%nat ->
  let now := time_time e in
  let W := pruned_window now (timeouts e s) (confirmation_failures s) in
  let hit := (failure_threshold <=? length W)%nat in
  confirmation_failures (after e s) = (if hit then [] else W) /\
  fired e s = (if hit then 1 else 0)%nat /\
  pending_confirmations (after e s) =
    fold_left dict_del (expired now (pending_confirmations s))
      (pending_confirmations s).
Proof.
  intros Hok Hk. cbv zeta. unfold after, fired.
  rewrite check_pending_spec by exact Hok. cbv zeta.
  unfold timeouts, pruned_window in *.
  destruct (length (expired (time_time e) (pending_confirmations s)))
    as [|k] eqn:Ek; [lia|].
  rewrite flag_after_S, window_after_S, orb_false_l.
  destruct (failure_threshold <=? _)%nat.
  - set (s0 := set_failures [] _).
    destruct (restart_ihc_server_spec e false s0) as [[[Hp Hf] _] Ht].
    destruct (restart_ihc_server e false s0) as [[r s2] t2].
    unfold state_of, trace_of in *. simpl in Hp, Hf, Ht |- *.
    rewrite triggers_app, Ht, triggers_warnings.
    subst s0. destruct s; simpl in *. auto.
  - unfold state_of, trace_of. simpl.
    rewrite triggers_warnings.
    destruct s; simpl. auto.
Qed.

(** C6 -- The sweep of [check_pending_confirmations]: the keys it collects
    are exactly the pending keys whose age exceeds [confirmation_timeout]
    (never one of age at most the timeout, always every older one), each
    collected once, and none of them is pending afterwards; every other
    entry is left as it was. *)
Theorem sweep_expired_exact (e : env) (s : bridge) :
  dict_ok (pending_confirmations s) ->
  let now := time_time e in
  let pend := pending_confirmations s in
  let reported := expired now pend in
  let pend' := pending_confirmations (after e s) in
  (exists flag s1 t1,
      sweep_loop now pend false [] s = (Ok (flag, reported), s1, t1)) /\
  (forall k inf, dict_get pend k = Some inf ->
                 now - i_timestamp inf <= confirmation_timeout ->
                 ~ In k reported) /\
  (forall k inf, dict_get pend k = Some inf ->
                 now - i_timestamp inf > confirmation_timeout ->
                 In k reported) /\
  NoDup reported /\
  (forall k, In k reported -> dict_get pend' k = None) /\
  (forall k, ~ In k reported -> dict_get pend' k = dict_get pend k).
Proof.
  intros Hok now pend reported pend'.
  assert (Hp : pend' = fold_left dict_del reported pend).
  { subst pend'. destruct (Nat.eq_dec (timeouts e s) 0) as [H0|H0].
    - unfold after. rewrite sweep_idle by assumption.
      unfold timeouts in H0. apply length_zero_iff_nil in H0.
      subst reported now pend. now rewrite H0.
    - apply sweep_outcome; [exact Hok | lia]. }
  repeat split.
  - rewrite sweep_loop_spec. simpl. eauto.
  - intros k inf Hg Hage Hin.
    apply (expired_in now pend k Hok) in Hin as (inf' & Hg' & Hage').
    assert (inf' = inf) by congruence. subst. lia.
  - intros k inf Hg Hage. apply (expired_in now pend k Hok). eauto.
  - now apply expired_nodup.
  - intros k Hin. rewrite Hp. now apply fold_del_gone.
  - intros k Hin. rewrite Hp. now apply fold_del_other.
Qed.

Lemma sweep_one e s fs :
  dict_ok (pending_confirmations s) ->
  timeouts e s = 1%nat ->
  confirmation_failures s = fs ->
  let W := (filter (fresh (time_time e)) fs ++ [time_time e])%list in
  let hit := (failure_threshold <=? length W)%nat in
  confirmation_failures (after e s) = (if hit then [] else W) /\
  fired e s = (if hit then 1 else 0)%nat.
Proof.
  intros Hok Hk <-. cbv zeta.
  destruct (sweep_outcome e s Hok) as (Hf & Ht & _); [lia|].
  rewrite Hk in Hf, Ht. unfold pruned_window in Hf, Ht. simpl repeat in *.
  auto.
Qed.

(** C5 -- The timeout handling of [check_pending_confirmations].  A sweep
    that finds [k >= 1] expired entries leaves, before the threshold is
    looked at, the window [pruned_window now k fs]: the old entries still
    inside [failure_window], then [now] once per expired entry; no entry of
    it is as old as the span.  The service restart is fired at most once,
    and exactly once iff that window holds at least [failure_threshold]
    entries; the window is then empty, and otherwise it is kept.  Three
    single timeouts inside one span (such as at 0, 50 and 100 seconds) fire
    exactly once, at the third, and leave the window empty; three single
    timeouts each a full span after the previous one never fire.  A sweep
    that finds no expired entry makes no call and changes nothing. *)
Theorem escalation_once :
  (forall e s,
      dict_ok (pending_confirmations s) ->
      (0 < timeouts e s)%nat ->
      let now := time_time e in
      let W := pruned_window now (timeouts e s) (confirmation_failures s) in
      (forall t, In t W -> now - t < failure_window) /\
      (fired e s <= 1)%nat /\
      (fired e s = 1%nat <-> (failure_threshold <= length W)%nat) /\
      ((failure_threshold <= length W)%nat ->
       confirmation_failures (after e s) = []) /\
      ((length W < failure_threshold)%nat ->
       confirmation_failures (after e s) = W)) /\
  (forall e1 e2 e3 s1 s2 s3,
      three_timeouts e1 e2 e3 s1 s2 s3 ->
      time_time e1 <= time_time e2 <= time_time e3 ->
      time_time e3 - time_time e1 < failure_window ->
      fired e1 s1 = 0%nat /\ fired e2 s2 = 0%nat /\ fired e3 s3 = 1%nat /\
      confirmation_failures (after e3 s3) = []) /\
  (forall e1 e2 e3 s1 s2 s3,
      three_timeouts e1 e2 e3 s1 s2 s3 ->
      failure_window <= time_time e2 - time_time e1 ->
      failure_window <= time_time e3 - time_time e2 ->
      fired e1 s1 = 0%nat /\ fired e2 s2 = 0%nat /\ fired e3 s3 = 0%nat) /\
  (forall e s,
      dict_ok (pending_confirmations s) ->
      timeouts e s = 0%nat ->
      check_pending_confirmations e s = (Ok tt, s, [])).
Proof.
  split; [|split; [|split]]; [| | |intros e s Hok Hk; now apply sweep_idle].
  - intros e s Hok Hk now W.
    destruct (sweep_outcome e s Hok Hk) as (Hf & Ht & _).
    fold now W in Hf, Ht.
    destruct (Nat.leb_spec failure_threshold (length W)) as [Hle|Hlt].
    + repeat split; try lia; try (intros; assumption).
      * intros t Hin. subst W. unfold pruned_window in Hin.
        apply in_app_or in Hin as [Hin|Hin].
        -- apply filter_In in Hin as [_ Hin]. unfold fresh in Hin. lia.
        -- apply repeat_spec in Hin. subst t.
           unfold failure_window. lia.
    + repeat split; try lia; try (intros; assumption).
      intros t Hin. subst W. unfold pruned_window in Hin.
      apply in_app_or in Hin as [Hin|Hin].
      * apply filter_In in Hin as [_ Hin]. unfold fresh in Hin. lia.
      * apply repeat_spec in Hin. subst t. unfold failure_window. lia.
  - intros e1 e2 e3 s1 s2 s3
      (Hok1 & Hok2 & Hok3 & Hk1 & Hk2 & Hk3 & Hf1 & Hf2 & Hf3) Hord Hspan.
    destruct (sweep_one e1 s1 [] Hok1 Hk1 Hf1) as [A1 T1].
    simpl in A1, T1. rewrite A1 in Hf2.
    destruct (sweep_one e2 s2 _ Hok2 Hk2 Hf2) as [A2 T2].
    assert (F21 : fresh (time_time e2) (time_time e1) = true)
      by (unfold fresh; lia).
    simpl in A2, T2. rewrite F21 in A2, T2. simpl in A2, T2.
    rewrite A2 in Hf3.
    destruct (sweep_one e3 s3 _ Hok3 Hk3 Hf3) as [A3 T3].
    assert (F31 : fresh (time_time e3) (time_time e1) = true)
      by (unfold fresh; lia).
    assert (F32 : fresh (time_time e3) (time_time e2) = true)
      by (unfold fresh; lia).
    simpl in A3, T3. rewrite F31, F32 in A3, T3. simpl in A3, T3.
    auto.
  - intros e1 e2 e3 s1 s2 s3
      (Hok1 & Hok2 & Hok3 & Hk1 & Hk2 & Hk3 & Hf1 & Hf2 & Hf3) H12 H23.
    destruct (sweep_one e1 s1 [] Hok1 Hk1 Hf1) as [A1 T1].
    simpl in A1, T1. rewrite A1 in Hf2.
    destruct (sweep_one e2 s2 _ Hok2 Hk2 Hf2) as [A2 T2].
    assert (F21 : fresh (time_time e2) (time_time e1) = false)
      by (unfold fresh; lia).
    simpl in A2, T2. rewrite F21 in A2, T2. simpl in A2, T2.
    rewrite A2 in Hf3.
    destruct (sweep_one e3 s3 _ Hok3 Hk3 Hf3) as [A3 T3].
    assert (F32 : fresh (time_time e3) (time_time e2) = false)
      by (unfold fresh; lia).
    simpl in A3, T3. rewrite F32 in A3, T3. simpl in A3, T3.
    auto.
Qed.

(* ================================================================= *)
(** ** The event relay *)

Lemma is_none_false v : v <> PNone -> is_none v = false.
Proof. destruct v; simpl; congruence. Qed.

Lemma py_eq_str v x : py_eq v (PStr x) = true <-> v = PStr x.
Proof.
  destruct v; simpl; try (split; [discriminate|congruence]).
  rewrite String.eqb_eq. split; congruence.
Qed.

Lemma py_eq_bool x b : py_eq (PBool x) (PBool b) = true <-> x = b.
Proof. simpl. apply Bool.eqb_true_iff. Qed.

(** [process_ihc_event] on an event that passes the required-fields
    test, in closed form. *)
Lemma process_ihc_event_present s event ty m io st :
  get event "type" = ty -> get event "moduleNumber" = m ->
  get event "ioNumber" = io -> get event "state" = st ->
  ty <> PNone -> m <> PNone -> io <> PNone -> st <> PNone ->
  ty <> PStr "ping" ->
  let key := confirmation_key (py_str m) (py_str io) in
  let pend := pending_confirmations s in
  process_ihc_event event s =
  if py_eq ty (PStr "outputState") then
    match dict_get pend key with
    | Some inf =>
        if py_eq (PBool (i_state inf)) st
        then (Ok tt, set_pending (dict_del pend key) s,
              (relay_head ty m io st ++ [confirmed_log m io])%list)
        else (Ok tt, s, relay_head ty m io st)
    | None => (Ok tt, s, relay_head ty m io st)
    end
  else (Ok tt, s, relay_head ty m io st).
Proof.
  intros Hty Hm Hio Hst Nty Nm Nio Nst Nping. cbv zeta.
  unfold process_ihc_event. rewrite Hty, Hm, Hio, Hst.
  rewrite !is_none_false by assumption.
  assert (Hp : py_eq ty (PStr "ping") = false).
  { destruct (py_eq ty (PStr "ping")) eqn:E; [|reflexivity].
    apply py_eq_str in E. contradiction. }
  rewrite Hp. cbn [orb].
  unfold try_except, bind, publish, log, emit, gets, ret. cbn [app].
  destruct (py_eq ty (PStr "outputState")); [|reflexivity].
  destruct (dict_get (pending_confirmations s)
              (confirmation_key (py_str m) (py_str io))) as [inf|] eqn:Eg;
    [|reflexivity].
  destruct (py_eq (PBool (i_state inf)) st); [|reflexivity].
  unfold del_pending, bind, gets, modify, dict_mem.
  rewrite Eg. reflexivity.
Qed.

(** An event with a required field missing, or a keepalive, is dropped. *)
Lemma process_ihc_event_absent s event :
  get event "type" = PNone \/ get event "moduleNumber" = PNone \/
  get event "ioNumber" = PNone \/ get event "state" = PNone \/
  get event "type" = PStr "ping" ->
  process_ihc_event event s = (Ok tt, s, []).
Proof.
  intros H. unfold process_ihc_event.
  assert (T : is_none (get event "type") || is_none (get event "moduleNumber")
              || is_none (get event "ioNumber") || is_none (get event "state")
              || py_eq (get event "type") (PStr "ping") = true).
  { destruct H as [H|[H|[H|[H|H]]]]; rewrite H; simpl;
      rewrite ?orb_true_r; reflexivity. }
  rewrite T. reflexivity.
Qed.

(** C7 -- The confirmation step of [process_ihc_event], for an
    output-state event whose fields are all present: the entry under the
    event's key is removed, and the confirmation logged, exactly when an
    entry is pending under that key whose [state] equals ([==]) the observed
    one; in every other case the bridge object is left as it was and no
    confirmation is logged.  No other entry is touched, and the method
    returns normally in both cases. *)
Theorem try_confirm_exact (s : bridge) (event : list (string * pyval))
  (m io st : pyval) :
  dict_ok (pending_confirmations s) ->
  get event "type" = PStr "outputState" ->
  get event "moduleNumber" = m -> get event "ioNumber" = io ->
  get event "state" = st ->
  m <> PNone -> io <> PNone -> st <> PNone ->
  let key := confirmation_key (py_str m) (py_str io) in
  let pend := pending_confirmations s in
  let matching :=
    exists inf, dict_get pend key = Some inf /\
                py_eq (PBool (i_state inf)) st = true in
  let s' := state_of (process_ihc_event event s) in
  let confirmed := In (confirmed_log m io)
                     (trace_of (process_ihc_event event s)) in
  result_of (process_ihc_event event s) = Ok tt /\
  (matching ->
   confirmed /\ s' = set_pending (dict_del pend key) s /\
   dict_get (pending_confirmations s') key = None /\
   forall k, k <> key ->
             dict_get (pending_confirmations s') k = dict_get pend k) /\
  (~ matching -> ~ confirmed /\ s' = s).
Proof.
  intros Hok Hty Hm Hio Hst Nm Nio Nst key pend matching s' confirmed.
  subst s' confirmed.
  rewrite (process_ihc_event_present s event _ m io st Hty Hm Hio Hst)
    by (assumption || discriminate).
  fold key pend.
  change (py_eq (PStr "outputState") (PStr "outputState")) with true.
  cbv iota.
  assert (Hnot : ~ In (confirmed_log m io)
                   (relay_head (PStr "outputState") m io st)).
  { unfold relay_head, confirmed_log. simpl. intuition discriminate. }
  destruct (dict_get pend key) as [inf|] eqn:Eg.
  - destruct (py_eq (PBool (i_state inf)) st) eqn:Eq.
    + split; [reflexivity|]. split.
      * intros _. unfold state_of, trace_of. cbn [fst snd].
        split; [apply in_or_app; right; now left|].
        split; [reflexivity|]. destruct s; simpl in *.
        split; [now apply dict_del_same|].
        intros k Hk. now apply dict_del_other.
      * intros Hn. exfalso. apply Hn. exists inf. auto.
    + split; [reflexivity|]. split.
      * intros (inf' & Hg & He). congruence.
      * intros _. split; [exact Hnot | reflexivity].
  - split; [reflexivity|]. split.
    + intros (inf' & Hg & _). discriminate.
    + intros _. split; [exact Hnot | reflexivity].
Qed.

(** C10 -- An event whose [state] is the boolean [False] passes the
    required-fields test: it is published as ["OFF"], retained, and when it
    is an output-state event it clears a pending confirmation that expects
    [False]; an event whose [state] is missing is dropped without any
    publish. *)
Theorem false_state_is_processed (s : bridge) (event : list (string * pyval))
  (ty m io : pyval) :
  get event "type" = ty -> get event "moduleNumber" = m ->
  get event "ioNumber" = io -> get event "state" = PBool false ->
  ty <> PNone -> ty <> PStr "ping" -> m <> PNone -> io <> PNone ->
  let topic := state_topic (py_str ty) (py_str m) (py_str io) in
  let key := confirmation_key (py_str m) (py_str io) in
  let pend := pending_confirmations s in
  let r := process_ihc_event event s in
  result_of r = Ok tt /\
  (exists rest, trace_of r = Publish topic "OFF" true :: rest) /\
  (ty = PStr "outputState" ->
   forall inf, dict_get pend key = Some inf -> i_state inf = false ->
               state_of r = set_pending (dict_del pend key) s /\
               In (confirmed_log m io) (trace_of r)) /\
  (forall event', get event' "state" = PNone ->
                  process_ihc_event event' s = (Ok tt, s, [])).
Proof.
  intros Hty Hm Hio Hst Nty Nping Nm Nio. cbv zeta.
  rewrite (process_ihc_event_present s event ty m io (PBool false))
    by (assumption || discriminate).
  cbv zeta.
  set (key := confirmation_key (py_str m) (py_str io)).
  set (pend := pending_confirmations s).
  split; [|split; [|split]].
  - destruct (py_eq ty (PStr "outputState")); [|reflexivity].
    destruct (dict_get pend key) as [inf|]; [|reflexivity].
    destruct (py_eq (PBool (i_state inf)) (PBool false)); reflexivity.
  - destruct (py_eq ty (PStr "outputState")); [|eexists; reflexivity].
    destruct (dict_get pend key) as [inf|]; [|eexists; reflexivity].
    destruct (py_eq (PBool (i_state inf)) (PBool false));
      eexists; reflexivity.
  - intros -> inf Hg Hfalse.
    change (py_eq (PStr "outputState") (PStr "outputState")) with true.
    cbv iota. rewrite Hg.
    replace (py_eq (PBool (i_state inf)) (PBool false)) with true
      by (rewrite Hfalse; reflexivity).
    split; [reflexivity|].
    unfold trace_of. cbn [snd]. apply in_or_app. right. now left.
  - intros event' H. apply process_ihc_event_absent. tauto.
Qed.

(** The relay's topic for an output-state event is never a topic of the
    form the command echo and the initial-state publish use. *)
Lemma relay_topic_not_echo_topic m io a b :
  state_topic "outputState" m io <> state_topic "output" a b.
Proof. unfold state_topic. simpl. intros H. discriminate H. Qed.

(* ================================================================= *)
(** ** Equations of the monad *)

Lemma bind_ret_l {A B} (a : A) (k : A -> M B) s : bind (ret a) k s = k a s.
Proof. unfold bind, ret. now destruct (k a s) as [[r s2] t2]. Qed.

Lemma bind_emit {B} x (k : unit -> M B) s :
  bind (emit x) k s =
  match k tt s with (r, s', t) => (r, s', x :: t) end.
Proof. reflexivity. Qed.

Lemma bind_raise {A B} ex (k : A -> M B) s :
  bind (raise ex) k s = (Raised ex, s, []).
Proof. reflexivity. Qed.

(* ================================================================= *)
(** ** Command ingress *)

Lemma set_ihc_output_spec e m o st s :
  set_ihc_output e m o st s =
  let pre := [sending_log m o st; Post (SetOutput m o st) true] in
  match post_setOutput e with
  | Response c text _ =>
      if c =? 200 then
        (Ok tt, registered e m o st s,
         (pre ++ [echo m o st;
                  Log INFO ("Successfully set output " ++ str_int m ++ "/" ++
                            str_int o ++ " to " ++ on_off st)])%list)
      else
        (Ok tt, s,
         (pre ++ [Log WARNING ("IHC server returned status code " ++
                               str_int c ++ ": " ++ text)])%list)
  | HttpRaises ex =>
      if is_class RequestException ex then
        (Ok tt, s,
         (pre ++ [Log ERROR ("Error communicating with IHC server: " ++
                             exn_text ex)])%list)
      else (Raised ex, s, pre)
  end.
Proof.
  unfold set_ihc_output. change have_credentials with true. cbv iota.
  unfold session_post, try_except, bind, log, publish, emit, gets, modify,
    ret, raise.
  cbn [app]. destruct (post_setOutput e) as [c text body|ex].
  - cbn [app]. destruct (c =? 200); reflexivity.
  - cbn [app]. destruct (is_class RequestException ex); reflexivity.
Qed.

Lemma system_command_other e t payload :
  t <> "ihc/system/restart" -> t <> "ihc/system/pi_restart" ->
  system_command e t payload = ret false.
Proof.
  intros H1 H2. unfold system_command.
  apply String.eqb_neq in H1, H2. now rewrite H1, H2.
Qed.

Lemma device_topic_not_reserved t m o :
  device_set_topic t m o ->
  t <> "ihc/system/restart" /\ t <> "ihc/system/pi_restart".
Proof.
  intros H. apply split_device_set_topic in H.
  split; intros ->; discriminate H.
Qed.

(** [on_message] on a device-set topic whose two identifiers parse. *)
Lemma on_message_device e s t ms os text m o :
  device_set_topic t ms os ->
  py_int ms = Some m -> py_int os = Some o ->
  let st := (upper text =? "ON")%string in
  on_message e (mk_message t (Utf8 text)) s =
  match set_ihc_output e m o st s with
  | (Ok _, s', tr) => (Ok tt, s', received_log ms os st :: tr)
  | (Raised ex, s', tr) =>
      (Ok tt, s',
       received_log ms os st ::
         (tr ++ [Log ERROR ("Error handling message: " ++ exn_text ex)])%list)
  end.
Proof.
  intros Ht Hm Ho st.
  destruct (device_topic_not_reserved _ _ _ Ht) as [N1 N2].
  unfold on_message, try_except. cbn [topic payload decode].
  rewrite bind_ret_l, (system_command_other e t text N1 N2), bind_ret_l.
  rewrite (split_device_set_topic _ _ _ Ht).
  change (invalid_topic ["ihc"; "output"; ms; os; "set"]) with false.
  cbv iota. cbn [nth]. unfold int_of, log. rewrite Hm, Ho. fold st.
  rewrite bind_emit, !bind_ret_l.
  destruct (set_ihc_output e m o st s) as [[[[]|ex] s'] tr]; reflexivity.
Qed.


(** C8 -- A bus message on a device-set topic whose payload upper-cases
    to ["ON"] posts the write [{moduleNumber, ioNumber, state: True}] to the
    controller.  When the controller answers 200 the bridge registers a
    pending confirmation under the device key, expecting [True] and stamped
    with the current time, and publishes the retained echo ["ON"] on the
    device's [output] state topic; when it does not (another status, or the
    post raises), the bridge object is left as it was, nothing is published,
    and a warning or an error is logged.  The handler returns normally in
    every case. *)
Theorem command_on_registers_iff_accepted
  (e : env) (s : bridge) (t ms os text : string) (m o : Z) :
  device_set_topic t ms os ->
  py_int ms = Some m -> py_int os = Some o ->
  upper text = "ON" ->
  let r := on_message e (mk_message t (Utf8 text)) s in
  let key := confirmation_key (str_int m) (str_int o) in
  let accepted := exists txt body, post_setOutput e = Response 200 txt body in
  result_of r = Ok tt /\
  In (Post (SetOutput m o true) true) (trace_of r) /\
  (accepted ->
   state_of r = registered e m o true s /\
   dict_get (pending_confirmations (state_of r)) key =
     Some (mk_info true (time_time e) m o) /\
   In (Publish (state_topic "output" (str_int m) (str_int o)) "ON" true)
      (trace_of r)) /\
  (~ accepted ->
   state_of r = s /\
   (forall x, In x (trace_of r) -> is_publish x = false) /\
   exists lvl msg, (lvl = WARNING \/ lvl = ERROR) /\
                   In (Log lvl msg) (trace_of r)).
Proof.
  intros Ht Hm Ho Hon. cbv zeta.
  rewrite (on_message_device e s t ms os text m o Ht Hm Ho).
  rewrite Hon. change ("ON" =? "ON")%string with true.
  rewrite set_ihc_output_spec. cbv zeta.
  destruct (post_setOutput e) as [c txt body|ex].
  - destruct (Z.eqb_spec c 200) as [->|Hc].
    + unfold result_of, state_of, trace_of. cbn [fst snd app].
      split; [reflexivity|]. split; [simpl; tauto|]. split.
      * intros _. split; [reflexivity|]. split.
        -- unfold registered. destruct s. cbn. apply dict_set_same.
        -- unfold echo, on_off. simpl. tauto.
      * intros Hn. exfalso. apply Hn. eauto.
    + unfold result_of, state_of, trace_of. cbn [fst snd app].
      split; [reflexivity|]. split; [simpl; tauto|]. split.
      * intros (txt' & body' & [= -> _ _]). congruence.
      * intros _. split; [reflexivity|]. split.
        -- intros x Hx. simpl in Hx.
           destruct Hx as [<-|[<-|[<-|[<-|[]]]]]; reflexivity.
        -- exists WARNING. eexists. split; [now left|]. simpl. eauto 6.
  - destruct (is_class RequestException ex).
    + unfold result_of, state_of, trace_of. cbn [fst snd app].
      split; [reflexivity|]. split; [simpl; tauto|]. split.
      * intros (txt' & body' & [=]).
      * intros _. split; [reflexivity|]. split.
        -- intros x Hx. simpl in Hx.
           destruct Hx as [<-|[<-|[<-|[<-|[]]]]]; reflexivity.
        -- exists ERROR. eexists. split; [now right|]. simpl. eauto 6.
    + unfold result_of, state_of, trace_of. cbn [fst snd app].
      split; [reflexivity|]. split; [simpl; tauto|]. split.
      * intros (txt' & body' & [=]).
      * intros _. split; [reflexivity|]. split.
        -- intros x Hx. simpl in Hx.
           destruct Hx as [<-|[<-|[<-|[<-|[]]]]]; reflexivity.
        -- exists ERROR. eexists. split; [now right|]. simpl. eauto 6.
Qed.


(* ================================================================= *)
(** ** Escalation actions: the host restart *)

(** When [sudo reboot] is launched and exits, whatever its status, the
    [except] branch is not entered. *)
Lemma restart_raspberry_pi_exited e s c :
  run_reboot e = Exited c -> ws_close_raises e = None ->
  restart_raspberry_pi e s =
  (Ok tt, set_ws_stop_event true (set_running false s),
   pi_restart_trace (ws s)).
Proof.
  intros Hr Hw. unfold restart_raspberry_pi, subprocess_run, ws_close.
  rewrite Hr, Hw.
  unfold try_except, bind, publish, log, sleep, emit, gets, modify, ret,
    pi_restart_trace.
  destruct s as [rn w th ev pd fl lc]. cbn.
  destruct w; reflexivity.
Qed.

Lemma reset_connections_starts e s :
  In ThreadStart (trace_of (reset_connections e s)).
Proof.
  unfold reset_connections, ws_close, try_except, bind, log, emit, gets,
    modify, ret, raise, trace_of.
  destruct s as [rn w th ev pd fl lc]. cbn -[reconnect_loop].
  destruct w; cbn -[reconnect_loop];
    destruct (ws_close_raises e); cbn -[reconnect_loop];
    destruct (th && thread_is_alive e); cbn -[reconnect_loop];
    match goal with
    | |- context [reconnect_loop ?e ?f ?n ?s] =>
        destruct (reconnect_loop e f n s) as [[r s'] t]
    end; cbn; tauto.
Qed.

(** When [sudo reboot] cannot be launched, the [except] branch sets the
    running flag again and resets the connections. *)
Lemma reboot_not_launched_recovers e s ex :
  run_reboot e = NotLaunched ex -> ws_close_raises e = None ->
  running (state_of (restart_raspberry_pi e s)) = true /\
  In ThreadStart (trace_of (restart_raspberry_pi e s)).
Proof.
  intros Hr Hw. unfold restart_raspberry_pi, subprocess_run, ws_close.
  rewrite Hr, Hw.
  unfold try_except, bind, publish, log, sleep, emit, gets, modify, ret,
    raise, any_exception.
  destruct s as [rn w th ev pd fl lc]. cbn -[reset_connections].
  destruct w; cbn -[reset_connections];
    match goal with
    | |- context [reset_connections ?e ?s] =>
        pose proof (reset_connections_keeps e s) as [[_ Hrun] _];
        pose proof (reset_connections_starts e s) as Hin;
        destruct (reset_connections e s) as [[r s'] t]
    end; unfold state_of, trace_of in *; destruct r; cbn in *;
    (split; [exact Hrun|]);
    repeat (right; try (apply in_or_app; left; exact Hin));
    try exact Hin.
Qed.

(** C2 -- The host restart when [sudo reboot] is launched and fails with
    a non-zero exit status.  [subprocess.run] is called with [check=False],
    so nothing is raised and the recovery branch does not run: the method
    returns with the running flag cleared and the stop event set, having
    stopped and disconnected the bus client, and neither clears the stop
    event nor starts a worker thread. *)
Theorem reboot_failure_status_not_recovered (e : env) (s : bridge) (c : Z) :
  run_reboot e = Exited c -> c <> 0 -> ws_close_raises e = None ->
  let r := restart_raspberry_pi e s in
  result_of r = Ok tt /\
  running (state_of r) = false /\
  ws_stop_event (state_of r) = true /\
  In MqttDisconnect (trace_of r) /\
  ~ In EventClear (trace_of r) /\
  ~ In ThreadStart (trace_of r).
Proof.
  intros Hr _ Hw. cbv zeta. rewrite (restart_raspberry_pi_exited e s c Hr Hw).
  unfold result_of, state_of, trace_of, pi_restart_trace. cbn [fst snd].
  destruct s as [rn w th ev pd fl lc]. cbn.
  repeat split; destruct w; cbn; try tauto; intuition discriminate.
Qed.

(* ================================================================= *)
(** ** Startup *)

Lemma for_each_quiet {A} (l : list A) (body : A -> M unit) s :
  (forall x s, exists t, body x s = (Ok tt, s, t) /\ Forall quiet t) ->
  exists t, for_each l body s = (Ok tt, s, t) /\ Forall quiet t.
Proof.
  intros Hb. induction l as [|x l (t & E & Q)]; simpl.
  - exists []. split; [reflexivity | constructor].
  - destruct (Hb x s) as (t0 & E0 & Q0). unfold bind. rewrite E0, E.
    exists (t0 ++ t)%list. split; [reflexivity | now apply Forall_app].
Qed.

Lemma publish_initial_quiet direction module s :
  exists t, publish_initial direction module s = (Ok tt, s, t) /\
            Forall quiet t.
Proof.
  unfold publish_initial. destruct (truthy (module_state module)).
  - apply for_each_quiet. intros io s0. eexists. split; [reflexivity|].
    repeat constructor.
  - exists []. split; [reflexivity | constructor].
Qed.

Lemma process_ihc_states_quiet data s :
  exists t, process_ihc_states data s = (Ok tt, s, t) /\ Forall quiet t.
Proof.
  unfold process_ihc_states, try_except, bind.
  destruct (for_each_quiet (outputModules data) (publish_initial "output") s
              (publish_initial_quiet "output")) as (t1 & E1 & Q1).
  destruct (for_each_quiet (inputModules data) (publish_initial "input") s
              (publish_initial_quiet "input")) as (t2 & E2 & Q2).
  rewrite E1, E2. exists (t1 ++ t2)%list.
  split; [reflexivity | now apply Forall_app].
Qed.

Lemma test_ihc_connection_quiet o s :
  handled o ->
  exists b t, test_ihc_connection o s = (Ok b, s, t) /\ Forall quiet t /\
              (forall ex, o = HttpRaises ex -> b = false).
Proof.
  intros Ho. unfold test_ihc_connection. change have_credentials with true.
  cbv iota.
  unfold session_post, response_json, try_except, bind, log, emit, ret, raise.
  destruct o as [c txt [data|ex]|ex]; cbn [app].
  - destruct (c =? 200).
    + destruct (process_ihc_states_quiet data s) as (t & E & Q). rewrite E.
      eexists _, _. split; [reflexivity|]. split; [|discriminate].
      repeat constructor. apply Forall_app. split; [exact Q|].
      repeat constructor.
    + eexists _, _. split; [reflexivity|]. split; [|discriminate].
      repeat constructor.
  - destruct (Z.eqb_spec c 200) as [->|Hc].
    + cbn in Ho. rewrite (Ho eq_refl).
      eexists _, _. split; [reflexivity|]. split; [|discriminate].
      repeat constructor.
    + eexists _, _. split; [reflexivity|]. split; [|discriminate].
      repeat constructor.
  - cbn in Ho. rewrite Ho.
    eexists _, _. split; [reflexivity|]. split; [|reflexivity].
    repeat constructor.
Qed.

(** [connect_mqtt] in closed form: [True] exactly when one of the
    remaining attempts is accepted. *)
Lemma connect_loop_spec e fuel n s :
  (fuel + n = max_retries)%nat ->
  exists t, connect_loop e fuel n s =
            (Ok (existsb (accepted e) (seq n fuel)), s, t) /\
            Forall quiet t.
Proof.
  revert n. induction fuel as [|fuel IH]; intros n Hn.
  - exists []. split; [reflexivity | constructor].
  - cbn [connect_loop seq existsb]. unfold accepted at 1.
    unfold try_except, bind, log, sleep, emit, ret, raise, any_exception.
    destruct (mqtt_connect_raises e n) as [ex|]; cbn [app orb].
    + destruct (Nat.ltb_spec (S n) max_retries) as [Hlt|Hge]; cbn [app].
      * destruct (IH (S n)) as (t & E & Q); [lia|]. rewrite E.
        eexists. split; [reflexivity|]. repeat constructor. exact Q.
      * assert (fuel = 0%nat) by lia. subst fuel.
        eexists. split; [reflexivity|]. repeat constructor.
    + eexists. split; [reflexivity|]. repeat constructor.
Qed.

Lemma existsb_accepted e n :
  existsb (accepted e) (seq 0 n) = true <-> broker_accepts e n.
Proof.
  rewrite existsb_exists. unfold broker_accepts.
  split; intros (k & H1 & H2); exists k.
  - apply in_seq in H1. split; [lia | exact H2].
  - split; [apply in_seq; lia | exact H2].
Qed.

Lemma quiet_not_in x t : Forall quiet t -> ~ quiet x -> ~ In x t.
Proof. intros H Hx Hin. apply Hx. eapply Forall_forall; eauto. Qed.

(** C3 (as stated, refuted) -- with the broker refusing every connection
    attempt, [run] returns before its main loop: the system does not
    start. *)
Lemma startup_exits_when_broker_down :
  broker_refuses broker_down max_retries /\
  ~ started (run_startup broker_down init).
Proof.
  split.
  - intros k _. reflexivity.
  - intros [Hr _]. vm_compute in Hr. discriminate Hr.
Qed.

(** C3 (amended) -- Startup when the first probe of the controller API
    gets an answer or is unreachable.  If the broker accepts one of the
    five connection attempts, [run] reaches its main loop (bus loop started,
    running flag set, worker thread started), and an unreachable API is
    logged as an error on the way.  If the broker refuses all five
    attempts, [run] logs that it is exiting and returns: the bridge object
    is as it was, and neither the bus loop nor a worker thread is
    started. *)
Theorem startup_outcome (e : env) (s : bridge) :
  api_answers e ->
  let r := run_startup e s in
  (broker_accepts e max_retries ->
   started r /\ (api_unreachable e -> In api_failed_log (trace_of r))) /\
  (broker_refuses e max_retries ->
   result_of r = Ok false /\ state_of r = s /\
   In exiting_log (trace_of r) /\
   ~ In MqttLoopStart (trace_of r) /\ ~ In ThreadStart (trace_of r)).
Proof.
  intros Hans. cbv zeta.
  destruct (test_ihc_connection_quiet (post_getAll e 0) s Hans)
    as (b & t0 & E0 & Q0 & Hb).
  destruct (connect_loop_spec e max_retries 0 s eq_refl) as (t1 & E1 & Q1).
  assert (Hrun : run_startup e s =
    if existsb (accepted e) (seq 0 max_retries) then
      (Ok true, set_ws_thread true (set_running true s),
       (t0 ++ (if negb b then
                 [api_failed_log;
                  Log INFO "The bridge will still start, but it may not work correctly until the IHC server is accessible."]
               else []) ++ t1 ++
        [MqttLoopStart; ThreadStart; Log INFO "IHC-MQTT Bridge started"])%list)
    else
      (Ok false, s,
       (t0 ++ (if negb b then
                 [api_failed_log;
                  Log INFO "The bridge will still start, but it may not work correctly until the IHC server is accessible."]
               else []) ++ t1 ++ [exiting_log])%list)).
  { unfold run_startup, connect_mqtt, bind at 1. rewrite E0.
    destruct b; cbn [negb]; unfold bind, log, emit, modify, ret;
      cbn [app]; rewrite E1;
      destruct (existsb (accepted e) (seq 0 max_retries)); cbn [negb app];
      unfold api_failed_log, exiting_log; rewrite ?app_nil_r; reflexivity. }
  rewrite Hrun. split.
  - intros Hacc. apply existsb_accepted in Hacc. rewrite Hacc.
    unfold started, result_of, state_of, trace_of. cbn [fst snd].
    split; [|].
    + split; [reflexivity|]. split; [now destruct s|].
      split; apply in_or_app; right; apply in_or_app; right;
        apply in_or_app; right; simpl; tauto.
    + intros (ex & Hex & _). rewrite (Hb ex Hex). cbn [negb].
      apply in_or_app. right. now left.
  - intros Href.
    assert (Hno : existsb (accepted e) (seq 0 max_retries) = false).
    { destruct (existsb (accepted e) (seq 0 max_retries)) eqn:E;
        [|reflexivity].
      apply existsb_accepted in E as (k & Hk & Ha).
      rewrite (Href k Hk) in Ha. discriminate. }
    rewrite Hno. unfold result_of, state_of, trace_of. cbn [fst snd].
    assert (Hq : Forall quiet
      (t0 ++ (if negb b then
                 [api_failed_log;
                  Log INFO "The bridge will still start, but it may not work correctly until the IHC server is accessible."]
               else []) ++ t1 ++ [exiting_log])%list).
    { repeat (apply Forall_app; split); try assumption.
      - destruct (negb b); repeat constructor.
      - repeat constructor. }
    repeat split.
    + apply in_or_app; right; apply in_or_app; right;
        apply in_or_app; right; now left.
    + apply (quiet_not_in _ _ Hq). intros [].
    + apply (quiet_not_in _ _ Hq). intros [].
Qed.

Ltac dict_ok_tac :=
  unfold dict_ok; simpl; repeat (constructor; [simpl; intuition discriminate|]);
  constructor.

(* ================================================================= *)
(** ** The registry is a dictionary in every reachable state *)

Lemma same_registry_refl s : same_registry s s.
Proof. split; reflexivity. Qed.

Lemma same_registry_trans a b c :
  same_registry a b -> same_registry b c -> same_registry a c.
Proof. unfold same_registry. intuition congruence. Qed.

Lemma keeps_weaken {A} (R R' : bridge -> bridge -> Prop)
  (T T' : effect -> Prop) (c : M A) :
  (forall a b, R a b -> R' a b) -> (forall x, T x -> T' x) ->
  keeps R T c -> keeps R' T' c.
Proof.
  intros HR HT H s. destruct (H s) as [H1 H2]. split; [auto|].
  eapply Forall_impl; eauto.
Qed.

Ltac keeps_registry :=
  repeat first
    [ exact same_registry_refl
    | exact same_registry_trans
    | apply keeps_ret | apply keeps_raise | apply keeps_gets
    | apply keeps_bind | apply keeps_try
    | apply keeps_emit | apply keeps_modify
    | match goal with
      | |- keeps _ _ (if ?b then _ else _) => destruct b
      | |- keeps _ _ (match ?x with _ => _ end) => destruct x
      | |- same_registry _ _ => split; reflexivity
      | |- anything _ => exact I
      end
    | intro ].

Lemma reset_connections_keeps_registry e :
  keeps same_registry anything (reset_connections e).
Proof.
  apply (keeps_weaken same_core same_registry plain anything);
    [now intros a b [H _] | now intros | apply reset_connections_keeps].
Qed.

Lemma restart_ihc_server_keeps_registry e scheduled :
  keeps same_registry anything (restart_ihc_server e scheduled).
Proof.
  intros s. destruct (restart_ihc_server_spec e scheduled s) as [[H _] _].
  split; [exact H|]. apply Forall_forall. now intros.
Qed.

Lemma restart_raspberry_pi_keeps_registry e :
  keeps same_registry anything (restart_raspberry_pi e).
Proof.
  unfold restart_raspberry_pi, subprocess_run, ws_close, publish, log, sleep.
  repeat first [ apply reset_connections_keeps_registry
               | apply keeps_bind; [exact same_registry_trans | | intro]
               | apply keeps_try; [exact same_registry_trans | | intro]
               | progress keeps_registry ].
Qed.

Lemma system_command_keeps_registry e t text :
  keeps same_registry anything (system_command e t text).
Proof.
  assert (Hret : forall b : bool, keeps same_registry anything (ret b))
    by (intros b; apply keeps_ret; exact same_registry_refl).
  assert (Hemit : forall x, keeps same_registry anything (emit x))
    by (intros x; apply keeps_emit; [exact same_registry_refl | exact I]).
  unfold system_command, publish, log.
  destruct (t =? "ihc/system/restart")%string.
  - destruct (upper text =? "RESTART")%string; [|apply Hret].
    apply keeps_bind; [exact same_registry_trans | apply Hemit | intros _].
    apply keeps_bind; [exact same_registry_trans | | intros _].
    + apply restart_ihc_server_keeps_registry.
    + apply keeps_bind; [exact same_registry_trans | apply Hemit | intros _].
      apply Hret.
  - destruct (t =? "ihc/system/pi_restart")%string; [|apply Hret].
    destruct (upper text =? "RESTART")%string; [|apply Hret].
    apply keeps_bind; [exact same_registry_trans | apply Hemit | intros _].
    apply keeps_bind; [exact same_registry_trans | | intros _].
    + apply restart_raspberry_pi_keeps_registry.
    + apply Hret.
Qed.

Lemma on_message_dict_ok e msg s :
  dict_ok (pending_confirmations s) ->
  dict_ok (pending_confirmations (state_of (on_message e msg s))).
Proof.
  intros Hok. destruct msg as [t [text|]]; [|exact Hok].
  unfold on_message, try_except. cbn [topic payload decode].
  rewrite bind_ret_l. unfold bind at 1.
  destruct (system_command_keeps_registry e t text s) as [[Hp _] _].
  destruct (system_command e t text s) as [[[returned|ex] s1] t1];
    unfold state_of in *; cbn [fst snd] in *; rewrite <- Hp in Hok;
    [|exact Hok].
  destruct returned; [exact Hok|].
  destruct (invalid_topic (split "/" t)); [exact Hok|].
  unfold log, int_of. rewrite bind_emit.
  destruct (py_int (nth 2 (split "/" t) "")) as [m|];
    [|rewrite bind_raise; exact Hok].
  rewrite bind_ret_l.
  destruct (py_int (nth 3 (split "/" t) "")) as [o|];
    [|rewrite bind_raise; exact Hok].
  rewrite bind_ret_l, set_ihc_output_spec. cbv zeta.
  destruct (post_setOutput e) as [c txt body|ex].
  - destruct (c =? 200); [|exact Hok].
    cbn. unfold registered. destruct s1; cbn in *. now apply dict_ok_set.
  - destruct (is_class RequestException ex); exact Hok.
Qed.

Lemma pyval_eq_dec (a b : pyval) : {a = b} + {a <> b}.
Proof.
  decide equality;
    [apply Bool.bool_dec | apply Z.eq_dec | apply string_dec].
Qed.

Lemma process_ihc_event_dict_ok event s :
  dict_ok (pending_confirmations s) ->
  dict_ok (pending_confirmations (state_of (process_ihc_event event s))).
Proof.
  intros Hok.
  destruct (pyval_eq_dec (get event "type") PNone) as [H1|H1];
    [rewrite process_ihc_event_absent by tauto; exact Hok|].
  destruct (pyval_eq_dec (get event "moduleNumber") PNone) as [H2|H2];
    [rewrite process_ihc_event_absent by tauto; exact Hok|].
  destruct (pyval_eq_dec (get event "ioNumber") PNone) as [H3|H3];
    [rewrite process_ihc_event_absent by tauto; exact Hok|].
  destruct (pyval_eq_dec (get event "state") PNone) as [H4|H4];
    [rewrite process_ihc_event_absent by tauto; exact Hok|].
  destruct (pyval_eq_dec (get event "type") (PStr "ping")) as [H5|H5];
    [rewrite process_ihc_event_absent by tauto; exact Hok|].
  rewrite (process_ihc_event_present s event _ _ _ _
             eq_refl eq_refl eq_refl eq_refl H1 H2 H3 H4 H5).
  cbv zeta.
  destruct (py_eq (get event "type") (PStr "outputState")); [|exact Hok].
  destruct (dict_get _ _) as [inf|]; [|exact Hok].
  destruct (py_eq (PBool (i_state inf)) (get event "state")); [|exact Hok].
  unfold state_of. cbn [fst snd]. destruct s; cbn in *.
  now apply dict_ok_del.
Qed.

Lemma check_pending_dict_ok e s :
  dict_ok (pending_confirmations s) ->
  dict_ok (pending_confirmations (state_of (check_pending_confirmations e s))).
Proof.
  intros Hok. destruct (Nat.eq_dec (timeouts e s) 0) as [H0|H0].
  - rewrite sweep_idle by assumption. exact Hok.
  - destruct (sweep_outcome e s Hok) as (_ & _ & Hp); [lia|].
    unfold after in Hp. rewrite Hp. now apply dict_ok_fold_del.
Qed.

(** In every reachable state the registry has no key twice. *)
Lemma reachable_dict_ok s :
  reachable s -> dict_ok (pending_confirmations s).
Proof.
  induction 1 as [|e msg s _ IH|event s _ IH|e s _ IH].
  - constructor.
  - now apply on_message_dict_ok.
  - now apply process_ihc_event_dict_ok.
  - now apply check_pending_dict_ok.
Qed.

(* ================================================================= *)
(** ** The documented example, and the statements at concrete inputs *)

(** C1 -- The relay against the command echo, on the documented example.
    The command publishes its echo on [ihc/output/4/2/state]; the
    controller's [outputState] report for the same output clears the
    pending confirmation but is published on [ihc/outputState/4/2/state],
    and nothing is published on the echo's topic. *)
Theorem relay_publish_misses_echo_topic :
  let after_command := on_message (answering 100) example_command init in
  let after_event :=
    process_ihc_event example_event (state_of after_command) in
  In (Publish "ihc/output/4/2/state" "ON" true) (trace_of after_command) /\
  keys (pending_confirmations (state_of after_command)) = ["4_2"] /\
  trace_of after_event =
    [Publish "ihc/outputState/4/2/state" "ON" true;
     Log INFO "Published event: ihc/outputState/4/2/state = ON";
     Log DEBUG "State change confirmed for 4/2"] /\
  ~ In (Publish "ihc/output/4/2/state" "ON" true) (trace_of after_event) /\
  pending_confirmations (state_of after_event) = [].
Proof.
  vm_compute. repeat split; try tauto. intuition discriminate.
Qed.

(** The three timeouts at 0, 50 and 100 seconds, the three at 0, 400 and
    800 seconds, and three entries expiring in one sweep. *)
Lemma escalation_once_witness :
  (three_timeouts (answering 0) (answering 50) (answering 100)
     (stale 0 true []) (stale 50 true [0]) (stale 100 true [0; 50]) /\
   fired (answering 0) (stale 0 true []) = 0%nat /\
   fired (answering 50) (stale 50 true [0]) = 0%nat /\
   fired (answering 100) (stale 100 true [0; 50]) = 1%nat /\
   confirmation_failures (after (answering 100) (stale 100 true [0; 50]))
   = []) /\
  (three_timeouts (answering 0) (answering 400) (answering 800)
     (stale 0 true []) (stale 400 true [0]) (stale 800 true [400]) /\
   fired (answering 0) (stale 0 true []) = 0%nat /\
   fired (answering 400) (stale 400 true [0]) = 0%nat /\
   fired (answering 800) (stale 800 true [400]) = 0%nat) /\
  (timeouts (answering 100) (burst 100) = 3%nat /\
   fired (answering 100) (burst 100) = 1%nat /\
   confirmation_failures (after (answering 100) (burst 100)) = []).
Proof.
  assert (H : three_timeouts (answering 0) (answering 50) (answering 100)
                (stale 0 true []) (stale 50 true [0])
                (stale 100 true [0; 50])).
  { unfold three_timeouts. repeat split; try reflexivity; dict_ok_tac. }
  assert (H' : three_timeouts (answering 0) (answering 400) (answering 800)
                 (stale 0 true []) (stale 400 true [0])
                 (stale 800 true [400])).
  { unfold three_timeouts. repeat split; try reflexivity; dict_ok_tac. }
  assert (Hok : dict_ok (pending_confirmations (burst 100))) by dict_ok_tac.
  assert (Hk : (0 < timeouts (answering 100) (burst 100))%nat)
    by (vm_compute; lia).
  split; [|split].
  - split; [exact H|].
    apply (proj1 (proj2 escalation_once) _ _ _ _ _ _ H);
      unfold failure_window; simpl; lia.
  - split; [exact H'|].
    apply (proj1 (proj2 (proj2 escalation_once)) _ _ _ _ _ _ H');
      unfold failure_window; simpl; lia.
  - split; [reflexivity|].
    destruct (proj1 escalation_once (answering 100) (burst 100) Hok Hk)
      as (_ & _ & Hiff & Hclear & _).
    split.
    + apply Hiff. vm_compute. lia.
    + apply Hclear. vm_compute. lia.
Defined.

(** A sweep at 100 seconds over one entry submitted at 89. *)
Lemma sweep_expired_exact_witness :
  dict_ok (pending_confirmations (stale 100 true [])) /\
  In "4_2" (expired 100 (pending_confirmations (stale 100 true []))) /\
  dict_get (pending_confirmations (after (answering 100) (stale 100 true [])))
    "4_2" = None.
Proof.
  assert (H : dict_ok (pending_confirmations (stale 100 true [])))
    by dict_ok_tac.
  split; [exact H|].
  destruct (sweep_expired_exact (answering 100) (stale 100 true []) H)
    as (_ & _ & Hall & _ & Hgone & _).
  assert (Hin : In "4_2"
                  (expired 100 (pending_confirmations (stale 100 true []))))
    by (apply (Hall "4_2" (mk_info true 89 4 2)); reflexivity).
  split; [exact Hin | exact (Hgone "4_2" Hin)].
Defined.

(** The report of output 4/2 going on, against the pending command. *)
Lemma try_confirm_exact_witness :
  dict_ok (pending_confirmations (stale 100 true [])) /\
  state_of (process_ihc_event example_event (stale 100 true [])) = init.
Proof.
  assert (H : dict_ok (pending_confirmations (stale 100 true [])))
    by dict_ok_tac.
  split; [exact H|].
  destruct (try_confirm_exact (stale 100 true []) example_event
              (PInt 4) (PInt 2) (PBool true) H
              eq_refl eq_refl eq_refl eq_refl)
    as (_ & Hyes & _); try discriminate.
  destruct Hyes as (_ & Hs & _).
  - exists (mk_info true 89 4 2). split; reflexivity.
  - exact Hs.
Defined.

(** The report of output 4/2 going off, against a pending command that
    expects it off. *)
Lemma false_state_is_processed_witness :
  get (("state", PBool false) :: example_event) "state" = PBool false /\
  state_of (process_ihc_event (("state", PBool false) :: example_event)
              (stale 100 false [])) = init /\
  exists rest,
    trace_of (process_ihc_event (("state", PBool false) :: example_event)
                (stale 100 false []))
    = Publish "ihc/outputState/4/2/state" "OFF" true :: rest.
Proof.
  split; [reflexivity|].
  destruct (false_state_is_processed (stale 100 false [])
              (("state", PBool false) :: example_event)
              (PStr "outputState") (PInt 4) (PInt 2)
              eq_refl eq_refl eq_refl eq_refl)
    as (_ & Hpub & Hclear & _); try discriminate.
  split; [|exact Hpub].
  exact (proj1 (Hclear eq_refl (mk_info false 89 4 2) eq_refl eq_refl)).
Defined.

(** The command [ihc/output/4/2/set] with payload [on], accepted. *)
Lemma command_on_registers_iff_accepted_witness :
  device_set_topic "ihc/output/4/2/set" "4" "2" /\
  py_int "4" = Some 4 /\ py_int "2" = Some 2 /\ upper "on" = "ON" /\
  dict_get (pending_confirmations
              (state_of (on_message (answering 100) example_command init)))
    "4_2" = Some (mk_info true 100 4 2) /\
  In (Publish "ihc/output/4/2/state" "ON" true)
    (trace_of (on_message (answering 100) example_command init)).
Proof.
  assert (Ht : device_set_topic "ihc/output/4/2/set" "4" "2")
    by (repeat split; reflexivity).
  split; [exact Ht|]. do 3 (split; [reflexivity|]).
  destruct (command_on_registers_iff_accepted (answering 100) init
              "ihc/output/4/2/set" "4" "2" "on" 4 2
              Ht eq_refl eq_refl eq_refl)
    as (_ & _ & Hacc & _).
  destruct Hacc as (_ & Hg & Hin).
  - exists "", (Decoded no_data). reflexivity.
  - split; [exact Hg | exact Hin].
Defined.



(** A running bridge whose [sudo reboot] exits with status 1. *)
Lemma reboot_failure_status_not_recovered_witness :
  run_reboot reboot_denied = Exited 1 /\ 1 <> 0 /\
  ws_close_raises reboot_denied = None /\
  running (state_of (restart_raspberry_pi reboot_denied
                       (set_running true init))) = false /\
  ~ In ThreadStart
      (trace_of (restart_raspberry_pi reboot_denied (set_running true init))).
Proof.
  assert (N : 1 <> 0) by discriminate.
  split; [reflexivity|]. split; [exact N|]. split; [reflexivity|].
  destruct (reboot_failure_status_not_recovered reboot_denied
              (set_running true init) 1 eq_refl N eq_refl)
    as (_ & Hrun & _ & _ & _ & Hno).
  split; [exact Hrun | exact Hno].
Defined.

(** Startup with the controller unreachable and the broker up. *)
Lemma startup_outcome_witness :
  api_answers api_down /\ api_unreachable api_down /\
  broker_accepts api_down max_retries /\
  started (run_startup api_down init) /\
  In api_failed_log (trace_of (run_startup api_down init)).
Proof.
  assert (Ha : api_answers api_down) by reflexivity.
  assert (Hu : api_unreachable api_down)
    by (eexists; split; reflexivity).
  assert (Hb : broker_accepts api_down max_retries)
    by (exists 0%nat; split; [unfold max_retries; lia | reflexivity]).
  repeat (split; [assumption|]).
  destruct (startup_outcome api_down init Ha) as [Hgo _].
  destruct (Hgo Hb) as [Hs Hlog].
  split; [exact Hs | exact (Hlog Hu)].
Defined.

(* ================================================================= *)
(** ** Further properties: keys and topics *)

(** X1 -- The registry key [f"{module}_{output}"] of two integers
    determines them: two devices have the same key exactly when they are
    the same device. *)
Theorem device_key_identifies_device (m o m' o' : Z) :
  confirmation_key (str_int m) (str_int o)
  = confirmation_key (str_int m') (str_int o')
  <-> m = m' /\ o = o'.
Proof.
  split.
  - apply confirmation_key_inj.
  - intros [-> ->]. reflexivity.
Qed.

(** X2 -- The topic test of [on_message] (five parts, [ihc], [output] and
    [set] at positions 0, 1 and 4) accepts exactly the topics written
    [ihc/output/{module}/{output}/set] with no slash inside the two
    identifiers, and positions 2 and 3 are then these identifiers. *)
Theorem topic_test_accepts_written_form (t : string) :
  invalid_topic (split "/" t) = false <->
  exists m o, device_set_topic t m o /\
              nth 2 (split "/" t) "" = m /\ nth 3 (split "/" t) "" = o.
Proof.
  split.
  - intros H. apply invalid_topic_false in H as (m & o & H).
    exists m, o. split; [exact H|].
    rewrite (split_device_set_topic _ _ _ H). split; reflexivity.
  - intros (m & o & H & _). apply invalid_topic_false. eauto.
Qed.

(* ================================================================= *)
(** ** Further properties: system commands *)

(** X3 -- On a reserved control topic an ASCII payload other than the
    trigger word, in any letter case, is not acted upon: the message falls
    through to the topic test, which rejects it with the "Invalid topic
    format" warning; nothing else is called and the bridge object is left
    as it was. *)
Theorem reserved_topic_other_payload (e : env) (s : bridge)
  (t text : string) :
  t = "ihc/system/restart" \/ t = "ihc/system/pi_restart" ->
  is_ascii text = true ->
  upper text <> "RESTART" ->
  on_message e (mk_message t (Utf8 text)) s
  = (Ok tt, s, [Log WARNING ("Invalid topic format: " ++ t)]).
Proof.
  intros Ht _ Hp. apply String.eqb_neq in Hp.
  unfold on_message, try_except. cbn [topic payload decode].
  rewrite bind_ret_l. unfold system_command.
  destruct Ht as [-> | ->]; cbn [String.eqb Ascii.eqb Bool.eqb]; rewrite Hp;
    rewrite bind_ret_l; reflexivity.
Qed.

Lemma reserved_topic_other_payload_witness :
  ("ihc/system/restart" = "ihc/system/restart" \/
   "ihc/system/restart" = "ihc/system/pi_restart") /\
  is_ascii "status?" = true /\
  upper "status?" <> "RESTART" /\
  on_message (answering 0) (mk_message "ihc/system/restart" (Utf8 "status?"))
    init
  = (Ok tt, init, [Log WARNING "Invalid topic format: ihc/system/restart"]).
Proof.
  assert (H1 : "ihc/system/restart" = "ihc/system/restart" \/
               "ihc/system/restart" = "ihc/system/pi_restart")
    by (left; reflexivity).
  assert (H2 : upper "status?" <> "RESTART") by discriminate.
  split; [exact H1|]. split; [reflexivity|]. split; [exact H2|].
  exact (reserved_topic_other_payload (answering 0) init
           "ihc/system/restart" "status?" H1 eq_refl H2).
Defined.

Lemma restart_ihc_server_nonzero e scheduled s c :
  run_systemctl e = Exited c -> c <> 0 ->
  restart_ihc_server e scheduled s
  = (Ok tt, s,
     [Log WARNING "Restarting IHC server due to repeated failures";
      SubprocessRun systemctl_args true;
      Log ERROR ("Error restarting IHC server: non-zero exit status " ++
                 str_int c)]).
Proof.
  intros Hr Hc. apply Z.eqb_neq in Hc.
  unfold restart_ihc_server, subprocess_run. rewrite Hr, Hc.
  reflexivity.
Qed.

(** X4 -- [restart_ihc_server] when [systemctl] runs and exits with a
    non-zero status: the [CalledProcessError] is caught and logged, the
    method returns normally, no connection is reset and the bridge object
    is left as it was. *)
Theorem service_restart_failure_is_logged (e : env) (scheduled : bool)
  (s : bridge) (c : Z) :
  run_systemctl e = Exited c -> c <> 0 ->
  exists detail,
    restart_ihc_server e scheduled s
    = (Ok tt, s,
       [Log WARNING "Restarting IHC server due to repeated failures";
        SubprocessRun systemctl_args true;
        Log ERROR ("Error restarting IHC server: " ++ detail)]).
Proof.
  intros Hr Hc. eexists. apply (restart_ihc_server_nonzero e scheduled s c Hr Hc).
Qed.

Lemma service_restart_failure_is_logged_witness :
  run_systemctl systemctl_fails = Exited 5 /\ 5 <> 0 /\
  exists detail,
    restart_ihc_server systemctl_fails false init
    = (Ok tt, init,
       [Log WARNING "Restarting IHC server due to repeated failures";
        SubprocessRun systemctl_args true;
        Log ERROR ("Error restarting IHC server: " ++ detail)]).
Proof.
  assert (N : 5 <> 0) by discriminate.
  split; [reflexivity|]. split; [exact N|].
  exact (service_restart_failure_is_logged systemctl_fails false init 5
           eq_refl N).
Defined.

(** X5 -- The manual service-restart command when [systemctl] exits with
    a non-zero status: the handler logs the failure and still publishes the
    status notice "Restarting IHC server" (not retained); the bridge
    object is left as it was. *)
Theorem restart_command_notice_despite_failure (e : env) (s : bridge)
  (text : string) (c : Z) :
  upper text = "RESTART" ->
  run_systemctl e = Exited c -> c <> 0 ->
  exists detail,
    on_message e (mk_message "ihc/system/restart" (Utf8 text)) s
    = (Ok tt, s,
       [Log INFO "Received manual restart command via MQTT";
        Log WARNING "Restarting IHC server due to repeated failures";
        SubprocessRun systemctl_args true;
        Log ERROR ("Error restarting IHC server: " ++ detail);
        Publish "ihc/system/status" "Restarting IHC server" false]).
Proof.
  intros Hp Hr Hc. eexists.
  unfold on_message, try_except. cbn [topic payload decode].
  rewrite bind_ret_l. unfold system_command.
  cbn [String.eqb Ascii.eqb Bool.eqb]. rewrite Hp.
  change ("RESTART" =? "RESTART")%string with true. cbv iota.
  unfold log, publish. unfold bind at 1. rewrite bind_emit.
  unfold bind at 1.
  rewrite (restart_ihc_server_nonzero e true s c Hr Hc).
  reflexivity.
Qed.

Lemma restart_command_notice_despite_failure_witness :
  upper "Restart" = "RESTART" /\
  run_systemctl systemctl_fails = Exited 5 /\ 5 <> 0 /\
  In (Publish "ihc/system/status" "Restarting IHC server" false)
    (trace_of (on_message systemctl_fails
                 (mk_message "ihc/system/restart" (Utf8 "Restart")) init)).
Proof.
  assert (N : 5 <> 0) by discriminate.
  split; [reflexivity|]. split; [reflexivity|]. split; [exact N|].
  destruct (restart_command_notice_despite_failure systemctl_fails init
              "Restart" 5 eq_refl eq_refl N) as [detail E].
  rewrite E. unfold trace_of. cbn [snd]. do 4 right. left. reflexivity.
Defined.

(* ================================================================= *)
(** ** Further properties: the bus connection *)

(** [connect_loop] counted: attempts stop at the first accepted one, and a
    five-second sleep follows each refused attempt but the last of the
    five. *)
Lemma connect_loop_counts e fuel n s :
  (fuel + n = max_retries)%nat ->
  let t := trace_of (connect_loop e fuel n s) in
  match find (accepted e) (seq n fuel) with
  | Some k => count is_connect t = (k - n + 1)%nat /\
              count is_sleep t = (k - n)%nat
  | None => count is_connect t = fuel /\ count is_sleep t = (fuel - 1)%nat
  end.
Proof.
  revert n. induction fuel as [|fuel IH]; intros n Hn; cbv zeta.
  - split; reflexivity.
  - cbn [connect_loop seq find]. unfold accepted at 1.
    unfold try_except, bind, log, sleep, emit, ret, raise, any_exception.
    destruct (mqtt_connect_raises e n) as [ex|]; cbn [app].
    + destruct (Nat.ltb_spec (S n) max_retries) as [Hlt|Hge]; cbn [app].
      * specialize (IH (S n)). cbv zeta in IH.
        assert (Hfind : forall k, find (accepted e) (seq (S n) fuel) = Some k ->
                                  (S n <= k)%nat).
        { intros k Hk. apply find_some in Hk as [Hk _].
          apply in_seq in Hk. lia. }
        destruct (connect_loop e fuel (S n) s) as [[r s'] t] eqn:E.
        unfold trace_of in *. cbn [snd] in *.
        unfold count in *. cbn [filter is_connect is_sleep length].
        destruct (find (accepted e) (seq (S n) fuel)) as [k|].
        -- specialize (Hfind k eq_refl).
           destruct IH as [I1 I2]; [lia|]. rewrite I1, I2. lia.
        -- destruct IH as [I1 I2]; [lia|]. rewrite I1, I2.
           unfold max_retries in *. lia.
      * assert (fuel = 0%nat) by lia. subst fuel. split; reflexivity.
    + split; unfold trace_of, count; cbn; lia.
Qed.

(** X6 -- [connect_mqtt] makes at most five connection attempts and stops
    at the first one the broker accepts; it sleeps five seconds after each
    refused attempt except the fifth; it returns [True] exactly when an
    attempt was accepted, and never changes the bridge object. *)
Theorem connect_mqtt_attempts (e : env) (s : bridge) :
  let r := connect_mqtt e s in
  state_of r = s /\
  match first_accepted e with
  | Some k =>
      result_of r = Ok true /\ (k < max_retries)%nat /\
      count is_connect (trace_of r) = S k /\
      count is_sleep (trace_of r) = k
  | None =>
      result_of r = Ok false /\
      count is_connect (trace_of r) = max_retries /\
      count is_sleep (trace_of r) = (max_retries - 1)%nat
  end.
Proof.
  cbv zeta. unfold connect_mqtt, first_accepted.
  destruct (connect_loop_spec e max_retries 0 s eq_refl) as (t & E & _).
  pose proof (connect_loop_counts e max_retries 0 s eq_refl) as C.
  cbv zeta in C. rewrite E in *.
  unfold state_of, result_of, trace_of in *. cbn [fst snd] in *.
  split; [reflexivity|].
  destruct (find (accepted e) (seq 0 max_retries)) as [k|] eqn:F.
  - destruct C as [C1 C2]. apply find_some in F as F'. destruct F' as [Hin Ha].
    apply in_seq in Hin.
    assert (Hex : existsb (accepted e) (seq 0 max_retries) = true)
      by (apply existsb_exists; exists k; split; [apply in_seq; lia | exact Ha]).
    rewrite Hex. repeat split; try lia.
  - destruct C as [C1 C2].
    assert (Hex : existsb (accepted e) (seq 0 max_retries) = false).
    { destruct (existsb (accepted e) (seq 0 max_retries)) eqn:X;
        [|reflexivity].
      apply existsb_exists in X as (k & Hin & Ha).
      now rewrite (find_none _ _ F k Hin) in Ha. }
    rewrite Hex. repeat split; assumption.
Qed.

Lemma connect_loop_attempts_pos e fuel n s :
  In MqttConnect (trace_of (connect_loop e (S fuel) n s)).
Proof.
  cbn [connect_loop].
  unfold try_except, bind, log, sleep, emit, ret, raise, any_exception,
    trace_of.
  destruct (mqtt_connect_raises e n); cbn [app].
  - destruct (S n <? max_retries)%nat; cbn [app].
    + destruct (connect_loop e fuel (S n) s) as [[r s'] t]. cbn. tauto.
    + cbn. tauto.
  - cbn. tauto.
Qed.

Lemma connect_mqtt_attempts_pos e s :
  In MqttConnect (trace_of (connect_mqtt e s)).
Proof. apply connect_loop_attempts_pos. Qed.

Lemma on_disconnect_spec e rc s :
  on_disconnect e rc s =
  (Ok tt, s,
   Log WARNING ("Disconnected from MQTT broker with code: " ++ str_int rc)
   :: (if negb (rc =? 0) && running s
       then Log INFO "Attempting to reconnect..."
            :: trace_of (connect_mqtt e s)
       else [])).
Proof.
  unfold on_disconnect, log. rewrite bind_emit.
  unfold bind at 1, gets. cbn [app].
  destruct (negb (rc =? 0) && running s); [|reflexivity].
  rewrite bind_emit. unfold bind, ret, connect_mqtt.
  destruct (connect_loop_spec e max_retries 0 s eq_refl) as (t & E & _).
  rewrite E. unfold trace_of. cbn [snd app]. now rewrite app_nil_r.
Qed.

(** X7 -- [on_disconnect] tries to reconnect exactly when the return code
    is non-zero and the bridge is running; it then makes the attempts of
    [connect_mqtt].  In every case it returns normally and leaves the
    bridge object as it was. *)
Theorem disconnect_reconnects_only_while_running (e : env) (rc : Z)
  (s : bridge) :
  let r := on_disconnect e rc s in
  state_of r = s /\ result_of r = Ok tt /\
  (In MqttConnect (trace_of r) <-> rc <> 0 /\ running s = true) /\
  count is_connect (trace_of r)
  = (if negb (rc =? 0) && running s
     then count is_connect (trace_of (connect_mqtt e s)) else 0%nat).
Proof.
  cbv zeta. rewrite on_disconnect_spec.
  unfold state_of, result_of, trace_of at 1 2. cbn [fst snd].
  split; [reflexivity|]. split; [reflexivity|].
  pose proof (connect_mqtt_attempts_pos e s) as P.
  destruct (Z.eqb_spec rc 0) as [->|Hrc]; cbn [negb andb].
  - split; [|reflexivity]. split.
    + intros [H|[]]. discriminate H.
    + intros [H _]. now contradiction H.
  - destruct (running s); cbn [andb].
    + split; [|reflexivity]. split; [tauto|].
      intros _. right. right. exact P.
    + split; [|reflexivity]. split.
      * intros [H|[]]. discriminate H.
      * intros [_ H]. discriminate H.
Qed.

(* ================================================================= *)
(** ** Further properties: shutdown *)

Lemma handle_shutdown_spec e s :
  handle_shutdown e s =
  let s' := set_ws_stop_event true (set_running false s) in
  let head := [Log INFO "Shutdown signal received, closing connections...";
               EventSet] in
  if ws s then
    match ws_close_raises e with
    | Some ex => (Raised ex, s', (head ++ [WsClose])%list)
    | None => (Ok 0, s',
               (head ++ [WsClose; MqttLoopStop; MqttDisconnect])%list)
    end
  else (Ok 0, s', (head ++ [MqttLoopStop; MqttDisconnect])%list).
Proof.
  unfold handle_shutdown, ws_close, bind, log, emit, gets, modify, ret, raise.
  destruct s as [rn w th ev pd fl lc]. cbn.
  destruct w; [destruct (ws_close_raises e)|]; reflexivity.
Qed.

(** X8 -- [handle_shutdown] always clears the running flag and sets the
    stop event, and never touches the registry or the failure window.
    When the event stream is closed without error (or there is none) it
    stops and disconnects the bus client and exits with status 0.  When
    closing the event stream raises, the exception leaves the handler: the
    bus client is neither stopped nor disconnected and [sys.exit] is not
    reached. *)
Theorem shutdown_sequence (e : env) (s : bridge) :
  let r := handle_shutdown e s in
  running (state_of r) = false /\
  ws_stop_event (state_of r) = true /\
  same_registry s (state_of r) /\
  (ws s = false \/ ws_close_raises e = None ->
   result_of r = Ok 0 /\
   In MqttLoopStop (trace_of r) /\ In MqttDisconnect (trace_of r)) /\
  (forall ex, ws s = true -> ws_close_raises e = Some ex ->
              result_of r = Raised ex /\
              ~ In MqttLoopStop (trace_of r) /\
              ~ In MqttDisconnect (trace_of r)).
Proof.
  cbv zeta. rewrite handle_shutdown_spec. cbv zeta.
  destruct s as [rn w th ev pd fl lc]. cbn [ws].
  destruct w; [destruct (ws_close_raises e) as [ex|]|];
    unfold state_of, result_of, trace_of, same_registry; cbn;
    (split; [reflexivity|]); (split; [reflexivity|]);
    (split; [split; reflexivity|]); split.
  - intros [H|H]; discriminate H.
  - intros ex' _ [= <-]. split; [reflexivity|].
    split; intuition discriminate.
  - intros _. split; [reflexivity|]. tauto.
  - intros ex' _ H. discriminate H.
  - intros _. split; [reflexivity|]. tauto.
  - intros ex' H. discriminate H.
Qed.

(** The event stream is open; closing it raises in [close_fails]. *)
Lemma shutdown_sequence_witness :
  (ws (set_ws true init) = true /\
   ws_close_raises close_fails = Some (mk_exn OSError "Broken pipe") /\
   result_of (handle_shutdown close_fails (set_ws true init))
   = Raised (mk_exn OSError "Broken pipe") /\
   ~ In MqttDisconnect
       (trace_of (handle_shutdown close_fails (set_ws true init)))) /\
  (ws_close_raises (answering 0) = None /\
   result_of (handle_shutdown (answering 0) (set_ws true init)) = Ok 0 /\
   In MqttDisconnect
     (trace_of (handle_shutdown (answering 0) (set_ws true init)))).
Proof.
  split.
  - split; [reflexivity|]. split; [reflexivity|].
    destruct (shutdown_sequence close_fails (set_ws true init))
      as (_ & _ & _ & _ & H).
    destruct (H (mk_exn OSError "Broken pipe") eq_refl eq_refl)
      as (H1 & _ & H3).
    split; [exact H1 | exact H3].
  - split; [reflexivity|].
    destruct (shutdown_sequence (answering 0) (set_ws true init))
      as (_ & _ & _ & H & _).
    destruct (H (or_intror eq_refl)) as (H1 & _ & H3).
    split; [exact H1 | exact H3].
Defined.

(** X9 -- Once the host restart has torn the connections down (the reboot
    command was launched and returned) or [handle_shutdown] has run, the
    running flag is cleared, so a later disconnect of the bus client, with
    any return code, is only logged: no reconnection is attempted. *)
Theorem no_reconnect_after_teardown (e e' : env) (s : bridge) (rc c : Z) :
  run_reboot e = Exited c -> ws_close_raises e = None ->
  trace_of (on_disconnect e' rc (state_of (restart_raspberry_pi e s)))
  = [Log WARNING ("Disconnected from MQTT broker with code: " ++ str_int rc)]
  /\
  trace_of (on_disconnect e' rc (state_of (handle_shutdown e s)))
  = [Log WARNING ("Disconnected from MQTT broker with code: " ++ str_int rc)].
Proof.
  intros Hr Hw.
  rewrite (restart_raspberry_pi_exited e s c Hr Hw), handle_shutdown_spec.
  cbv zeta. rewrite Hw. rewrite !on_disconnect_spec.
  destruct s as [rn w th ev pd fl lc]. cbn [ws].
  destruct w; unfold state_of, trace_of; cbn [fst snd running
    set_ws_stop_event set_running];
    rewrite !andb_false_r; split; reflexivity.
Qed.

Lemma no_reconnect_after_teardown_witness :
  run_reboot reboot_denied = Exited 1 /\
  ws_close_raises reboot_denied = None /\
  trace_of (on_disconnect broker_down 1
              (state_of (restart_raspberry_pi reboot_denied
                           (set_running true init))))
  = [Log WARNING "Disconnected from MQTT broker with code: 1"].
Proof.
  split; [reflexivity|]. split; [reflexivity|].
  exact (proj1 (no_reconnect_after_teardown reboot_denied broker_down
                  (set_running true init) 1 1 eq_refl eq_refl)).
Defined.

(* ================================================================= *)
(** ** Further properties: subscriptions *)

Lemma levels_match_exact f l :
  Forall (fun x => x <> "+") f -> levels_match f l = true -> f = l.
Proof.
  revert l. induction f as [|x f IH]; intros [|y l] Hf H; simpl in H;
    try discriminate; [reflexivity|].
  inversion Hf as [|? ? Hx Hf']; subst.
  apply andb_true_iff in H as [H1 H2].
  apply String.eqb_neq in Hx. rewrite Hx in H1. cbn in H1.
  apply String.eqb_eq in H1. subst y. f_equal. now apply IH.
Qed.

Lemma filter_matches_exact f t :
  Forall (fun x => x <> "+") (split "/" f) ->
  filter_matches f t = true <-> t = f.
Proof.
  intros Hf. unfold filter_matches. split.
  - intros H. apply levels_match_exact in H; [|exact Hf].
    rewrite <- (join_split "/" t), <- (join_split "/" f). now rewrite H.
  - intros ->. clear Hf. induction (split "/" f) as [|x l IH];
      [reflexivity|]. simpl. now rewrite String.eqb_refl, orb_true_r, IH.
Qed.

Lemma filter_matches_device t :
  filter_matches "ihc/output/+/+/set" t = negb (invalid_topic (split "/" t)).
Proof.
  unfold filter_matches, invalid_topic.
  change (split "/" "ihc/output/+/+/set")
    with ["ihc"; "output"; "+"; "+"; "set"].
  destruct (split "/" t) as [|a [|b [|c [|d [|x [|y l]]]]]];
    cbn [levels_match length nth Nat.eqb negb orb andb];
    rewrite ?andb_false_r; try reflexivity.
  rewrite (String.eqb_sym "ihc" a), (String.eqb_sym "output" b),
    (String.eqb_sym "set" x).
  change ("+" =? "+")%string with true.
  change ("ihc" =? "+")%string with false.
  change ("output" =? "+")%string with false.
  change ("set" =? "+")%string with false. cbn [orb andb].
  destruct (a =? "ihc")%string, (b =? "output")%string,
    (x =? "set")%string; reflexivity.
Qed.

(** X10 -- After a successful connection ([rc = 0]) the bridge is
    subscribed to exactly the topics [on_message] acts upon: the broker
    delivers a topic iff it is one of the two reserved control topics or a
    device-set topic [ihc/output/{module}/{output}/set], which is to say
    iff it is reserved or passes the topic test of [on_message].  After a
    failed connection nothing is subscribed. *)
Theorem subscriptions_cover_handled_topics (t : string) :
  (delivered (on_connect 0) t = true <->
   t = "ihc/system/restart" \/ t = "ihc/system/pi_restart" \/
   invalid_topic (split "/" t) = false) /\
  (invalid_topic (split "/" t) = false <->
   exists m o, device_set_topic t m o) /\
  (forall rc, rc <> 0 -> subscriptions (on_connect rc) = []).
Proof.
  split; [|split].
  - unfold delivered.
    change (subscriptions (on_connect 0))
      with ["ihc/output/+/+/set"; "ihc/system/restart";
            "ihc/system/pi_restart"].
    cbn [existsb]. rewrite orb_false_r, filter_matches_device.
    rewrite !orb_true_iff, negb_true_iff.
    rewrite (filter_matches_exact "ihc/system/restart" t)
      by (repeat constructor; discriminate).
    rewrite (filter_matches_exact "ihc/system/pi_restart" t)
      by (repeat constructor; discriminate).
    tauto.
  - apply invalid_topic_false.
  - intros rc Hrc. unfold on_connect. apply Z.eqb_neq in Hrc.
    now rewrite Hrc.
Qed.

(* ================================================================= *)
(** ** Further properties: frames of the event stream *)

Lemma relayable_dec obj : {relayable obj} + {~ relayable obj}.
Proof.
  unfold relayable.
  destruct (pyval_eq_dec (get obj "type") PNone);
    [right; tauto|].
  destruct (pyval_eq_dec (get obj "moduleNumber") PNone);
    [right; tauto|].
  destruct (pyval_eq_dec (get obj "ioNumber") PNone);
    [right; tauto|].
  destruct (pyval_eq_dec (get obj "state") PNone);
    [right; tauto|].
  destruct (pyval_eq_dec (get obj "type") (PStr "ping"));
    [right; tauto|].
  left. tauto.
Qed.



(* ================================================================= *)
(** ** Further properties: what each entry point does to the registry *)

Lemma dict_set_in {V} (d : list (string * V)) k v k' v' :
  In (k', v') (dict_set d k v) -> (k', v') = (k, v) \/ In (k', v') d.
Proof.
  induction d as [|[k0 v0] d IH]; simpl.
  - intros [H|[]]; auto.
  - destruct (k0 =? k)%string; simpl.
    + intros [H|H]; auto.
    + intros [H|H]; auto. destruct (IH H); auto.
Qed.

Lemma dict_del_in {V} (d : list (string * V)) k k' v' :
  In (k', v') (dict_del d k) -> In (k', v') d.
Proof.
  induction d as [|[k0 v0] d IH]; simpl; [tauto|].
  destruct (k0 =? k)%string; simpl; [auto|].
  intros [H|H]; auto.
Qed.

Lemma fold_del_in {V} ks (d : list (string * V)) k' v' :
  In (k', v') (fold_left dict_del ks d) -> In (k', v') d.
Proof.
  revert d. induction ks as [|k ks IH]; intros d; simpl; [tauto|].
  intros H. apply IH in H. eapply dict_del_in; eauto.
Qed.

(** [on_message] leaves the failure window alone, and either leaves the
    registry alone or stores the entry of one device under its key. *)
Lemma on_message_effect e msg s :
  confirmation_failures (state_of (on_message e msg s))
  = confirmation_failures s /\
  (pending_confirmations (state_of (on_message e msg s))
   = pending_confirmations s \/
   exists m o st,
     pending_confirmations (state_of (on_message e msg s))
     = dict_set (pending_confirmations s)
         (confirmation_key (str_int m) (str_int o))
         (mk_info st (time_time e) m o)).
Proof.
  destruct (on_message e msg s) as [[r s'] t0] eqn:E.
  unfold state_of. cbn [fst snd]. revert E.
  destruct msg as [t [text|]];
    [|intros [= _ <- _]; split; [reflexivity | left; reflexivity]].
  unfold on_message, try_except. cbn [topic payload decode].
  rewrite bind_ret_l. unfold bind at 1.
  destruct (system_command_keeps_registry e t text s) as [[Hp Hf] _].
  destruct (system_command e t text s) as [[[returned|ex] s1] t1];
    unfold state_of in *; cbn [fst snd] in *;
    [|intros [= _ <- _]; split; [exact Hf | left; exact Hp]].
  destruct returned;
    [intros [= _ <- _]; split; [exact Hf | left; exact Hp]|].
  destruct (invalid_topic (split "/" t));
    [intros [= _ <- _]; split; [exact Hf | left; exact Hp]|].
  unfold log, int_of. rewrite bind_emit.
  destruct (py_int (nth 2 (split "/" t) "")) as [m|];
    [|rewrite bind_raise; intros [= _ <- _];
      split; [exact Hf | left; exact Hp]].
  rewrite bind_ret_l.
  destruct (py_int (nth 3 (split "/" t) "")) as [o|];
    [|rewrite bind_raise; intros [= _ <- _];
      split; [exact Hf | left; exact Hp]].
  rewrite bind_ret_l, set_ihc_output_spec. cbv zeta.
  destruct (post_setOutput e) as [c txt body|ex].
  - destruct (c =? 200);
      [|intros [= _ <- _]; split; [exact Hf | left; exact Hp]].
    intros [= _ <- _]. unfold registered. destruct s1; cbn in *.
    split; [exact Hf|]. right. rewrite <- Hp. eauto.
  - destruct (is_class RequestException ex);
      intros [= _ <- _]; split; (exact Hf || (left; exact Hp)).
Qed.

(** [process_ihc_event] leaves the bridge object alone or deletes one
    entry. *)
Lemma process_ihc_event_effect event s :
  state_of (process_ihc_event event s) = s \/
  exists key inf,
    dict_get (pending_confirmations s) key = Some inf /\
    state_of (process_ihc_event event s)
    = set_pending (dict_del (pending_confirmations s) key) s.
Proof.
  destruct (relayable_dec event) as [(H1 & H2 & H3 & H4 & H5)|Hn].
  - rewrite (process_ihc_event_present s event _ _ _ _
               eq_refl eq_refl eq_refl eq_refl H1 H2 H3 H4 H5).
    cbv zeta.
    destruct (py_eq (get event "type") (PStr "outputState"));
      [|left; reflexivity].
    destruct (dict_get _ _) as [inf|] eqn:E; [|left; reflexivity].
    destruct (py_eq (PBool (i_state inf)) (get event "state"));
      [|left; reflexivity].
    right. eauto.
  - left. rewrite process_ihc_event_absent; [reflexivity|].
    unfold relayable in Hn.
    destruct (pyval_eq_dec (get event "type") PNone); [tauto|].
    destruct (pyval_eq_dec (get event "moduleNumber") PNone); [tauto|].
    destruct (pyval_eq_dec (get event "ioNumber") PNone); [tauto|].
    destruct (pyval_eq_dec (get event "state") PNone); [tauto|].
    destruct (pyval_eq_dec (get event "type") (PStr "ping")); tauto.
Qed.

(** The sweep deletes the expired entries and leaves a window shorter
    than the threshold if it found one. *)
Lemma sweep_effect e s :
  dict_ok (pending_confirmations s) ->
  pending_confirmations (after e s)
  = fold_left dict_del (expired (time_time e) (pending_confirmations s))
      (pending_confirmations s) /\
  ((length (confirmation_failures s) < failure_threshold)%nat ->
   (length (confirmation_failures (after e s)) < failure_threshold)%nat).
Proof.
  intros Hok. destruct (Nat.eq_dec (timeouts e s) 0) as [H0|H0].
  - unfold after. rewrite sweep_idle by assumption.
    unfold timeouts in H0. apply length_zero_iff_nil in H0.
    unfold state_of. cbn [fst snd]. rewrite H0. split; [reflexivity | auto].
  - destruct (sweep_outcome e s Hok) as (Hf & _ & Hp); [lia|].
    split; [exact Hp|]. intros _. rewrite Hf.
    destruct (Nat.leb_spec failure_threshold
                (length (pruned_window (time_time e) (timeouts e s)
                           (confirmation_failures s)))) as [H|H].
    + unfold failure_threshold. simpl. lia.
    + exact H.
Qed.

Lemma keyed_set pend m o st now :
  keyed pend ->
  keyed (dict_set pend (confirmation_key (str_int m) (str_int o))
           (mk_info st now m o)).
Proof.
  intros H k inf Hin. apply dict_set_in in Hin as [[= -> ->]|Hin];
    [reflexivity | now apply H].
Qed.

Lemma registry_inv_message e msg s :
  registry_inv s -> registry_inv (state_of (on_message e msg s)).
Proof.
  intros (Hok & Hk & Hw).
  destruct (on_message_effect e msg s) as [Hf [Hp|(m & o & st & Hp)]];
    unfold registry_inv; rewrite Hf, Hp; repeat split; auto.
  - now apply dict_ok_set.
  - now apply keyed_set.
Qed.

Lemma registry_inv_event event s :
  registry_inv s -> registry_inv (state_of (process_ihc_event event s)).
Proof.
  intros Hinv.
  destruct (process_ihc_event_effect event s) as [E|(key & inf & _ & E)];
    rewrite E; [exact Hinv|].
  destruct Hinv as (Hok & Hk & Hw).
  destruct s; cbn in *. split; [now apply dict_ok_del|].
  split; [|exact Hw].
  intros k i Hin. apply Hk. exact (dict_del_in _ key _ _ Hin).
Qed.

Lemma registry_inv_sweep e s :
  registry_inv s -> registry_inv (after e s).
Proof.
  intros (Hok & Hk & Hw). destruct (sweep_effect e s Hok) as [Hp Hf].
  unfold registry_inv. rewrite Hp. repeat split.
  - now apply dict_ok_fold_del.
  - intros k i Hin. apply Hk. eapply fold_del_in; eauto.
  - auto.
Qed.

(* ================================================================= *)
(** ** Further properties: invariants of the running bridge *)

Lemma anything_all (t : trace) : Forall anything t.
Proof. apply Forall_forall. now intros. Qed.

Lemma run_startup_registry e s :
  same_registry s (state_of (run_startup e s)).
Proof.
  assert (K : keeps same_registry anything (run_startup e)).
  { unfold run_startup, log.
    apply keeps_bind; [exact same_registry_trans | | intros ok].
    - apply (keeps_weaken same_core same_registry plain anything);
        [now intros a b [H _] | now intros | apply test_ihc_connection_keeps].
    - apply keeps_bind; [exact same_registry_trans | | intros _].
      + destruct (negb ok); keeps_registry.
      + apply keeps_bind; [exact same_registry_trans | | intros connected].
        * intros s0. unfold connect_mqtt.
          destruct (connect_loop_spec e max_retries 0 s0 eq_refl)
            as (t & E & _).
          rewrite E. split; [apply same_registry_refl | apply anything_all].
        * destruct (negb connected); keeps_registry. }
  apply K.
Qed.

Lemma run_finally_registry e s :
  same_registry s (state_of (run_finally e s)) /\
  result_of (run_finally e s) = Ok tt /\
  ws_stop_event (state_of (run_finally e s)) = true /\
  In MqttDisconnect (trace_of (run_finally e s)).
Proof.
  unfold run_finally, bind, log, emit, modify, ret.
  destruct s as [rn w th ev pd fl lc].
  destruct (thread_is_alive e); cbn; repeat split; tauto.
Qed.

Lemma registry_inv_same s s' :
  same_registry s s' -> registry_inv s -> registry_inv s'.
Proof.
  intros [Hp Hf] H. unfold registry_inv. now rewrite Hp, Hf.
Qed.

Lemma registry_inv_iteration e s :
  registry_inv s -> registry_inv (bridge_of (loop_iteration e s)).
Proof.
  intros H. unfold loop_iteration, bridge_of.
  destruct (time_time e - last_check_time s >=? 1); [|exact H].
  pose proof (registry_inv_sweep e s H) as H'. unfold after, state_of in H'.
  destruct (check_pending_confirmations e s) as [[[[]|ex] s'] t];
    cbn [fst snd] in *; [|exact H'].
  destruct s'; exact H'.
Qed.

Lemma registry_inv_main_loop script s :
  registry_inv s -> registry_inv (bridge_of (main_loop script s)).
Proof.
  revert s. induction script as [|[e|e msg|event] rest IH]; intros s H;
    cbn [main_loop].
  - exact H.
  - destruct (running s); [|exact H].
    pose proof (registry_inv_iteration e s H) as H'. unfold bridge_of in H'.
    destruct (loop_iteration e s) as [[[[]|ex] s'] t]; cbn [fst snd] in H';
      [|exact H'].
    specialize (IH s' H'). unfold bridge_of in *.
    destruct (main_loop rest s') as [[r s''] t']. exact IH.
  - pose proof (registry_inv_message e msg s H) as H'. unfold state_of in H'.
    destruct (on_message e msg s) as [[r0 s'] t]; cbn [fst snd] in H'.
    specialize (IH s' H'). unfold bridge_of in *.
    destruct (main_loop rest s') as [[r s''] t']. exact IH.
  - pose proof (registry_inv_event event s H) as H'. unfold state_of in H'.
    destruct (process_ihc_event event s) as [[r0 s'] t]; cbn [fst snd] in H'.
    specialize (IH s' H'). unfold bridge_of in *.
    destruct (main_loop rest s') as [[r s''] t']. exact IH.
Qed.

Lemma registry_inv_init : registry_inv init.
Proof.
  repeat split; [constructor | intros k inf [] |].
  unfold failure_threshold. simpl. lia.
Qed.

Lemma registry_inv_run e script e_end :
  registry_inv (bridge_of (run e script e_end init)).
Proof.
  unfold run.
  pose proof (run_startup_registry e init) as S0. unfold state_of in S0.
  destruct (run_startup e init) as [[[b|ex] s1] t1]; cbn [fst snd] in S0.
  - pose proof (registry_inv_same _ _ S0 registry_inv_init) as H1.
    destruct b; [|exact H1].
    pose proof (registry_inv_main_loop script s1 H1) as H2.
    unfold bridge_of in *.
    destruct (main_loop script s1) as [[[| |ex] s2] t2]; cbn [fst snd] in *.
    + exact H2.
    + destruct (run_finally_registry e_end s2) as [S2 _].
      unfold state_of in S2.
      destruct (run_finally e_end s2) as [[r3 s3] t3]; cbn [fst snd] in *.
      eapply registry_inv_same; eauto.
    + unfold log. rewrite bind_emit.
      destruct (run_finally_registry e_end s2) as [S2 _].
      unfold state_of in S2.
      destruct (run_finally e_end s2) as [[r3 s3] t3]; cbn [fst snd] in *.
      eapply registry_inv_same; eauto.
  - exact (registry_inv_same _ _ S0 registry_inv_init).
Qed.

(** X12 -- At most one command is pending per device, at all times: in the
    bridge object [run] has after any script of main-loop passes, bus
    messages and controller events, two pending entries that record the
    same module and output are one entry under one key. *)
Theorem one_pending_entry_per_device (e : env) (script : list step)
  (e_end : env) (k1 k2 : string) (inf1 inf2 : info) :
  let pend := pending_confirmations (bridge_of (run e script e_end init)) in
  dict_get pend k1 = Some inf1 -> dict_get pend k2 = Some inf2 ->
  i_module inf1 = i_module inf2 -> i_output inf1 = i_output inf2 ->
  k1 = k2 /\ inf1 = inf2.
Proof.
  cbv zeta. intros H1 H2 Hm Ho.
  destruct (registry_inv_run e script e_end) as (_ & Hk & _).
  assert (E : k1 = k2).
  { rewrite (Hk k1 inf1 (dict_get_pair _ _ _ H1)),
      (Hk k2 inf2 (dict_get_pair _ _ _ H2)), Hm, Ho. reflexivity. }
  split; [exact E|]. subst k2. congruence.
Qed.

(** After startup the command of [example_command] is delivered at
    clock reading 100 and accepted. *)
Lemma one_pending_entry_per_device_witness :
  let pend :=
    pending_confirmations
      (bridge_of (run (answering 0) [Deliver (answering 100) example_command]
                    (answering 0) init)) in
  dict_get pend "4_2" = Some (mk_info true 100 4 2) /\
  i_module (mk_info true 100 4 2) = i_module (mk_info true 100 4 2) /\
  i_output (mk_info true 100 4 2) = i_output (mk_info true 100 4 2) /\
  ("4_2" = "4_2" /\ mk_info true 100 4 2 = mk_info true 100 4 2).
Proof.
  cbv zeta.
  assert (H : dict_get
                (pending_confirmations
                   (bridge_of (run (answering 0)
                                 [Deliver (answering 100) example_command]
                                 (answering 0) init))) "4_2"
              = Some (mk_info true 100 4 2)) by (vm_compute; reflexivity).
  split; [exact H|]. split; [reflexivity|]. split; [reflexivity|].
  exact (one_pending_entry_per_device (answering 0)
           [Deliver (answering 100) example_command] (answering 0)
           "4_2" "4_2" _ _ H H eq_refl eq_refl).
Defined.

(** X13 -- One call of [check_pending_confirmations], taken by itself:
    a sweep that finds an expired entry leaves fewer than
    [failure_threshold] timestamps in the failure window, whatever the
    window held before, because it either clears the window (and restarts
    the service) or leaves the pruned window, which is short of the
    threshold; a sweep that finds none leaves the window as it was. *)
Theorem failure_window_below_threshold (e : env) (s : bridge) :
  dict_ok (pending_confirmations s) ->
  ((0 < timeouts e s)%nat ->
   (length (confirmation_failures (after e s)) < failure_threshold)%nat) /\
  (timeouts e s = 0%nat ->
   confirmation_failures (after e s) = confirmation_failures s).
Proof.
  intros Hok. split.
  - intros Hpos. destruct (sweep_outcome e s Hok Hpos) as (Hf & _).
    rewrite Hf.
    destruct (Nat.leb_spec failure_threshold
                (length (pruned_window (time_time e) (timeouts e s)
                           (confirmation_failures s)))) as [H|H].
    + unfold failure_threshold. simpl. lia.
    + exact H.
  - intros H0. unfold after. now rewrite (sweep_idle e s H0 Hok).
Qed.

(** [burst 111] swept at clock reading 111: three entries expire at once
    and the window is cleared. *)
Lemma failure_window_below_threshold_witness :
  dict_ok (pending_confirmations (burst 111)) /\
  (0 < timeouts (answering 111) (burst 111))%nat /\
  (length (confirmation_failures (after (answering 111) (burst 111)))
   < failure_threshold)%nat.
Proof.
  assert (Hok : dict_ok (pending_confirmations (burst 111))).
  { unfold dict_ok. cbn. repeat constructor; cbn; intuition discriminate. }
  assert (Hpos : (0 < timeouts (answering 111) (burst 111))%nat)
    by (vm_compute; lia).
  split; [exact Hok|]. split; [exact Hpos|].
  exact (proj1 (failure_window_below_threshold (answering 111) (burst 111)
                  Hok) Hpos).
Defined.

(* ================================================================= *)
(** ** Further properties: a command and its confirmation *)

Lemma dict_del_set {V} (d : list (string * V)) k v :
  dict_del (dict_set d k v) k = dict_del d k.
Proof.
  induction d as [|[k0 v0] d IH]; simpl.
  - now rewrite String.eqb_refl.
  - destruct (String.eqb_spec k0 k) as [->|Hk]; simpl.
    + now rewrite String.eqb_refl.
    + apply String.eqb_neq in Hk. now rewrite Hk, IH.
Qed.

Lemma dict_set_set {V} (d : list (string * V)) k v v' :
  dict_set (dict_set d k v) k v' = dict_set d k v'.
Proof.
  induction d as [|[k0 v0] d IH]; simpl.
  - now rewrite String.eqb_refl.
  - destruct (String.eqb_spec k0 k) as [->|Hk]; simpl.
    + now rewrite String.eqb_refl.
    + apply String.eqb_neq in Hk. now rewrite Hk, IH.
Qed.

(** A device command the controller accepts. *)
Lemma on_message_accepted e s t ms os text m o txt body :
  device_set_topic t ms os ->
  py_int ms = Some m -> py_int os = Some o ->
  post_setOutput e = Response 200 txt body ->
  state_of (on_message e (mk_message t (Utf8 text)) s)
  = registered e m o (upper text =? "ON")%string s.
Proof.
  intros Ht Hm Ho Hp.
  rewrite (on_message_device e s t ms os text m o Ht Hm Ho). cbv zeta.
  rewrite set_ihc_output_spec. cbv zeta. rewrite Hp.
  reflexivity.
Qed.

Lemma pending_registered e m o st s :
  pending_confirmations (registered e m o st s)
  = dict_set (pending_confirmations s)
      (confirmation_key (str_int m) (str_int o))
      (mk_info st (time_time e) m o).
Proof. destruct s; reflexivity. Qed.

(** The controller's report of output [m]/[o] in state [st]. *)
Lemma process_ihc_event_report s event m o st :
  get event "type" = PStr "outputState" ->
  get event "moduleNumber" = PInt m -> get event "ioNumber" = PInt o ->
  get event "state" = PBool st ->
  let key := confirmation_key (str_int m) (str_int o) in
  let pend := pending_confirmations s in
  pending_confirmations (state_of (process_ihc_event event s)) =
  match dict_get pend key with
  | Some inf => if Bool.eqb (i_state inf) st then dict_del pend key else pend
  | None => pend
  end.
Proof.
  intros Hty Hm Ho Hst. cbv zeta.
  rewrite (process_ihc_event_present s event _ _ _ _ Hty Hm Ho Hst)
    by discriminate.
  cbv zeta. change (py_eq (PStr "outputState") (PStr "outputState")) with true.
  cbn [py_str py_eq].
  destruct (dict_get (pending_confirmations s)
              (confirmation_key (str_int m) (str_int o))) as [inf|];
    [|reflexivity].
  destruct (Bool.eqb (i_state inf) st); [|reflexivity].
  destruct s; reflexivity.
Qed.

(** X14 -- A command and its confirmation, end to end: when the controller
    accepts a device command and then reports that output in the commanded
    state, the registry is what it was before the command, less any older
    entry of that device; no sweep, at whatever clock reading, finds the
    device expired. *)
Theorem confirmed_command_is_forgotten
  (e : env) (s : bridge) (t ms os text txt : string) (body : json_body)
  (m o now : Z) (event : list (string * pyval)) :
  dict_ok (pending_confirmations s) ->
  device_set_topic t ms os ->
  py_int ms = Some m -> py_int os = Some o ->
  post_setOutput e = Response 200 txt body ->
  get event "type" = PStr "outputState" ->
  get event "moduleNumber" = PInt m -> get event "ioNumber" = PInt o ->
  get event "state" = PBool (upper text =? "ON")%string ->
  let key := confirmation_key (str_int m) (str_int o) in
  let s1 := state_of (on_message e (mk_message t (Utf8 text)) s) in
  let s2 := state_of (process_ihc_event event s1) in
  dict_get (pending_confirmations s1) key
  = Some (mk_info (upper text =? "ON")%string (time_time e) m o) /\
  pending_confirmations s2 = dict_del (pending_confirmations s) key /\
  ~ In key (expired now (pending_confirmations s2)).
Proof.
  intros Hok Ht Hm Ho Hp Ety Em Eo Est. cbv zeta.
  rewrite (on_message_accepted e s t ms os text m o txt body Ht Hm Ho Hp).
  rewrite (process_ihc_event_report _ event m o _ Ety Em Eo Est). cbv zeta.
  rewrite pending_registered, dict_set_same. cbn [i_state].
  rewrite Bool.eqb_reflx, dict_del_set.
  split; [reflexivity|]. split; [reflexivity|].
  intros Hin. apply expired_present in Hin.
  apply dict_get_none in Hin; [exact Hin|].
  apply dict_del_same, Hok.
Qed.

(** [example_command] on the fresh bridge, confirmed by [example_event]. *)
Lemma confirmed_command_is_forgotten_witness :
  dict_ok (pending_confirmations init) /\
  device_set_topic (topic example_command) "4" "2" /\
  py_int "4" = Some 4 /\ py_int "2" = Some 2 /\
  post_setOutput (answering 100) = Response 200 "" (Decoded no_data) /\
  pending_confirmations
    (state_of (process_ihc_event example_event
                 (state_of (on_message (answering 100) example_command init))))
  = [] /\
  ~ In "4_2"
      (expired 500
         (pending_confirmations
            (state_of (process_ihc_event example_event
                         (state_of (on_message (answering 100)
                                      example_command init)))))).
Proof.
  assert (Hok : dict_ok (pending_confirmations init)) by constructor.
  assert (Ht : device_set_topic (topic example_command) "4" "2")
    by (repeat split; reflexivity).
  assert (Hm : py_int "4" = Some 4) by reflexivity.
  assert (Ho : py_int "2" = Some 2) by reflexivity.
  assert (Hp : post_setOutput (answering 100) = Response 200 "" (Decoded no_data))
    by reflexivity.
  repeat (split; [assumption|]).
  exact (proj2 (confirmed_command_is_forgotten (answering 100) init
                  (topic example_command) "4" "2" "on" "" (Decoded no_data) 4 2 500
                  example_event Hok Ht Hm Ho Hp
                  eq_refl eq_refl eq_refl eq_refl)).
Defined.

(** X15 -- A second command to the same output replaces the first: after
    two accepted commands the device's entry expects the second state and
    is stamped with the second command's clock reading, so its timeout
    runs from the second command; when the two states differ, the
    controller's report of the first state does not clear it. *)
Theorem newer_command_supersedes
  (e1 e2 : env) (s : bridge) (t ms os text1 text2 txt1 txt2 : string)
  (body1 body2 : json_body) (m o now : Z) (event : list (string * pyval)) :
  dict_ok (pending_confirmations s) ->
  device_set_topic t ms os ->
  py_int ms = Some m -> py_int os = Some o ->
  post_setOutput e1 = Response 200 txt1 body1 ->
  post_setOutput e2 = Response 200 txt2 body2 ->
  (upper text1 =? "ON")%string <> (upper text2 =? "ON")%string ->
  get event "type" = PStr "outputState" ->
  get event "moduleNumber" = PInt m -> get event "ioNumber" = PInt o ->
  get event "state" = PBool (upper text1 =? "ON")%string ->
  let key := confirmation_key (str_int m) (str_int o) in
  let s1 := state_of (on_message e1 (mk_message t (Utf8 text1)) s) in
  let s2 := state_of (on_message e2 (mk_message t (Utf8 text2)) s1) in
  s2 = registered e2 m o (upper text2 =? "ON")%string s /\
  dict_get (pending_confirmations s2) key
  = Some (mk_info (upper text2 =? "ON")%string (time_time e2) m o) /\
  (In key (expired now (pending_confirmations s2)) <->
   now - time_time e2 > confirmation_timeout) /\
  pending_confirmations (state_of (process_ihc_event event s2))
  = pending_confirmations s2.
Proof.
  intros Hok Ht Hm Ho Hp1 Hp2 Hne Ety Em Eo Est. cbv zeta.
  rewrite (on_message_accepted e1 s t ms os text1 m o _ _ Ht Hm Ho Hp1).
  rewrite (on_message_accepted e2 _ t ms os text2 m o _ _ Ht Hm Ho Hp2).
  assert (E : registered e2 m o (upper text2 =? "ON")%string
                (registered e1 m o (upper text1 =? "ON")%string s)
              = registered e2 m o (upper text2 =? "ON")%string s).
  { unfold registered. destruct s. cbn. now rewrite dict_set_set. }
  rewrite E.
  rewrite (process_ihc_event_report _ event m o _ Ety Em Eo Est). cbv zeta.
  rewrite pending_registered, dict_set_same. cbn [i_state].
  split; [reflexivity|]. split; [reflexivity|]. split.
  - rewrite (expired_in now _ _ (dict_ok_set _ _ _ Hok)), dict_set_same.
    split.
    + intros (inf & [= <-] & H). exact H.
    + intros H. eexists. split; [reflexivity | exact H].
  - destruct (Bool.eqb (upper text2 =? "ON")%string
                (upper text1 =? "ON")%string) eqn:B; [|reflexivity].
    apply Bool.eqb_prop in B. congruence.
Qed.

(** [on] at clock reading 100, [off] at 103, then the report of [on]. *)
Lemma newer_command_supersedes_witness :
  dict_ok (pending_confirmations init) /\
  device_set_topic "ihc/output/4/2/set" "4" "2" /\
  (upper "on" =? "ON")%string <> (upper "off" =? "ON")%string /\
  pending_confirmations
    (state_of
       (process_ihc_event example_event
          (state_of
             (on_message (answering 103)
                (mk_message "ihc/output/4/2/set" (Utf8 "off"))
                (state_of (on_message (answering 100) example_command
                             init))))))
  = [("4_2", mk_info false 103 4 2)].
Proof.
  assert (Hok : dict_ok (pending_confirmations init)) by constructor.
  assert (Ht : device_set_topic "ihc/output/4/2/set" "4" "2")
    by (repeat split; reflexivity).
  assert (Hne : (upper "on" =? "ON")%string <> (upper "off" =? "ON")%string)
    by discriminate.
  repeat (split; [assumption|]).
  exact (eq_trans
           (proj2 (proj2 (proj2
              (newer_command_supersedes (answering 100) (answering 103) init
                 "ihc/output/4/2/set" "4" "2" "on" "off" "" "" (Decoded no_data) (Decoded no_data)
                 4 2 0 example_event Hok Ht eq_refl eq_refl eq_refl eq_refl
                 Hne eq_refl eq_refl eq_refl eq_refl))))
           eq_refl).
Defined.

(* ================================================================= *)
(** ** Further properties: initial states and reconnection *)

Lemma count_app p (t1 t2 : trace) :
  count p (t1 ++ t2)%list = (count p t1 + count p t2)%nat.
Proof. unfold count. now rewrite filter_app, length_app. Qed.

Lemma for_each_calls {A} (l : list A) (body : A -> M unit) (f : A -> trace) :
  (forall x s, body x s = (Ok tt, s, f x)) ->
  forall s, for_each l body s = (Ok tt, s, flat_map f l).
Proof.
  intros Hb s. induction l as [|x l IH]; simpl; [reflexivity|].
  unfold bind. now rewrite Hb, IH.
Qed.

Lemma publish_initial_calls direction m s :
  publish_initial direction m s =
  (Ok tt, s,
   if truthy (module_state m)
   then flat_map (fun io => [initial_publish direction m io;
                             initial_log direction m io]) (module_ios m)
   else []).
Proof.
  unfold publish_initial. destruct (truthy (module_state m)); [|reflexivity].
  apply for_each_calls. reflexivity.
Qed.

Lemma process_ihc_states_calls data s :
  process_ihc_states data s =
  (Ok tt, s,
   (flat_map (fun m => snd (publish_initial "output" m s))
      (outputModules data) ++
    flat_map (fun m => snd (publish_initial "input" m s))
      (inputModules data))%list).
Proof.
  unfold process_ihc_states, try_except, bind.
  rewrite (for_each_calls (outputModules data) (publish_initial "output")
             (fun m => snd (publish_initial "output" m s)))
    by (intros x s0; now rewrite !publish_initial_calls).
  rewrite (for_each_calls (inputModules data) (publish_initial "input")
             (fun m => snd (publish_initial "input" m s)))
    by (intros x s0; now rewrite !publish_initial_calls).
  reflexivity.
Qed.

Lemma publish_initial_publishes direction mods s :
  filter is_publish
    (flat_map (fun m => snd (publish_initial direction m s)) mods)
  = announced direction mods.
Proof.
  unfold announced, active.
  induction mods as [|m mods IH]; [reflexivity|].
  cbn [flat_map filter]. rewrite filter_app, IH, publish_initial_calls.
  cbn [snd]. destruct (truthy (module_state m)); [|reflexivity].
  cbn [flat_map]. f_equal.
  induction (module_ios m) as [|io ios IHio]; [reflexivity|].
  cbn [flat_map map app filter is_publish initial_publish initial_log].
  now rewrite IHio.
Qed.

Lemma publish_initial_debug direction mods s :
  count is_debug (flat_map (fun m => snd (publish_initial direction m s)) mods)
  = length (announced direction mods) /\
  Forall (fun x => is_publish x = true \/ is_debug x = true)
    (flat_map (fun m => snd (publish_initial direction m s)) mods).
Proof.
  unfold announced, active.
  induction mods as [|m mods [IH1 IH2]]; [split; [reflexivity|constructor]|].
  cbn [flat_map filter]. rewrite count_app, IH1, publish_initial_calls.
  cbn [snd].
  assert (H : forall ios,
             count is_debug
               (flat_map (fun io => [initial_publish direction m io;
                                     initial_log direction m io]) ios)
             = length (map (initial_publish direction m) ios) /\
             Forall (fun x => is_publish x = true \/ is_debug x = true)
               (flat_map (fun io => [initial_publish direction m io;
                                     initial_log direction m io]) ios)).
  { induction ios as [|io ios [I1 I2]]; [split; [reflexivity|constructor]|].
    cbn [flat_map map app length]. split.
    - unfold count in *. cbn [filter is_debug initial_publish initial_log length].
      now rewrite I1.
    - constructor; [now left|]. constructor; [now right | exact I2]. }
  destruct (truthy (module_state m)).
  - cbn [flat_map]. rewrite length_app. destruct (H (module_ios m)) as [H1 H2].
    rewrite H1. split; [reflexivity|]. apply Forall_app. now split.
  - split; [reflexivity | exact IH2].
Qed.

(** X16 -- [process_ihc_states] publishes one retained state per entry of
    each module whose [state] is truthy, output modules first and in the
    order of the reply, and nothing for the other modules; every other
    call is the debug line that follows a publication; the method returns
    normally and leaves the bridge object as it was. *)
Theorem initial_states_of_active_modules (data : ihc_data) (s : bridge) :
  let r := process_ihc_states data s in
  result_of r = Ok tt /\ state_of r = s /\
  filter is_publish (trace_of r)
  = (announced "output" (outputModules data) ++
     announced "input" (inputModules data))%list /\
  count is_debug (trace_of r) = count is_publish (trace_of r) /\
  Forall (fun x => is_publish x = true \/ is_debug x = true) (trace_of r).
Proof.
  cbv zeta. rewrite process_ihc_states_calls.
  unfold result_of, state_of, trace_of. cbn [fst snd].
  split; [reflexivity|]. split; [reflexivity|].
  destruct (publish_initial_debug "output" (outputModules data) s) as [D1 F1].
  destruct (publish_initial_debug "input" (inputModules data) s) as [D2 F2].
  split; [|split].
  - now rewrite filter_app, !publish_initial_publishes.
  - rewrite count_app, D1, D2. unfold count at 1.
    now rewrite filter_app, !publish_initial_publishes, length_app.
  - apply Forall_app. now split.
Qed.

Lemma count_none p (P : effect -> Prop) (t : trace) :
  (forall x, P x -> p x = false) -> Forall P t -> count p t = 0%nat.
Proof.
  intros Hp H. unfold count. induction H as [|x t Hx _ IH]; [reflexivity|].
  cbn [filter]. now rewrite (Hp x Hx).
Qed.

(** [test_ihc_connection] in closed form. *)
Lemma test_ihc_connection_spec o s :
  test_ihc_connection o s =
  let pre := [Log INFO ("Testing connection to IHC server at " ++ ihc_url);
              Post GetAll true] in
  let failed ex :=
    if is_class RequestException ex
    then (Ok false, s,
          (pre ++ [Log ERROR ("Error testing IHC connection: " ++
                              exn_text ex)])%list)
    else (Raised ex, s, pre) in
  match o with
  | Response c _ content =>
      if c =? 200 then
        match content with
        | Decoded data =>
            (Ok true, s,
             (pre ++ snd (process_ihc_states data s) ++
              [Log INFO "IHC API connection successful"])%list)
        | Undecodable ex => failed ex
        end
      else (Ok false, s,
            (pre ++ [Log ERROR ("IHC API returned status code " ++
                                str_int c)])%list)
  | HttpRaises ex => failed ex
  end.
Proof.
  unfold test_ihc_connection. change have_credentials with true.
  cbv iota zeta.
  unfold session_post, response_json, try_except, bind, log, emit, ret,
    raise.
  destruct o as [c txt [data|ex]|ex]; cbn [app].
  - destruct (c =? 200); [|reflexivity].
    rewrite process_ihc_states_calls. reflexivity.
  - destruct (c =? 200); [|reflexivity].
    destruct (is_class RequestException ex); reflexivity.
  - destruct (is_class RequestException ex); reflexivity.
Qed.

Lemma initial_calls_counts data s :
  count is_probe (snd (process_ihc_states data s)) = 0%nat /\
  count is_sleep (snd (process_ihc_states data s)) = 0%nat.
Proof.
  rewrite process_ihc_states_calls. cbn [snd].
  destruct (publish_initial_debug "output" (outputModules data) s) as [_ F1].
  destruct (publish_initial_debug "input" (inputModules data) s) as [_ F2].
  assert (Np : forall x, is_publish x = true \/ is_debug x = true ->
                         is_probe x = false)
    by (intros [] [H|H]; try discriminate H; reflexivity).
  assert (Ns : forall x, is_publish x = true \/ is_debug x = true ->
                         is_sleep x = false)
    by (intros [] [H|H]; try discriminate H; reflexivity).
  rewrite !count_app.
  now rewrite (count_none _ _ _ Np F1), (count_none _ _ _ Np F2),
    (count_none _ _ _ Ns F1), (count_none _ _ _ Ns F2).
Qed.

(** One handled probe: a single [getAll] post, no sleep, the bridge object
    as it was, and [True] exactly when the answer has status 200 and a
    body that decodes. *)
Lemma test_ihc_connection_probe e k s :
  handled (post_getAll e k) ->
  exists t, test_ihc_connection (post_getAll e k) s = (Ok (probe_ok e k), s, t)
            /\ count is_probe t = 1%nat /\ count is_sleep t = 0%nat /\
            Forall quiet t.
Proof.
  intros Ho.
  destruct (test_ihc_connection_quiet (post_getAll e k) s Ho)
    as (b0 & t0 & E0 & Q0 & _).
  cut (exists t, test_ihc_connection (post_getAll e k) s
                 = (Ok (probe_ok e k), s, t)
                 /\ count is_probe t = 1%nat /\ count is_sleep t = 0%nat).
  { intros (t & E & H1 & H2). exists t. repeat split; try assumption.
    rewrite E in E0. now injection E0 as _ <-. }
  clear b0 t0 E0 Q0.
  rewrite test_ihc_connection_spec. cbv zeta. unfold probe_ok, answer_ok.
  destruct (post_getAll e k) as [c txt [data|ex]|ex]; cbn in Ho.
  - destruct (c =? 200).
    + destruct (initial_calls_counts data s) as [C1 C2].
      eexists. split; [reflexivity|].
      rewrite !count_app, C1, C2. split; reflexivity.
    + eexists. split; [reflexivity|]. split; reflexivity.
  - destruct (Z.eqb_spec c 200) as [->|Hc].
    + rewrite (Ho eq_refl). eexists. split; [reflexivity|].
      split; reflexivity.
    + eexists. split; [reflexivity|]. split; reflexivity.
  - rewrite Ho. eexists. split; [reflexivity|]. split; reflexivity.
Qed.

Lemma reconnect_loop_counts e fuel n s :
  (fuel + n = max_retries)%nat -> probes_tame e ->
  exists t, reconnect_loop e fuel n s =
            (Ok (match find (probe_ok e) (seq n fuel) with
                 | Some _ => true | None => false end), s, t) /\
            match find (probe_ok e) (seq n fuel) with
            | Some k => (n <= k < max_retries)%nat /\
                        count is_probe t = (k - n + 1)%nat /\
                        count is_sleep t = (k - n)%nat
            | None => count is_probe t = fuel /\ count is_sleep t = fuel
            end /\
            Forall quiet t.
Proof.
  intros Hn Ht. revert n Hn. induction fuel as [|fuel IH]; intros n Hn.
  - eexists. split; [reflexivity|]. split; [split; reflexivity|].
    repeat constructor.
  - cbn [reconnect_loop seq find].
    destruct (test_ihc_connection_probe e n s) as (t0 & E0 & P0 & S0 & Q0);
      [apply Ht; lia|].
    unfold bind at 1. rewrite E0.
    destruct (probe_ok e n).
    + unfold bind, log, emit, ret. cbn [app]. eexists. split; [reflexivity|].
      split.
      * split; [lia|]. rewrite !count_app, P0, S0.
        split; [cbn; lia | cbn; lia].
      * apply Forall_app. split; [exact Q0 | repeat constructor].
    + destruct (IH (S n)) as (t & E & C & Q); [lia|].
      unfold bind, log, sleep, emit. cbn [app]. rewrite E.
      eexists. split; [reflexivity|].
      change (?a :: ?b :: t)%list with ([a; b] ++ t)%list.
      split.
      * rewrite !count_app, P0, S0.
        destruct (find (probe_ok e) (seq (S n) fuel)) as [k|].
        -- destruct C as (Hk & C1 & C2). rewrite C1, C2.
           split; [lia|]. split; cbn; lia.
        -- destruct C as (C1 & C2). rewrite C1, C2. split; cbn; lia.
      * apply Forall_app. split; [exact Q0|].
        apply Forall_app. split; [repeat constructor | exact Q].
Qed.

Lemma reset_connections_spec e s :
  reset_connections e s =
  match reconnect_loop e max_retries 0
          (set_ws_thread true
             (set_ws_stop_event false
                (set_ws_stop_event true
                   (if ws s then set_ws false s else s)))) with
  | (r, s', t) =>
      (r, s',
       (Log INFO "Resetting connections after IHC server restart" ::
        (if ws s then [WsClose] else []) ++
        EventSet ::
        (if ws_thread s && thread_is_alive e then [ThreadJoin 3] else []) ++
        [EventClear; ThreadStart] ++ t)%list)
  end.
Proof.
  unfold reset_connections, ws_close.
  unfold bind at 1. unfold log at 1, emit at 1. cbn [app].
  unfold bind at 1, gets at 1. cbn [app].
  destruct s as [rn w th ev pd fl lc]. cbn [ws ws_thread].
  destruct w, (ws_close_raises e) as [ex|], th, (thread_is_alive e);
    unfold try_except, any_exception, bind, emit, modify, gets, ret, raise;
    cbn -[reconnect_loop max_retries];
    match goal with
    | |- context [reconnect_loop ?a ?b ?c ?d] =>
        destruct (reconnect_loop a b c d) as [[r s'] t]
    end; reflexivity.
Qed.

(** X17 -- [reset_connections] when every probe ends in a way
    [test_ihc_connection] handles (what the post, or [response.json()] on
    a status-200 answer, raises is a [RequestException]): it probes the
    controller at most five times and stops at the first answer with
    status 200 and a body that decodes, sleeping five seconds after every
    failed probe, the fifth included; it returns [True] exactly when a
    probe succeeded.  In every case the event-stream handle is dropped,
    the stop event is cleared again, exactly one new worker thread is
    started, and the running flag, the registry and the failure window are
    as they were. *)
Theorem reset_connections_probes (e : env) (s : bridge) :
  probes_tame e ->
  let r := reset_connections e s in
  match first_ok e with
  | Some k =>
      result_of r = Ok true /\ (k < max_retries)%nat /\
      count is_probe (trace_of r) = S k /\
      count is_sleep (trace_of r) = k
  | None =>
      result_of r = Ok false /\
      count is_probe (trace_of r) = max_retries /\
      count is_sleep (trace_of r) = max_retries
  end /\
  ws (state_of r) = false /\ ws_stop_event (state_of r) = false /\
  ws_thread (state_of r) = true /\
  count is_thread_start (trace_of r) = 1%nat /\
  same_core s (state_of r).
Proof.
  intros Ht. cbv zeta. rewrite reset_connections_spec.
  match goal with
  | |- context [reconnect_loop e max_retries 0 ?s0] =>
      destruct (reconnect_loop_counts e max_retries 0 s0 eq_refl Ht)
        as (t & E & C & Q); rewrite E
  end.
  unfold first_ok, result_of, state_of, trace_of. cbn [fst snd].
  assert (Hq : forall p n,
             count p [Log INFO "Resetting connections after IHC server restart";
                      WsClose; EventSet; ThreadJoin 3; EventClear] = 0%nat ->
             count p [ThreadStart] = n ->
             count p
               (Log INFO "Resetting connections after IHC server restart" ::
                (if ws s then [WsClose] else []) ++
                EventSet ::
                (if ws_thread s && thread_is_alive e
                 then [ThreadJoin 3] else []) ++
                [EventClear; ThreadStart] ++ t)%list
             = (n + count p t)%nat).
  { intros p n H0 <-. unfold count in *. cbn [filter] in H0.
    destruct (p (Log INFO "Resetting connections after IHC server restart"))
      eqn:P1; [discriminate H0|].
    destruct (p WsClose) eqn:P2; [discriminate H0|].
    destruct (p EventSet) eqn:P3; [discriminate H0|].
    destruct (p (ThreadJoin 3)) eqn:P4; [discriminate H0|].
    destruct (p EventClear) eqn:P5; [discriminate H0|].
    destruct (ws s), (ws_thread s && thread_is_alive e);
      cbn [app filter]; rewrite ?P1, ?P2, ?P3, ?P4, ?P5;
      destruct (p ThreadStart); reflexivity. }
  rewrite (Hq is_probe 0%nat eq_refl eq_refl),
    (Hq is_sleep 0%nat eq_refl eq_refl),
    (Hq is_thread_start 1%nat eq_refl eq_refl).
  assert (Ns : count is_thread_start t = 0%nat).
  { apply (count_none _ quiet); [|exact Q].
    intros [] H; try contradiction H; reflexivity. }
  rewrite Ns. cbn [Nat.add].
  split.
  - destruct (find (probe_ok e) (seq 0 max_retries)) as [k|].
    + destruct C as (Hk & C1 & C2). rewrite C1, C2.
      repeat split; lia.
    + destruct C as (C1 & C2). now rewrite C1, C2.
  - destruct s as [rn w th ev pd fl lc]. cbn [ws ws_thread].
    split; [destruct w; reflexivity|]. split; [destruct w; reflexivity|].
    split; [destruct w; reflexivity|]. split; [reflexivity|].
    destruct w; repeat split.
Qed.

Lemma reset_connections_probes_witness :
  probes_tame api_slow /\
  result_of (reset_connections api_slow (set_ws true init)) = Ok true /\
  count is_probe (trace_of (reset_connections api_slow (set_ws true init)))
  = 3%nat /\
  count is_sleep (trace_of (reset_connections api_slow (set_ws true init)))
  = 2%nat /\
  ws (state_of (reset_connections api_slow (set_ws true init))) = false.
Proof.
  assert (Ht : probes_tame api_slow).
  { intros k _. unfold api_slow. cbn [post_getAll].
    destruct k as [|[|k]]; cbn; [reflexivity | reflexivity | exact I]. }
  split; [exact Ht|].
  pose proof (reset_connections_probes api_slow (set_ws true init) Ht) as H.
  cbv zeta in H. destruct H as (H & Hw & _).
  change (first_ok api_slow) with (Some 2%nat) in H.
  destruct H as (H1 & _ & H2 & H3).
  repeat split; assumption.
Defined.

(* ================================================================= *)
(** ** Further properties: the host restart and the end of [run] *)

Lemma restart_raspberry_pi_close_raises e s ex :
  ws s = true -> ws_close_raises e = Some ex ->
  restart_raspberry_pi e s =
  match reset_connections e
          (set_running true (set_ws_stop_event true (set_running false s)))
  with
  | (r, s', t) =>
      (match r with Ok _ => Ok tt | Raised x => Raised x end, s',
       ([Log WARNING "Initiating Raspberry Pi restart";
         Publish "ihc/system/status"
           "Restarting Raspberry Pi in 10 seconds..." false;
         Sleep 5; EventSet; WsClose;
         Log ERROR ("Error restarting Raspberry Pi: " ++ exn_text ex)] ++ t)%list)
  end.
Proof.
  intros Hw Hc. unfold restart_raspberry_pi, subprocess_run, ws_close.
  rewrite Hc.
  unfold try_except, bind, publish, log, sleep, emit, gets, modify, ret,
    raise, any_exception.
  destruct s as [rn w th ev pd fl lc]. cbn [ws] in Hw. subst w.
  cbn -[reset_connections].
  match goal with
  | |- context [reset_connections ?a ?b] =>
      destruct (reset_connections a b) as [[[b0|x] s'] t]
  end; rewrite ?app_nil_r; reflexivity.
Qed.

(** X18 -- The host restart when closing the event stream raises: the
    exception is caught before the bus client is stopped and before
    [sudo reboot], so no command is run and the bus client is neither
    stopped nor disconnected; the error is logged, the running flag is set
    again and the connections are reset, which calls [close] on the same
    handle a second time, drops it, clears the stop event and probes the
    controller.  The registry and the failure window are untouched. *)
Theorem host_restart_abandoned_when_close_fails (e : env) (s : bridge)
  (ex : exn) :
  ws s = true -> ws_close_raises e = Some ex -> probes_tame e ->
  let r := restart_raspberry_pi e s in
  result_of r = Ok tt /\
  Forall plain (trace_of r) /\
  ~ In MqttLoopStop (trace_of r) /\ ~ In MqttDisconnect (trace_of r) /\
  In (Log ERROR ("Error restarting Raspberry Pi: " ++ exn_text ex))
    (trace_of r) /\
  count is_ws_close (trace_of r) = 2%nat /\
  running (state_of r) = true /\ ws (state_of r) = false /\
  ws_stop_event (state_of r) = false /\
  same_registry s (state_of r).
Proof.
  intros Hw Hc Ht. cbv zeta.
  rewrite (restart_raspberry_pi_close_raises e s ex Hw Hc).
  rewrite reset_connections_spec.
  match goal with
  | |- context [reconnect_loop e max_retries 0 ?s0] =>
      destruct (reconnect_loop_counts e max_retries 0 s0 eq_refl Ht)
        as (t & E & _ & Q); rewrite E
  end.
  destruct s as [rn w th ev pd fl lc]. cbn [ws] in Hw. subst w.
  unfold result_of, state_of, trace_of. cbn [fst snd].
  cbn [ws ws_thread set_running set_ws_stop_event set_ws set_ws_thread
       running ws_stop_event pending_confirmations confirmation_failures].
  assert (Qp : Forall plain t).
  { eapply Forall_impl; [|exact Q]. intros []; simpl; tauto. }
  assert (Q1 : ~ In MqttLoopStop t).
  { intros H. eapply Forall_forall in Q; [|exact H]. exact Q. }
  assert (Q2 : ~ In MqttDisconnect t).
  { intros H. eapply Forall_forall in Q; [|exact H]. exact Q. }
  assert (Q3 : count is_ws_close t = 0%nat).
  { apply (count_none _ quiet); [|exact Q].
    intros [] H; try contradiction H; reflexivity. }
  split; [reflexivity|]. split.
  { destruct (th && thread_is_alive e); cbn [app];
      repeat (constructor; [exact I|]); exact Qp. }
  split.
  { destruct (th && thread_is_alive e); cbn [app In];
      intuition discriminate. }
  split.
  { destruct (th && thread_is_alive e); cbn [app In];
      intuition discriminate. }
  split; [cbn [app In]; tauto|].
  split.
  { unfold count in *.
    destruct (th && thread_is_alive e); cbn [app filter is_ws_close length];
      now rewrite Q3. }
  repeat split.
Qed.

Lemma host_restart_abandoned_when_close_fails_witness :
  ws (set_ws true init) = true /\
  ws_close_raises close_fails = Some (mk_exn OSError "Broken pipe") /\
  probes_tame close_fails /\
  running (state_of (restart_raspberry_pi close_fails (set_ws true init)))
  = true /\
  ~ In MqttDisconnect
      (trace_of (restart_raspberry_pi close_fails (set_ws true init))).
Proof.
  assert (Ht : probes_tame close_fails) by (intros k _; exact I).
  split; [reflexivity|]. split; [reflexivity|]. split; [exact Ht|].
  pose proof (host_restart_abandoned_when_close_fails close_fails
                (set_ws true init) _ eq_refl eq_refl Ht) as H.
  cbv zeta in H. destruct H as (_ & _ & _ & H4 & _ & _ & H7 & _).
  split; assumption.
Defined.

Lemma main_loop_app a b s s2 t2 :
  main_loop a s = (StillLooping, s2, t2) ->
  main_loop (a ++ b) s =
  match main_loop b s2 with
  | (r, s3, t3) => (r, s3, (t2 ++ t3)%list)
  end.
Proof.
  revert s t2. induction a as [|[e|e msg|event] a IH]; intros s t2 H;
    cbn [main_loop app] in *.
  - injection H as <- <-. destruct (main_loop b s) as [[r s3] t3].
    reflexivity.
  - destruct (running s); [|discriminate H].
    destruct (loop_iteration e s) as [[[[]|ex] s'] t]; [|discriminate H].
    destruct (main_loop a s') as [[r0 s0] t0] eqn:E.
    injection H as -> -> <-. rewrite (IH _ _ E).
    destruct (main_loop b s2) as [[r s3] t3]. now rewrite app_assoc.
  - destruct (on_message e msg s) as [[r1 s'] t].
    destruct (main_loop a s') as [[r0 s0] t0] eqn:E.
    injection H as -> -> <-. rewrite (IH _ _ E).
    destruct (main_loop b s2) as [[r s3] t3]. now rewrite app_assoc.
  - destruct (process_ihc_event event s) as [[r1 s'] t].
    destruct (main_loop a s') as [[r0 s0] t0] eqn:E.
    injection H as -> -> <-. rewrite (IH _ _ E).
    destruct (main_loop b s2) as [[r s3] t3]. now rewrite app_assoc.
Qed.

(** [run] still in its loop: startup succeeded and the script ran out. *)
Lemma run_looping e script e_end :
  end_of (run e script e_end init) = Looping ->
  exists s1 t1 t2,
    run_startup e init = (Ok true, s1, t1) /\
    main_loop script s1
    = (StillLooping, bridge_of (run e script e_end init), t2).
Proof.
  unfold run, end_of, bridge_of.
  destruct (run_startup e init) as [[[[|]|ex] s1] t1] eqn:E1; cbn [fst snd];
    try discriminate.
  destruct (main_loop script s1) as [[[| |ex] s2] t2] eqn:E2; cbn [fst snd].
  - intros _. exists s1, t1, t2. split; [reflexivity | exact E2].
  - destruct (run_finally e_end s2) as [[r3 s3] t3]. discriminate.
  - destruct ((log ERROR ("Unexpected error in main loop: " ++ exn_text ex) ;;
               run_finally e_end) s2) as [[r3 s3] t3]. discriminate.
Qed.

Lemma restart_ihc_server_not_launched e scheduled s ex :
  run_systemctl e = NotLaunched ex ->
  is_class CalledProcessError ex = false ->
  restart_ihc_server e scheduled s =
  (Raised ex, s,
   [Log WARNING "Restarting IHC server due to repeated failures";
    SubprocessRun systemctl_args true]).
Proof.
  intros Hr Hc. unfold restart_ihc_server, subprocess_run. rewrite Hr.
  unfold try_except, bind, log, emit, raise. cbn [app]. now rewrite Hc.
Qed.

Lemma sweep_launch_failure e s ex :
  dict_ok (pending_confirmations s) ->
  (0 < timeouts e s)%nat ->
  (failure_threshold
   <= length (pruned_window (time_time e) (timeouts e s)
                (confirmation_failures s)))%nat ->
  run_systemctl e = NotLaunched ex ->
  is_class CalledProcessError ex = false ->
  exists s' t,
    check_pending_confirmations e s = (Raised ex, s', t) /\
    confirmation_failures s' = [] /\
    pending_confirmations s' =
      fold_left dict_del (expired (time_time e) (pending_confirmations s))
        (pending_confirmations s) /\
    running s' = running s /\
    In (SubprocessRun systemctl_args true) t.
Proof.
  intros Hok Hpos Hth Hr Hc.
  rewrite (check_pending_spec e s Hok). cbv zeta.
  unfold timeouts in *.
  destruct (length (expired (time_time e) (pending_confirmations s)))
    as [|k] eqn:L; [lia|].
  rewrite flag_after_S, window_after_S. unfold pruned_window in Hth.
  apply Nat.leb_le in Hth. rewrite Hth. cbn [orb].
  rewrite (restart_ihc_server_not_launched e false _ ex Hr Hc).
  eexists _, _. split; [reflexivity|].
  destruct s as [rn w th ev pd fl lc]. cbn.
  repeat split. apply in_or_app. right. simpl. tauto.
Qed.

(** X19 -- When the sweep of a main-loop pass decides on a service
    restart and [systemctl] cannot be launched at all ([subprocess.run]
    raises something other than [CalledProcessError]), the exception
    leaves [check_pending_confirmations] and the main loop: [run] logs
    "Unexpected error in main loop", runs its [finally] block (stop event
    set, bus client stopped and disconnected) and returns; whatever would
    have followed is not handled.  The expired entries are gone and the
    failure window is empty. *)
Theorem launch_failure_ends_run (e : env) (script rest : list step)
  (e' e_end : env) (ex : exn) :
  let before := bridge_of (run e script e_end init) in
  end_of (run e script e_end init) = Looping ->
  running before = true ->
  time_time e' - last_check_time before >= 1 ->
  (0 < timeouts e' before)%nat ->
  (failure_threshold
   <= length (pruned_window (time_time e') (timeouts e' before)
                (confirmation_failures before)))%nat ->
  run_systemctl e' = NotLaunched ex ->
  is_class CalledProcessError ex = false ->
  let r := run e (script ++ Iterate e' :: rest) e_end init in
  end_of r = ShutDown /\
  In (Did (Log ERROR ("Unexpected error in main loop: " ++ exn_text ex)))
    (calls_of r) /\
  In (Did MqttDisconnect) (calls_of r) /\
  ws_stop_event (bridge_of r) = true /\
  confirmation_failures (bridge_of r) = [] /\
  pending_confirmations (bridge_of r) =
    fold_left dict_del
      (expired (time_time e') (pending_confirmations before))
      (pending_confirmations before) /\
  r = run e (script ++ [Iterate e']) e_end init.
Proof.
  cbv zeta. intros Hl Hrun Hclock Hpos Hth Hr Hc.
  destruct (registry_inv_run e script e_end) as (Hok & _).
  destruct (run_looping e script e_end Hl) as (s1 & t1 & t2 & E1 & E2).
  destruct (sweep_launch_failure e' _ ex Hok Hpos Hth Hr Hc)
    as (s' & t & Es & Hf & Hp & _ & _).
  assert (Ei : forall tail,
             main_loop (Iterate e' :: tail)
               (bridge_of (run e script e_end init))
             = (LoopRaised ex, s', did t)).
  { intros tail. cbn [main_loop]. rewrite Hrun. unfold loop_iteration.
    cbv zeta.
    destruct (Z.geb_spec (time_time e' - last_check_time
                            (bridge_of (run e script e_end init))) 1)
      as [_|Hlt]; [|lia].
    now rewrite Es. }
  assert (Er : forall tail,
             run e (script ++ Iterate e' :: tail) e_end init =
             match (log ERROR ("Unexpected error in main loop: " ++
                               exn_text ex) ;; run_finally e_end) s' with
             | (_, s3, t3) =>
                 (ShutDown, s3, (did t1 ++ (t2 ++ did t) ++ did t3)%list)
             end).
  { intros tail. unfold run at 1. rewrite E1.
    rewrite (main_loop_app _ _ _ _ _ E2), Ei. reflexivity. }
  rewrite !Er. unfold log. rewrite bind_emit.
  destruct (run_finally_registry e_end s') as ([Sp Sf] & _ & Hs & Hd).
  unfold state_of, trace_of in *.
  destruct (run_finally e_end s') as [[r3 s3] t3]. cbn [fst snd] in *.
  unfold end_of, calls_of, bridge_of. cbn [fst snd].
  split; [reflexivity|]. split.
  { apply in_or_app. right. apply in_or_app. right. simpl. now left. }
  split.
  { apply in_or_app. right. apply in_or_app. right. simpl. right.
    unfold did. apply in_map_iff. eauto. }
  split; [exact Hs|]. split; [congruence|].
  split; [rewrite Sp; exact Hp|].
  reflexivity.
Qed.

(** Three accepted commands at clock reading 100; at 111 all three have
    expired and [sudo] is missing. *)
Lemma launch_failure_ends_run_witness :
  end_of (run (answering 0) (three_commands 100) (answering 0) init)
  = Looping /\
  (0 < timeouts (no_sudo 111)
         (bridge_of (run (answering 0) (three_commands 100) (answering 0)
                       init)))%nat /\
  run_systemctl (no_sudo 111)
  = NotLaunched (mk_exn OSError "[Errno 2] No such file or directory: 'sudo'")
  /\
  end_of (run (answering 0) (three_commands 100 ++ [Iterate (no_sudo 111)])
            (answering 0) init) = ShutDown /\
  pending_confirmations
    (bridge_of (run (answering 0)
                  (three_commands 100 ++ [Iterate (no_sudo 111)])
                  (answering 0) init)) = [].
Proof.
  assert (H1 : end_of (run (answering 0) (three_commands 100) (answering 0)
                         init) = Looping) by (vm_compute; reflexivity).
  assert (H2 : running (bridge_of (run (answering 0) (three_commands 100)
                                     (answering 0) init)) = true)
    by (vm_compute; reflexivity).
  assert (H3 : time_time (no_sudo 111)
               - last_check_time
                   (bridge_of (run (answering 0) (three_commands 100)
                                 (answering 0) init)) >= 1)
    by (vm_compute; discriminate).
  assert (H4 : (0 < timeouts (no_sudo 111)
                      (bridge_of (run (answering 0) (three_commands 100)
                                    (answering 0) init)))%nat)
    by (vm_compute; lia).
  assert (H5 : (failure_threshold
                <= length (pruned_window (time_time (no_sudo 111))
                             (timeouts (no_sudo 111)
                                (bridge_of (run (answering 0)
                                              (three_commands 100)
                                              (answering 0) init)))
                             (confirmation_failures
                                (bridge_of (run (answering 0)
                                              (three_commands 100)
                                              (answering 0) init)))))%nat)
    by (vm_compute; lia).
  pose proof (launch_failure_ends_run (answering 0) (three_commands 100) []
                (no_sudo 111) (answering 0) _ H1 H2 H3 H4 H5 eq_refl eq_refl)
    as H.
  cbv zeta in H. destruct H as (R1 & _ & _ & _ & _ & R6 & _).
  split; [exact H1|]. split; [exact H4|]. split; [reflexivity|].
  split; [exact R1|]. rewrite R6. vm_compute. reflexivity.
Defined.

Lemma on_message_pi_restart e s text c :
  upper text = "RESTART" ->
  run_reboot e = Exited c -> ws_close_raises e = None ->
  on_message e (pi_restart_command text) s =
  (Ok tt, set_ws_stop_event true (set_running false s),
   Log INFO "Received Raspberry Pi restart command via MQTT" ::
     pi_restart_trace (ws s)).
Proof.
  intros Hp Hr Hc.
  unfold on_message, pi_restart_command, try_except.
  cbn [topic payload decode].
  rewrite bind_ret_l. unfold system_command.
  cbn [String.eqb Ascii.eqb Bool.eqb]. rewrite Hp.
  change ("RESTART" =? "RESTART")%string with true. cbv iota.
  unfold log. unfold bind at 1. rewrite bind_emit.
  unfold bind at 1.
  rewrite (restart_raspberry_pi_exited e s c Hr Hc).
  unfold bind, ret. cbv beta iota. rewrite !app_nil_r. cbn [app].
  rewrite ?app_nil_r. reflexivity.
Qed.

(** X20 -- A host-restart command whose [sudo reboot] returns, with
    whatever exit status, ends the bridge: the handler clears the running
    flag, so the next pass of the main loop finds it false without
    sweeping, and [run] goes through its [finally] block and returns;
    whatever would have followed is not handled.  The registry and the
    failure window stay as they were. *)
Theorem host_restart_command_ends_run (e : env) (script rest : list step)
  (e1 e2 e_end : env) (text : string) (c : Z) :
  let before := bridge_of (run e script e_end init) in
  end_of (run e script e_end init) = Looping ->
  upper text = "RESTART" ->
  run_reboot e1 = Exited c -> ws_close_raises e1 = None ->
  let r := run e (script ++ Deliver e1 (pi_restart_command text)
                         :: Iterate e2 :: rest) e_end init in
  end_of r = ShutDown /\
  running (bridge_of r) = false /\
  same_registry before (bridge_of r) /\
  In (Did (SubprocessRun reboot_args false)) (calls_of r) /\
  r = run e (script ++ [Deliver e1 (pi_restart_command text); Iterate e2])
        e_end init.
Proof.
  cbv zeta. intros Hl Hp Hr Hc.
  destruct (run_looping e script e_end Hl) as (s1 & t1 & t2 & E1 & E2).
  set (s2 := bridge_of (run e script e_end init)) in *.
  assert (Er : forall tail,
             run e (script ++ Deliver e1 (pi_restart_command text)
                           :: Iterate e2 :: tail) e_end init =
             match run_finally e_end
                     (set_ws_stop_event true (set_running false s2)) with
             | (_, s3, t3) =>
                 (ShutDown, s3,
                  (did t1 ++
                   (t2 ++ did (Log INFO "Received Raspberry Pi restart command via MQTT"
                               :: pi_restart_trace (ws s2)) ++ []) ++
                   did t3)%list)
             end).
  { intros tail. unfold run at 1. rewrite E1.
    rewrite (main_loop_app _ _ _ _ _ E2). cbn [main_loop].
    rewrite (on_message_pi_restart e1 s2 text c Hp Hr Hc).
    destruct s2; reflexivity. }
  rewrite !Er.
  destruct (run_finally_registry e_end
              (set_ws_stop_event true (set_running false s2)))
    as ([Sp Sf] & _ & _ & _).
  assert (Rn : running (state_of (run_finally e_end
                 (set_ws_stop_event true (set_running false s2)))) = false).
  { unfold run_finally, bind, log, emit, modify, ret, state_of.
    destruct s2. destruct (thread_is_alive e_end); reflexivity. }
  unfold state_of in *.
  destruct (run_finally e_end (set_ws_stop_event true (set_running false s2)))
    as [[r3 s3] t3]. cbn [fst snd] in *.
  unfold end_of, calls_of, bridge_of. cbn [fst snd].
  split; [reflexivity|]. split; [exact Rn|]. split.
  { split; [rewrite Sp | rewrite Sf]; destruct s2; reflexivity. }
  split; [|reflexivity].
  apply in_or_app. right. apply in_or_app. left. apply in_or_app. right.
  apply in_or_app. left. unfold did. apply in_map_iff.
  eexists. split; [reflexivity|]. right. unfold pi_restart_trace.
  apply in_or_app. right. apply in_or_app. right. simpl. tauto.
Qed.

(** The command arrives right after startup; [sudo reboot] exits with
    status 1. *)
Lemma host_restart_command_ends_run_witness :
  end_of (run (answering 0) [] (answering 0) init) = Looping /\
  upper "restart" = "RESTART" /\
  run_reboot reboot_denied = Exited 1 /\
  ws_close_raises reboot_denied = None /\
  end_of (run (answering 0)
            ([] ++ [Deliver reboot_denied (pi_restart_command "restart");
                    Iterate (answering 1)])
            (answering 0) init) = ShutDown.
Proof.
  assert (H1 : end_of (run (answering 0) [] (answering 0) init) = Looping)
    by (vm_compute; reflexivity).
  split; [exact H1|]. split; [reflexivity|]. split; [reflexivity|].
  split; [reflexivity|].
  exact (proj1 (host_restart_command_ends_run (answering 0) [] []
                  reboot_denied (answering 1) (answering 0) "restart" 1
                  H1 eq_refl eq_refl eq_refl)).
Defined.

(* ================================================================= *)
(** ** Further properties: who writes the registry *)

Lemma dict_set_keeps_key {V} (d : list (string * V)) k v k' :
  In k' (keys d) -> In k' (keys (dict_set d k v)).
Proof.
  intros H. apply dict_mem_in. apply dict_mem_in in H. unfold dict_mem in *.
  destruct (string_dec k' k) as [->|Hne].
  - now rewrite dict_set_same.
  - now rewrite dict_set_other.
Qed.

Lemma dict_set_length {V} (d : list (string * V)) k v :
  (length d <= length (dict_set d k v) <= S (length d))%nat.
Proof.
  induction d as [|[k0 v0] d IH]; simpl; [lia|].
  destruct (k0 =? k)%string; simpl; lia.
Qed.

(** X22 -- The division of labour over the shared registry: [on_message]
    never removes a pending entry and adds at most one; [process_ihc_event]
    and the sweep never add or alter an entry, an event removing at most
    one; and the failure window is written by the sweep alone. *)
Theorem registry_writers (e : env) (msg : message)
  (event : list (string * pyval)) (s : bridge) :
  dict_ok (pending_confirmations s) ->
  let told := state_of (on_message e msg s) in
  let heard := state_of (process_ihc_event event s) in
  let swept := after e s in
  ((forall k, In k (keys (pending_confirmations s)) ->
              In k (keys (pending_confirmations told))) /\
   (length (pending_confirmations told)
    <= S (length (pending_confirmations s)))%nat /\
   confirmation_failures told = confirmation_failures s) /\
  ((forall k inf, In (k, inf) (pending_confirmations heard) ->
                  In (k, inf) (pending_confirmations s)) /\
   (length (pending_confirmations s)
    <= S (length (pending_confirmations heard)))%nat /\
   confirmation_failures heard = confirmation_failures s) /\
  (forall k inf, In (k, inf) (pending_confirmations swept) ->
                 In (k, inf) (pending_confirmations s)).
Proof.
  intros Hok. cbv zeta. split; [|split].
  - destruct (on_message_effect e msg s) as [Hf [Hp|(m & o & st & Hp)]];
      rewrite Hp, Hf.
    + repeat split; auto.
    + split; [intros k; apply dict_set_keeps_key|].
      split; [apply dict_set_length | reflexivity].
  - destruct (process_ihc_event_effect event s) as [E|(key & inf & Hg & E)];
      rewrite E.
    + repeat split; auto.
    + destruct s as [rn w th ev pd fl lc]. cbn in *.
      split; [intros k i; apply dict_del_in|].
      split; [|reflexivity].
      clear -Hg. induction pd as [|[k0 v0] pd IH]; simpl in *; [lia|].
      destruct (k0 =? key)%string; simpl; [lia|].
      specialize (IH Hg). lia.
  - destruct (sweep_effect e s Hok) as [Hp _]. rewrite Hp.
    intros k inf. apply fold_del_in.
Qed.

(** On [burst 111], swept at clock reading 111, nothing is left. *)
Lemma registry_writers_witness :
  dict_ok (pending_confirmations (burst 111)) /\
  (forall k, In k (keys (pending_confirmations (burst 111))) ->
             In k (keys (pending_confirmations
                           (state_of (on_message (answering 111)
                                        example_command (burst 111)))))) /\
  (forall k inf,
      In (k, inf) (pending_confirmations (after (answering 111) (burst 111)))
      -> In (k, inf) (pending_confirmations (burst 111))).
Proof.
  assert (Hok : dict_ok (pending_confirmations (burst 111))).
  { unfold dict_ok. cbn. repeat constructor; cbn; intuition discriminate. }
  split; [exact Hok|].
  pose proof (registry_writers (answering 111) example_command example_event
                (burst 111) Hok) as H.
  cbv zeta in H. destruct H as ((H1 & _) & _ & H3).
  split; [exact H1 | exact H3].
Defined.

(* ================================================================= *)
(** ** Further properties: the probe, other payloads, exceptions *)

(** X23 -- [test_ihc_connection] posts one [getAll] request and returns
    [True] exactly when the answer has status 200 and a body that
    [response.json()] decodes; it then has published the states of the
    reply as [process_ihc_states] does.  On another status it returns
    [False] without reading the body; when the post, or [json()] on a
    status-200 answer, raises a [RequestException] it returns [False]; any
    other exception of the two leaves the method.  In all these cases
    nothing is published, and the bridge object is never changed. *)
Theorem probe_outcome (o : http_outcome) (s : bridge) :
  let r := test_ihc_connection o s in
  state_of r = s /\
  count is_probe (trace_of r) = 1%nat /\
  (result_of r = Ok true <-> answer_ok o = true) /\
  match o with
  | Response c _ (Decoded data) =>
      result_of r = Ok (c =? 200) /\
      filter is_publish (trace_of r)
      = (if c =? 200
         then announced "output" (outputModules data) ++
              announced "input" (inputModules data)
         else [])%list
  | Response c _ (Undecodable ex) =>
      result_of r = (if (c =? 200) && negb (is_class RequestException ex)
                     then Raised ex else Ok false) /\
      filter is_publish (trace_of r) = []
  | HttpRaises ex =>
      result_of r = (if is_class RequestException ex then Ok false
                     else Raised ex) /\
      filter is_publish (trace_of r) = []
  end.
Proof.
  cbv zeta. rewrite test_ihc_connection_spec. cbv zeta. unfold answer_ok.
  destruct o as [c txt [data|ex]|ex].
  - destruct (c =? 200).
    + destruct (initial_calls_counts data s) as [C1 _].
      unfold state_of, result_of, trace_of. cbn [fst snd].
      split; [reflexivity|]. split.
      * rewrite !count_app, C1. reflexivity.
      * split; [tauto|]. split; [reflexivity|].
        rewrite process_ihc_states_calls. cbn [snd].
        rewrite !filter_app, !publish_initial_publishes.
        cbn [filter is_publish app]. now rewrite app_nil_r.
    + repeat split; intros H; discriminate H.
  - destruct (c =? 200); cbn [andb];
      [destruct (is_class RequestException ex); cbn [negb]|];
      repeat split; intros H; discriminate H.
  - destruct (is_class RequestException ex);
      repeat split; intros H; discriminate H.
Qed.

(** X24 -- The payload of a device command is not validated: every
    payload whose upper-cased text is not [ON] is a command to switch the
    output off.  The write posted carries [state: False]; when the
    controller accepts it the entry registered expects [False] and the
    retained echo is [OFF]. *)
Theorem other_payload_switches_off
  (e : env) (s : bridge) (t ms os text : string) (m o : Z) :
  device_set_topic t ms os ->
  py_int ms = Some m -> py_int os = Some o ->
  upper text <> "ON" ->
  let r := on_message e (mk_message t (Utf8 text)) s in
  result_of r = Ok tt /\
  In (Post (SetOutput m o false) true) (trace_of r) /\
  ~ In (Post (SetOutput m o true) true) (trace_of r) /\
  (forall txt body,
      post_setOutput e = Response 200 txt body ->
      state_of r = registered e m o false s /\
      In (Publish (state_topic "output" (str_int m) (str_int o)) "OFF" true)
        (trace_of r)).
Proof.
  intros Ht Hm Ho Hoff. cbv zeta.
  rewrite (on_message_device e s t ms os text m o Ht Hm Ho). cbv zeta.
  apply String.eqb_neq in Hoff. rewrite Hoff.
  rewrite set_ihc_output_spec. cbv zeta.
  destruct (post_setOutput e) as [c txt body|ex].
  - destruct (Z.eqb_spec c 200) as [->|Hc];
      unfold result_of, state_of, trace_of; cbn [fst snd app];
      (split; [reflexivity|]); (split; [simpl; tauto|]); split.
    + unfold echo, sending_log, received_log. simpl. intuition discriminate.
    + intros txt' body' _. split; [reflexivity|].
      unfold echo, on_off. simpl. tauto.
    + unfold sending_log, received_log. simpl. intuition discriminate.
    + intros txt' body' [= E _ _]. congruence.
  - destruct (is_class RequestException ex);
      unfold result_of, state_of, trace_of; cbn [fst snd app];
      (split; [reflexivity|]); (split; [simpl; tauto|]); split;
      try (intros txt' body' H; discriminate H);
      unfold sending_log, received_log; simpl; intuition discriminate.
Qed.

(** The payload [toggle] on [ihc/output/4/2/set]. *)
Lemma other_payload_switches_off_witness :
  device_set_topic "ihc/output/4/2/set" "4" "2" /\
  py_int "4" = Some 4 /\ py_int "2" = Some 2 /\
  upper "toggle" <> "ON" /\
  In (Post (SetOutput 4 2 false) true)
    (trace_of (on_message (answering 100)
                 (mk_message "ihc/output/4/2/set" (Utf8 "toggle")) init)).
Proof.
  assert (Ht : device_set_topic "ihc/output/4/2/set" "4" "2")
    by (repeat split; reflexivity).
  assert (Hn : upper "toggle" <> "ON") by discriminate.
  split; [exact Ht|]. split; [reflexivity|]. split; [reflexivity|].
  split; [exact Hn|].
  exact (proj1 (proj2 (other_payload_switches_off (answering 100) init
                         "ihc/output/4/2/set" "4" "2" "toggle" 4 2
                         Ht eq_refl eq_refl Hn))).
Defined.

